(** * Active-space reduction, composite properties and the direct mapper

  A shallow embedding of the Python sources of qiskit-nature
  (ActiveSpaceTransformer, CompositeProperty, IntegralProperty,
  ElectronicDriverResult, DirectMapper) and the properties proved of it.

  Conventions.  Python integers are [Z]; [//] and [%] by a positive
  divisor are [Z.div] and [Z.modulo] (both round towards minus infinity).
  Entries of numpy arrays are exact rationals [Q].  A Python call that may
  raise returns [result A]: [Ok a] for a returned value and [Raise e] for a
  raised exception.  A [dict] is an association list in insertion order. *)

From Stdlib Require Import ZArith QArith Qabs List String Bool Lia.
From Stdlib Require Import DecimalString.
Import ListNotations.

Local Open Scope string_scope.
Local Open Scope list_scope.
Local Open Scope Z_scope.
Local Set Warnings "-register-all".

(** ** Python values, exceptions and dictionaries *)

Module Py.

(** The exceptions the modelled code can raise.  [QiskitNatureError]
    carries its positional arguments and the exception it was raised
    from ([raise ... from exc]). *)
Inductive exn : Type :=
| QiskitNatureError (args : list string) (cause : option exn)
| NotImplementedError
| AttributeError (attr : string)
| KeyError (key : string)
| IndexError
| TypeError
| ValueError
| RuntimeError (msg : string)
| UnboundLocalError (var : string).

Inductive result (A : Type) : Type :=
| Ok (a : A)
| Raise (e : exn).
Arguments Ok {A} a.
Arguments Raise {A} e.

Definition bind {A B} (c : result A) (k : A -> result B) : result B :=
  match c with
  | Ok a => k a
  | Raise e => Raise e
  end.

Definition is_ok {A} (c : result A) : bool :=
  match c with Ok _ => true | Raise _ => false end.

(** [range(n)] and [range(a, b)]. *)
Definition range2 (a b : Z) : list Z :=
  map (fun k => a + Z.of_nat k) (seq 0 (Z.to_nat (b - a))).
Definition range (n : Z) : list Z := range2 0 n.

(** [[v] * k]: empty when [k] is not positive. *)
Definition replicate {A} (v : A) (k : Z) : list A := repeat v (Z.to_nat k).

(** [o in l] for a list of integers. *)
Definition mem (o : Z) (l : list Z) : bool := existsb (Z.eqb o) l.

(** [max(l)]: raises [ValueError] on an empty sequence. *)
Definition max (l : list Z) : result Z :=
  match l with
  | [] => Raise ValueError
  | a :: r => Ok (fold_left Z.max r a)
  end.

(** [str(n)] for an integer. *)
Definition str_int (n : Z) : string := NilZero.string_of_int (Z.to_int n).

(** Insertion-ordered dictionaries with string keys. *)
Definition dict (V : Type) : Type := list (string * V).

Fixpoint get {V} (d : dict V) (k : string) : option V :=
  match d with
  | [] => None
  | (k', v) :: r => if String.eqb k k' then Some v else get r k
  end.

(** [d[k] = v]: an existing key keeps its position, a new key goes last. *)
Fixpoint set {V} (d : dict V) (k : string) (v : V) : dict V :=
  match d with
  | [] => [(k, v)]
  | (k', v') :: r =>
      if String.eqb k k' then (k', v) :: r else (k', v') :: set r k v
  end.

Definition keys {V} (d : dict V) : list string := map fst d.
Definition values {V} (d : dict V) : list V := map snd d.

(** [d[k]] as an expression: [KeyError] when the key is absent. *)
Definition getitem {V} (d : dict V) (k : string) : result V :=
  match get d k with
  | Some v => Ok v
  | None => Raise (KeyError k)
  end.

End Py.

Import Py.

Declare Scope py_scope.
Delimit Scope py_scope with py.
Notation "x <- c ;; k" := (Py.bind c (fun x => k))
  (at level 61, c at next level, right associativity) : py_scope.
Notation "c ;;; k" := (Py.bind c (fun _ => k))
  (at level 61, right associativity) : py_scope.
Local Open Scope py_scope.

(** ** numpy arrays over exact rationals *)

Module Np.

Definition vector : Type := list Q.
(** A two-dimensional array is the list of its rows. *)
Definition matrix : Type := list (list Q).

Definition ncols (m : matrix) : nat :=
  match m with [] => O | r :: _ => List.length r end.

(** [a[i]] for an integer index: negative indices count from the end,
    anything outside [-len, len) raises [IndexError]. *)
Definition index {A} (a : list A) (i : Z) : result A :=
  let n := Z.of_nat (List.length a) in
  let j := if i <? 0 then i + n else i in
  if (j <? 0) || (n <=? j) then Raise IndexError
  else match nth_error a (Z.to_nat j) with
       | Some v => Ok v
       | None => Raise IndexError
       end.

(** The indices that need no wrap-around. *)
Definition in_bounds {A} (a : list A) (i : Z) : Prop :=
  0 <= i < Z.of_nat (List.length a).

(** [a[idxs]] for a list of integer indices (fancy indexing). *)
Fixpoint take {A} (a : list A) (idxs : list Z) : result (list A) :=
  match idxs with
  | [] => Ok []
  | i :: r =>
      v <- index a i ;;
      vs <- take a r ;;
      Ok (v :: vs)
  end.

(** [m[:, idxs]]: the selected columns of every row.  The array without
    rows has shape (0, 0), where every column index is out of bounds. *)
Fixpoint take_rows (m : matrix) (idxs : list Z) : result matrix :=
  match m with
  | [] => Ok []
  | row :: rest =>
      r <- take row idxs ;;
      rs <- take_rows rest idxs ;;
      Ok (r :: rs)
  end.
Definition take_cols (m : matrix) (idxs : list Z) : result matrix :=
  match m, idxs with
  | [], _ :: _ => Raise IndexError
  | _, _ => take_rows m idxs
  end.

(** Broadcasting of one axis: equal lengths, or one of them is 1. *)
Definition bshape (a b : nat) : option nat :=
  if Nat.eqb a b then Some a
  else if Nat.eqb a 1 then Some b
  else if Nat.eqb b 1 then Some a
  else None.

Definition bget {A} (d : A) (a : list A) (i : nat) : A :=
  if Nat.eqb (List.length a) 1 then nth 0 a d else nth i a d.

(** [a + b] on one-dimensional arrays. *)
Definition add (a b : vector) : result vector :=
  match bshape (List.length a) (List.length b) with
  | Some n => Ok (map (fun i => Qplus (bget 0%Q a i) (bget 0%Q b i)) (seq 0 n))
  | None => Raise ValueError
  end.

(** [numpy.isclose] with the default tolerances
    [rtol = 1e-05], [atol = 1e-08]. *)
Definition rtol : Q := 1 # 100000.
Definition atol : Q := 1 # 100000000.
Definition isclose (a b : Q) : bool :=
  Qle_bool (Qabs (a - b)) (atol + rtol * Qabs b).

(** [numpy.allclose(a, b)] on two-dimensional arrays; shapes that do not
    broadcast raise [ValueError]. *)
Definition allclose (a b : matrix) : result bool :=
  match bshape (List.length a) (List.length b), bshape (ncols a) (ncols b) with
  | Some nr, Some nc =>
      Ok (forallb
            (fun i =>
               forallb
                 (fun j =>
                    isclose (bget 0%Q (bget [] a i) j) (bget 0%Q (bget [] b i) j))
                 (seq 0 nc))
            (seq 0 nr))
  | _, _ => Raise ValueError
  end.

(** [m * v]: a vector broadcast along the rows of a two-dimensional
    array scales column [k] by [v[k]]. *)
Fixpoint mulv (r v : vector) : vector :=
  match r, v with
  | a :: r', b :: v' => Qmult a b :: mulv r' v'
  | _, _ => []
  end.
Definition scale_cols (m : matrix) (v : vector) : matrix :=
  map (fun r => mulv r v) m.

Fixpoint vdot (a b : vector) : Q :=
  match a, b with
  | x :: a', y :: b' => Qplus (Qmult x y) (vdot a' b')
  | _, _ => 0%Q
  end.

(** [numpy.dot(a, numpy.transpose(b))]: entry [(i, j)] is the inner
    product of row [i] of [a] with row [j] of [b]. *)
Definition dot_transpose (a b : matrix) : matrix :=
  map (fun ra => map (fun rb => vdot ra rb) b) a.

(** Built-in [sum] over a one-dimensional array.  Entries are exact
    rationals: the float64 additions of the code give this value when
    every partial sum is an integer below 2^53, as for integer occupation
    numbers; on other entries the code rounds where this sum does not. *)
Definition sum (v : vector) : Q := fold_left Qplus v 0%Q.

(** The matrix product [c . diag(o) . c^T] of the specification, written
    out by entries: entry [(i, j)] is the sum over [k] and [l] of
    [c[i][k] * diag(o)[k][l] * c[j][l]]. *)
Fixpoint qsum (n : nat) (f : nat -> Q) : Q :=
  match n with
  | O => 0%Q
  | S n' => Qplus (f O) (qsum n' (fun k => f (S k)))
  end.
Definition entry (m : matrix) (i k : nat) : Q := nth k (nth i m []) 0%Q.
Definition diag_entry (o : vector) (k l : nat) : Q :=
  if Nat.eqb k l then nth k o 0%Q else 0%Q.
Definition congruence_entry (c : matrix) (o : vector) (i j : nat) : Q :=
  qsum (List.length o)
       (fun k =>
          qsum (List.length o)
               (fun l => Qmult (Qmult (entry c i k) (diag_entry o k l))
                               (entry c j l))).

(** Equality of arrays entry by entry, up to the value of the fractions. *)
Definition vec_eq (a b : vector) : Prop := Forall2 Qeq a b.
Definition mat_eq (a b : matrix) : Prop := Forall2 vec_eq a b.

End Np.

(** ** DirectMapper *)

Module DirectMapper.

(** [qiskit.quantum_info.Pauli((z, x))]: a Pauli string given by its two
    boolean vectors.  On qubit [k] the pair [(z[k], x[k])] reads
    [(0,0)] = I, [(0,1)] = X, [(1,1)] = Y, [(1,0)] = Z. *)
Record Pauli : Type := mkPauli { pauli_z : list bool; pauli_x : list bool }.

Inductive letter : Type := PauliI | PauliX | PauliY | PauliZ.

Definition letter_at (p : Pauli) (k : nat) : option letter :=
  match nth_error (pauli_z p) k, nth_error (pauli_x p) k with
  | Some false, Some false => Some PauliI
  | Some false, Some true => Some PauliX
  | Some true, Some true => Some PauliY
  | Some true, Some false => Some PauliZ
  | _, _ => None
  end.

Definition num_qubits (p : Pauli) : nat := List.length (pauli_z p).

(** The part of a [VibrationOp] that [map] reads. *)
Record VibrationOp : Type := mkVibrationOp { num_modals : list Z }.

(** [[0] * i + [b] + [0] * (nmodes - i - 1)] as a boolean array. *)
Definition row (b : bool) (i nmodes : Z) : list bool :=
  Py.replicate false i ++ [b] ++ Py.replicate false (nmodes - i - 1).

Definition pauli_table (nmodes : Z) : list (Pauli * Pauli) :=
  List.map
    (fun i =>
       let a_z := row false i nmodes in
       let a_x := row true i nmodes in
       let b_z := row true i nmodes in
       let b_x := row true i nmodes in
       (mkPauli a_z a_x, mkPauli b_z b_x))
    (Py.range nmodes).

(** [map]: the table is handed to [QubitMapper.mode_based_mapping], which
    is a parameter here. *)
Definition map {PauliSumOp : Type}
    (mode_based_mapping : VibrationOp -> list (Pauli * Pauli) -> PauliSumOp)
    (second_q_op : VibrationOp) : PauliSumOp :=
  let nmodes := fold_left Z.add (num_modals second_q_op) 0 in
  mode_based_mapping second_q_op (pauli_table nmodes).

End DirectMapper.

(** ** CompositeProperty *)

Module CompositeProperty.

Section Composite.

(** [Property] is the interface of the contained objects; all the
    composite uses of it is its [name]. *)
Variable Property : Type.
Variable name : Property -> string.

Record CompositeProperty : Type := mkComposite {
  composite_name : string;
  _properties : Py.dict Property
}.

Definition init (nm : string) : CompositeProperty := mkComposite nm [].

Definition add_property (self : CompositeProperty) (prop : Property)
  : CompositeProperty :=
  mkComposite (composite_name self) (Py.set (_properties self) (name prop) prop).

(** [get_property] takes a name or a class, whose [__name__] is used. *)
Inductive prop_key : Type := ByName (s : string) | ByType (class_name : string).

Definition get_property (self : CompositeProperty) (prop : prop_key)
  : option Property :=
  let nm := match prop with ByName s => s | ByType c => c end in
  Py.get (_properties self) nm.

(** The generator returned by [_generator].  Suspended at its [yield] it
    holds the iterator over [self._properties.values()]: the size of the
    dictionary when the iteration began and the position of the next
    entry. *)
Inductive generator : Type :=
| Created
| Suspended (di_used : nat) (di_pos : nat)
| Finished.

(** What resuming the generator hands back to the caller. *)
Inductive outcome : Type :=
| Yield (prop : Property)
| StopIteration
| Raised (e : Py.exn).

(** One step of the dictionary iterator: it refuses a dictionary whose
    size changed since the iteration began. *)
Definition next_value (self : CompositeProperty) (di_used di_pos : nat)
  : generator * outcome :=
  if negb (Nat.eqb (List.length (_properties self)) di_used)
  then (Finished, Raised (RuntimeError "dictionary changed size during iteration"))
  else match nth_error (Py.values (_properties self)) di_pos with
       | Some prop => (Suspended di_used (S di_pos), Yield prop)
       | None => (Finished, StopIteration)
       end.

(** [gen.send(value)]; [next(gen)] is [send None].  The composite is the
    object the generator and its caller share, so it is threaded through. *)
Definition send (self : CompositeProperty) (gen : generator)
    (new_property : option Property)
  : CompositeProperty * generator * outcome :=
  match gen with
  | Created =>
      match new_property with
      | Some _ => (self, Created, Raised TypeError)
      | None =>
          let '(g, o) := next_value self (List.length (_properties self)) 0 in
          (self, g, o)
      end
  | Suspended di_used di_pos =>
      let self' := match new_property with
                   | Some p => add_property self p
                   | None => self
                   end in
      let '(g, o) := next_value self' di_used di_pos in
      (self', g, o)
  | Finished => (self, Finished, StopIteration)
  end.

(** The key under which the element yielded last is stored. *)
Definition yielded_key (self : CompositeProperty) (gen : generator)
  : option string :=
  match gen with
  | Suspended _ (S k) => nth_error (Py.keys (_properties self)) k
  | _ => None
  end.

(** [list(self)]: [__iter__] hands out a new generator, and [next] is
    called until it raises [StopIteration].  [fuel] bounds the number of
    [next] calls; [None] is a loop that was cut short. *)
Fixpoint for_each (fuel : nat) (self : CompositeProperty) (gen : generator)
  : option (CompositeProperty * result (list Property)) :=
  match fuel with
  | O => None
  | S fuel' =>
      match send self gen None with
      | (self', gen', Yield prop) =>
          match for_each fuel' self' gen' with
          | Some (self'', Ok props) => Some (self'', Ok (prop :: props))
          | other => other
          end
      | (self', _, StopIteration) => Some (self', Ok [])
      | (self', _, Raised e) => Some (self', Raise e)
      end
  end.

Definition to_list (self : CompositeProperty)
  : option (CompositeProperty * result (list Property)) :=
  for_each (S (List.length (_properties self))) self Created.

(** The shape [add_property] gives the dictionary: every property sits
    under its own name, and no name occurs twice. *)
Definition well_keyed (self : CompositeProperty) : Prop :=
  NoDup (Py.keys (_properties self)) /\
  Forall (fun kv => fst kv = name (snd kv)) (_properties self).

End Composite.

Arguments mkComposite {Property} _ _.
Arguments composite_name {Property} _.
Arguments _properties {Property} _.
Arguments Yield {Property} _.
Arguments StopIteration {Property}.
Arguments Raised {Property} _.

End CompositeProperty.

(** ** Electronic bases and the basis transform *)

Inductive ElectronicBasis : Type := AO | MO | SO.

Definition basis_eqb (a b : ElectronicBasis) : bool :=
  match a, b with
  | AO, AO | MO, MO | SO, SO => true
  | _, _ => false
  end.

(** Modelled from the spec: the class ElectronicBasisTransform is not among
    the sources.  It holds the two basis tags and the coefficient matrices
    of the alpha and the beta spin channel; the transformer builds one with
    [None] for the beta matrix, so that field is optional. *)
Record ElectronicBasisTransform : Type := mkElectronicBasisTransform {
  initial_basis : ElectronicBasis;
  final_basis : ElectronicBasis;
  coeff_alpha : Np.matrix;
  coeff_beta : option Np.matrix
}.

(** ** IntegralProperty *)

(** The operations of a second-quantized operator that [second_q_ops]
    relies on: [a + b], the reflected [n + a] for an integer [n] on the
    left (built-in [sum] starts from the integer 0), and [reduce]. *)
Class OperatorAlgebra (Op : Type) : Type := {
  op_add : Op -> Op -> Op;
  op_radd_int : Z -> Op -> Op;
  op_reduce : Op -> Op
}.

Module IntegralProperty.

Section Integrals.

Variable ElectronicIntegrals : Type.
Variable FermionicOp : Type.
Context `{OperatorAlgebra FermionicOp}.
Variable to_second_q_op : ElectronicIntegrals -> FermionicOp.

Record IntegralProperty : Type := mkIntegralProperty {
  name : string;
  _electronic_integrals : list (ElectronicBasis * list ElectronicIntegrals);
  _shift : Py.dict Q
}.

(** [basis in d.keys()] and [d[basis]]. *)
Fixpoint lookup (d : list (ElectronicBasis * list ElectronicIntegrals))
    (b : ElectronicBasis) : option (list ElectronicIntegrals) :=
  match d with
  | [] => None
  | (b', v) :: r => if basis_eqb b b' then Some v else lookup r b
  end.

(** The accumulator of built-in [sum]: the integer it starts from, or an
    operator once one was added. *)
Inductive accumulator : Type :=
| AccInt (n : Z)
| AccOp (op : FermionicOp).

Definition accumulate (acc : accumulator) (op : FermionicOp) : accumulator :=
  match acc with
  | AccInt n => AccOp (op_radd_int n op)
  | AccOp a => AccOp (op_add a op)
  end.

Definition py_sum (ops : list FermionicOp) : accumulator :=
  fold_left accumulate ops (AccInt 0).

Definition second_q_ops (self : IntegralProperty) : result (list FermionicOp) :=
  let ints :=
    match lookup (_electronic_integrals self) SO with
    | Some l => Some l
    | None =>
        match lookup (_electronic_integrals self) MO with
        | Some l => Some l
        | None => None
        end
    end in
  match ints with
  | None => Raise TypeError
  | Some l =>
      match py_sum (List.map to_second_q_op l) with
      | AccInt _ => Raise (AttributeError "reduce")
      | AccOp op => Ok [op_reduce op]
      end
  end.

Definition from_driver_result {DriverResult : Type} (result : DriverResult)
  : Py.result IntegralProperty :=
  Raise NotImplementedError.

(** The sum of the operator contributions, as an algebraic expression. *)
Definition operator_sum (first : ElectronicIntegrals)
    (rest : list ElectronicIntegrals) : FermionicOp :=
  fold_left op_add (List.map to_second_q_op rest) (to_second_q_op first).

End Integrals.

End IntegralProperty.

(** ** ParticleNumber and the properties of a driver result *)

(** Modelled from the spec: the class ParticleNumber is not among the
    sources.  It holds the total spin-orbital count, the alpha and beta
    electron counts and the occupation vectors; its constructor
    [ParticleNumber(num_spin_orbitals, num_particles, occupation,
    occupation_beta)] stores its arguments.  The attribute names are the
    ones the transformer reads. *)
Record ParticleNumber : Type := mkParticleNumber {
  _num_spin_orbitals : Z;
  _num_alpha : Z;
  _num_beta : Z;
  _occupation_alpha : Np.vector;
  _occupation_beta : Np.vector
}.

Definition ParticleNumber_init (num_spin_orbitals : Z) (num_particles : Z * Z)
    (occupation occupation_beta : Np.vector) : ParticleNumber :=
  mkParticleNumber num_spin_orbitals (fst num_particles) (snd num_particles)
                   occupation occupation_beta.

(** The properties a driver result holds: the particle number, or any
    other property, which the transformer treats through its name and its
    [reduce_system_size] only. *)
Inductive SecondQuantizedProperty : Type :=
| ParticleNumberProperty (pn : ParticleNumber)
| OtherProperty (nm : string) (data : list Np.matrix).

Definition property_name (p : SecondQuantizedProperty) : string :=
  match p with
  | ParticleNumberProperty _ => "ParticleNumber"
  | OtherProperty nm _ => nm
  end.

(** ** ElectronicDriverResult *)

Module ElectronicDriverResult.

Record ElectronicDriverResult : Type := mkElectronicDriverResult {
  properties : Py.dict SecondQuantizedProperty;
  electronic_basis_transform : option ElectronicBasisTransform
}.

Definition init : ElectronicDriverResult := mkElectronicDriverResult [] None.

Definition add_property (self : ElectronicDriverResult)
    (prop : SecondQuantizedProperty) : ElectronicDriverResult :=
  mkElectronicDriverResult
    (Py.set (properties self) (property_name prop) prop)
    (electronic_basis_transform self).

(** Attribute access [self.attr].  The instance dictionary holds what
    [__init__] assigns; the class supplies its methods. *)
Inductive attribute : Type :=
| AttrProperties (d : Py.dict SecondQuantizedProperty)
| AttrBasisTransform (t : option ElectronicBasisTransform)
| AttrClass (nm : string).

Definition instance_dict (self : ElectronicDriverResult) : Py.dict attribute :=
  [("properties", AttrProperties (properties self));
   ("electronic_basis_transform",
    AttrBasisTransform (electronic_basis_transform self))].

Definition class_namespace : list string :=
  ["__init__"; "add_property"; "from_driver_result"; "second_q_ops"].

(** Modelled from the spec: the base classes SecondQuantizedProperty and
    Property are not among the sources.  A property has a name, produces
    second-quantized operators and may reduce itself to a subsystem; the
    sources also call [_validate_input_type] on the class. *)
Definition inherited_namespace : list string :=
  ["name"; "reduce_system_size"; "_validate_input_type"].

Definition getattr (self : ElectronicDriverResult) (attr : string)
  : result attribute :=
  match Py.get (instance_dict self) attr with
  | Some v => Ok v
  | None =>
      if existsb (String.eqb attr) (class_namespace ++ inherited_namespace)
      then Ok (AttrClass attr)
      else Raise (AttributeError attr)
  end.

(** [second_q_ops]; [call] stands for [value.second_q_ops()] on whatever
    an attribute holds. *)
Definition second_q_ops {FermionicOp : Type}
    (call : attribute -> result (list FermionicOp))
    (self : ElectronicDriverResult) : result (list FermionicOp) :=
  let ops : list FermionicOp := [] in
  a <- getattr self "electronic_energy_mo" ;;
  l <- call a ;;
  let ops := ops ++ l in
  a <- getattr self "particle_number" ;;
  l <- call a ;;
  let ops := ops ++ l in
  a <- getattr self "angular_momentum" ;;
  l <- call a ;;
  let ops := ops ++ l in
  a <- getattr self "magnetization" ;;
  l <- call a ;;
  let ops := ops ++ l in
  a <- getattr self "total_dipole_moment" ;;
  l <- call a ;;
  let ops := ops ++ l in
  Ok ops.

(** [from_driver_result].  The type check of the base class, the
    [from_driver_result] of the five property classes, the electronic
    energy and the total dipole moment built from the atomic-orbital
    integrals, and the [ElectronicBasisTransform] built from the orbital
    coefficients of the legacy result are parameters. *)
Definition from_driver_result {LegacyDriverResult : Type}
    (_validate_input_type : LegacyDriverResult -> result unit)
    (energy_from_driver_result particle_number_from_driver_result
     angular_momentum_from_driver_result magnetization_from_driver_result
     dipole_moment_from_driver_result :
       LegacyDriverResult -> result SecondQuantizedProperty)
    (energy_ao dipole_moment_ao :
       LegacyDriverResult -> result SecondQuantizedProperty)
    (basis_transform_ao_mo : LegacyDriverResult -> ElectronicBasisTransform)
    (qmol : LegacyDriverResult) : result ElectronicDriverResult :=
  _validate_input_type qmol ;;;
  let ret := init in
  p <- energy_from_driver_result qmol ;;
  let ret := add_property ret p in
  p <- particle_number_from_driver_result qmol ;;
  let ret := add_property ret p in
  p <- angular_momentum_from_driver_result qmol ;;
  let ret := add_property ret p in
  p <- magnetization_from_driver_result qmol ;;
  let ret := add_property ret p in
  p <- dipole_moment_from_driver_result qmol ;;
  let ret := add_property ret p in
  p <- energy_ao qmol ;;
  let ret := add_property ret p in
  p <- dipole_moment_ao qmol ;;
  let ret := add_property ret p in
  Ok (mkElectronicDriverResult (properties ret)
                               (Some (basis_transform_ao_mo qmol))).

End ElectronicDriverResult.

(** ** ActiveSpaceTransformer *)

Module ActiveSpaceTransformer.

Import ElectronicDriverResult.

(** [num_electrons]: a single integer or an (alpha, beta) tuple. *)
Inductive electron_count : Type :=
| SingleCount (n : Z)
| SpinCounts (alpha beta : Z).

(** The attributes of a transformer: the configuration fixed by
    [__init__] and the two attributes [transform] assigns while it runs. *)
Record ActiveSpaceTransformer : Type := mkTransformer {
  _num_electrons : option electron_count;
  _num_molecular_orbitals : option Z;
  _active_orbitals : option (list Z);
  _mo_occ_total : option Np.vector;
  _num_particles : option (Z * Z)
}.

Definition init (num_electrons : option electron_count)
    (num_molecular_orbitals : option Z) (active_orbitals : option (list Z))
  : ActiveSpaceTransformer :=
  mkTransformer num_electrons num_molecular_orbitals active_orbitals None None.

Definition set_mo_occ_total (self : ActiveSpaceTransformer) (v : Np.vector)
  : ActiveSpaceTransformer :=
  mkTransformer (_num_electrons self) (_num_molecular_orbitals self)
                (_active_orbitals self) (Some v) (_num_particles self).

Definition set_num_particles (self : ActiveSpaceTransformer) (v : Z * Z)
  : ActiveSpaceTransformer :=
  mkTransformer (_num_electrons self) (_num_molecular_orbitals self)
                (_active_orbitals self) (_mo_occ_total self) (Some v).

(** [str(self._num_electrons)]. *)
Definition str_num_electrons (v : option electron_count) : string :=
  match v with
  | None => "None"
  | Some (SingleCount n) => Py.str_int n
  | Some (SpinCounts a b) =>
      ("(" ++ Py.str_int a ++ ", " ++ Py.str_int b ++ ")")%string
  end.

Definition _check_configuration (self : ActiveSpaceTransformer) : result unit :=
  match _num_electrons self with
  | Some (SingleCount n) =>
      if negb (n mod 2 =? 0) then
        Raise (QiskitNatureError
                 ["The number of active electrons must be even! Otherwise you must specify them as a tuple, not as:";
                  str_num_electrons (_num_electrons self)] None)
      else if n <? 0 then
        Raise (QiskitNatureError
                 ["The number of active electrons cannot be negative:";
                  str_num_electrons (_num_electrons self)] None)
      else Ok tt
  | Some (SpinCounts a b) =>
      if negb ((a >=? 0) && (b >=? 0)) then
        Raise (QiskitNatureError
                 ["Neither the number of alpha, nor the number of beta electrons can be negative:";
                  str_num_electrons (_num_electrons self)] None)
      else Ok tt
  | None =>
      Raise (QiskitNatureError
               ["The number of active electrons must be an int, or a tuple thereof, not:";
                str_num_electrons (_num_electrons self)] None)
  end ;;;
  match _num_molecular_orbitals self with
  | Some m =>
      if m <? 0 then
        Raise (QiskitNatureError
                 ["The number of active orbitals cannot be negative:";
                  Py.str_int m] None)
      else Ok tt
  | None =>
      Raise (QiskitNatureError
               ["The number of active orbitals must be an int, not:";
                str_num_electrons (_num_electrons self)] None)
  end.

(** [molecule_data.properties["ParticleNumber"].attr]. *)
Definition particle_number (molecule_data : ElectronicDriverResult)
    (attr : string) : result ParticleNumber :=
  p <- Py.getitem (properties molecule_data) "ParticleNumber" ;;
  match p with
  | ParticleNumberProperty pn => Ok pn
  | OtherProperty _ _ => Raise (AttributeError attr)
  end.

Definition _validate_num_electrons (nelec_inactive : Z) : result unit :=
  if nelec_inactive <? 0 then
    Raise (QiskitNatureError ["More electrons requested than available."] None)
  else if negb (nelec_inactive mod 2 =? 0) then
    Raise (QiskitNatureError ["The number of inactive electrons must be even."] None)
  else Ok tt.

(** An attribute that must hold a value for the expression to evaluate:
    arithmetic or indexing on [None] raises [TypeError]. *)
Definition not_none {A} (v : option A) : result A :=
  match v with
  | Some a => Ok a
  | None => Raise TypeError
  end.

(** [sum(occ) != self._num_electrons].  The sum is a numpy scalar: against
    an integer it compares by value, against [None] it is unequal, and
    against a tuple it compares element by element, giving an array with
    two entries whose truth value [if] refuses with [ValueError].  The
    comparison by value is on the exact sum: it is the comparison of the
    code where the float64 sum is exact (see [Np.sum]). *)
Definition sum_differs (total : Q) (num_electrons : option electron_count)
  : result bool :=
  match num_electrons with
  | Some (SingleCount n) => Ok (negb (Qeq_bool total (inject_Z n)))
  | Some (SpinCounts _ _) => Raise ValueError
  | None => Ok true
  end.

Definition _validate_num_orbitals (self : ActiveSpaceTransformer)
    (nelec_inactive : Z) (molecule_data : ElectronicDriverResult)
  : result unit :=
  match _active_orbitals self with
  | None =>
      let norbs_inactive := nelec_inactive / 2 in
      m <- not_none (_num_molecular_orbitals self) ;;
      pn <- particle_number molecule_data "_num_spin_orbitals" ;;
      if norbs_inactive + m >? _num_spin_orbitals pn / 2 then
        Raise (QiskitNatureError ["More orbitals requested than available."] None)
      else Ok tt
  | Some active =>
      (if match _num_molecular_orbitals self with
          | Some m => negb (m =? Z.of_nat (List.length active))
          | None => true
          end
       then Raise (QiskitNatureError
                     ["The number of selected active orbital indices does not match the specified number of active orbitals."]
                     None)
       else Ok tt) ;;;
      top <- Py.max active ;;
      pn <- particle_number molecule_data "_num_spin_orbitals" ;;
      (if top >=? _num_spin_orbitals pn / 2 then
         Raise (QiskitNatureError ["More orbitals requested than available."] None)
       else Ok tt) ;;;
      occ <- not_none (_mo_occ_total self) ;;
      sel <- Np.take occ active ;;
      differs <- sum_differs (Np.sum sel) (_num_electrons self) ;;
      if differs then
        Raise (QiskitNatureError
                 ["The number of electrons in the selected active orbitals does not match the specified number of active electrons."]
                 None)
      else Ok tt
  end.

(** [0 < q] on array entries. *)
Definition Qpositive (q : Q) : bool := negb (Qle_bool q 0).

(** The list comprehension of line 266: the orbitals [o] of [candidates]
    with [o not in active and occ[o] > 0], the second test evaluated only
    when the first holds. *)
Fixpoint select_inactive (active : list Z) (occ : Np.vector)
    (candidates : list Z) : result (list Z) :=
  match candidates with
  | [] => Ok []
  | o :: rest =>
      keep <- (if negb (Py.mem o active)
               then v <- Np.index occ o ;; Ok (Qpositive v)
               else Ok false) ;;
      tail <- select_inactive active occ rest ;;
      Ok (if keep then o :: tail else tail)
  end.

(** The requested (alpha, beta) counts of lines 240-243; no branch binds
    them when [num_electrons] is [None]. *)
Definition requested_counts (num_electrons : option electron_count)
  : option (Z * Z) :=
  match num_electrons with
  | Some (SpinCounts a b) => Some (a, b)
  | Some (SingleCount n) => Some (n / 2, n / 2)
  | None => None
  end.

(** The requested number of active electrons: the single integer, or the
    sum of the (alpha, beta) pair. *)
Definition requested_total (num_electrons : option electron_count)
  : option Z :=
  match num_electrons with
  | Some (SingleCount n) => Some n
  | Some (SpinCounts a b) => Some (a + b)
  | None => None
  end.

(** Returns the transformer with [_num_particles] assigned, and the pair
    (active indices, inactive indices) or the exception raised. *)
Definition _determine_active_space (self : ActiveSpaceTransformer)
    (molecule_data : ElectronicDriverResult)
  : ActiveSpaceTransformer * result (list Z * list Z) :=
  match particle_number molecule_data "_num_alpha" with
  | Raise e => (self, Raise e)
  | Ok pn =>
      let nelec_total := _num_alpha pn + _num_beta pn in
      match requested_counts (_num_electrons self) with
      | None => (self, Raise (UnboundLocalError "num_alpha"))
      | Some (num_alpha, num_beta) =>
          let nelec_inactive := nelec_total - num_alpha - num_beta in
          let self := set_num_particles self (num_alpha, num_beta) in
          (self,
           _validate_num_electrons nelec_inactive ;;;
           _validate_num_orbitals self nelec_inactive molecule_data ;;;
           match _active_orbitals self with
           | None =>
               let norbs_inactive := nelec_inactive / 2 in
               let inactive_orbs_idxs := Py.range norbs_inactive in
               m <- not_none (_num_molecular_orbitals self) ;;
               let active_orbs_idxs :=
                 Py.range2 norbs_inactive (norbs_inactive + m) in
               Ok (active_orbs_idxs, inactive_orbs_idxs)
           | Some active =>
               occ <- not_none (_mo_occ_total self) ;;
               inactive_orbs_idxs <-
                 select_inactive active occ (Py.range (nelec_total / 2)) ;;
               Ok (active, inactive_orbs_idxs)
           end)
      end
  end.

(** Lines 155-160 and 165-170: the inactive density of one spin channel,
    [dot(coeff[:, idxs] * occ[idxs], transpose(coeff[:, idxs]))]. *)
Definition density_inactive (mo_occ : Np.vector) (mo_coeff : Np.matrix)
    (inactive_orbs_idxs : list Z) : result Np.matrix :=
  mo_occ_inactive <- Np.take mo_occ inactive_orbs_idxs ;;
  mo_coeff_inactive <- Np.take_cols mo_coeff inactive_orbs_idxs ;;
  Ok (Np.dot_transpose (Np.scale_cols mo_coeff_inactive mo_occ_inactive)
                       mo_coeff_inactive).

Section Transform.

(** [prop.reduce_system_size(density_inactive, transform)] belongs to the
    property classes, which are parameters of the transformer. *)
Variable reduce_system_size :
  SecondQuantizedProperty -> Np.matrix * option Np.matrix ->
  ElectronicBasisTransform -> result SecondQuantizedProperty.

(** The loop of lines 184-190 over [molecule_data.properties.values()]. *)
Fixpoint reduce_properties (props : list SecondQuantizedProperty)
    (density : Np.matrix * option Np.matrix)
    (transform : ElectronicBasisTransform)
    (molecule_data_reduced : ElectronicDriverResult)
  : result ElectronicDriverResult :=
  match props with
  | [] => Ok molecule_data_reduced
  | prop :: rest =>
      match reduce_system_size prop density transform with
      | Ok reduced_prop =>
          reduce_properties rest density transform
                            (add_property molecule_data_reduced reduced_prop)
      | Raise NotImplementedError =>
          reduce_properties rest density transform molecule_data_reduced
      | Raise e => Raise e
      end
  end.

(** Lines 153-199, once the index lists are known. *)
Definition reduce_molecule (self : ActiveSpaceTransformer)
    (molecule_data : ElectronicDriverResult)
    (mo_coeff_full : Np.matrix * Np.matrix) (beta_spin : bool)
    (mo_occ_full : Np.vector * Np.vector)
    (active_orbs_idxs inactive_orbs_idxs : list Z)
  : result ElectronicDriverResult :=
  density_inactive_a <-
    density_inactive (fst mo_occ_full) (fst mo_coeff_full) inactive_orbs_idxs ;;
  density_inactive_b <-
    (if beta_spin
     then d <- density_inactive (snd mo_occ_full) (snd mo_coeff_full)
                                inactive_orbs_idxs ;;
          Ok (Some d)
     else Ok None) ;;
  let density := (density_inactive_a, density_inactive_b) in
  coeff_a <- Np.take_cols (fst mo_coeff_full) active_orbs_idxs ;;
  coeff_b <-
    (if beta_spin
     then c <- Np.take_cols (snd mo_coeff_full) active_orbs_idxs ;; Ok (Some c)
     else Ok None) ;;
  let transform := mkElectronicBasisTransform AO MO coeff_a coeff_b in
  molecule_data_reduced <-
    reduce_properties (Py.values (properties molecule_data)) density transform
                      ElectronicDriverResult.init ;;
  m <- not_none (_num_molecular_orbitals self) ;;
  num_particles <- not_none (_num_particles self) ;;
  occ_a <- Np.take (fst mo_occ_full) active_orbs_idxs ;;
  occ_b <- Np.take (snd mo_occ_full) active_orbs_idxs ;;
  Ok (mkElectronicDriverResult
        (Py.set (properties molecule_data_reduced) "ParticleNumber"
                (ParticleNumberProperty
                   (ParticleNumber_init (m / 2) num_particles occ_a occ_b)))
        (electronic_basis_transform molecule_data_reduced)).

(** Lines 139-149: what [transform] reads from the molecule data before
    it determines the active space. *)
Definition read_molecule (molecule_data : ElectronicDriverResult)
  : result (Np.matrix * Np.matrix * bool * (Np.vector * Np.vector) * Np.vector) :=
  ebt <- match electronic_basis_transform molecule_data with
         | Some t => Ok t
         | None => Raise (AttributeError "coeff_alpha")
         end ;;
  cb <- not_none (coeff_beta ebt) ;;
  beta_spin <- Np.allclose (coeff_alpha ebt) cb ;;
  pn <- particle_number molecule_data "_occupation_alpha" ;;
  mo_occ_total <- Np.add (_occupation_alpha pn) (_occupation_beta pn) ;;
  Ok (coeff_alpha ebt, cb, beta_spin,
      (_occupation_alpha pn, _occupation_beta pn), mo_occ_total).

(** [transform]: the transformer after the call and the reduced molecule
    data or the exception raised. *)
Definition transform (self : ActiveSpaceTransformer)
    (molecule_data : ElectronicDriverResult)
  : ActiveSpaceTransformer * result ElectronicDriverResult :=
  match _check_configuration self with
  | Raise (QiskitNatureError args cause) =>
      (self,
       Raise (QiskitNatureError ["Incorrect Active-Space configuration."]
                                (Some (QiskitNatureError args cause))))
  | Raise e => (self, Raise e)
  | Ok _ =>
      match read_molecule molecule_data with
      | Raise e => (self, Raise e)
      | Ok (ca, cb, beta_spin, mo_occ_full, mo_occ_total) =>
          let self := set_mo_occ_total self mo_occ_total in
          let (self, idxs) := _determine_active_space self molecule_data in
          (self,
           p <- idxs ;;
           reduce_molecule self molecule_data (ca, cb) beta_spin mo_occ_full
                           (fst p) (snd p))
      end
  end.

End Transform.

(** The contract of [reduce_system_size]: a reduced property, or
    [NotImplementedError] from a property that cannot reduce itself. *)
Definition reduces_or_unsupported
    (reduce_system_size :
       SecondQuantizedProperty -> Np.matrix * option Np.matrix ->
       ElectronicBasisTransform -> result SecondQuantizedProperty) : Prop :=
  forall prop density transform,
    (exists reduced, reduce_system_size prop density transform = Ok reduced) \/
    reduce_system_size prop density transform = Raise NotImplementedError.

(** Molecule data of consistent shape: a particle number [pn] over
    [_num_spin_orbitals pn / 2] spatial orbitals, occupation vectors of
    that length, and two coefficient matrices [ca], [cb] of one shape with
    a column per spatial orbital. *)
Record well_formed (molecule_data : ElectronicDriverResult)
    (pn : ParticleNumber) (ca cb : Np.matrix) : Prop := mkWellFormed {
  wf_transform :
    exists ib fb,
      electronic_basis_transform molecule_data
      = Some (mkElectronicBasisTransform ib fb ca (Some cb));
  wf_particle_number :
    Py.get (properties molecule_data) "ParticleNumber"
    = Some (ParticleNumberProperty pn);
  wf_occupation_alpha :
    Z.of_nat (List.length (_occupation_alpha pn)) = _num_spin_orbitals pn / 2;
  wf_occupation_beta :
    Z.of_nat (List.length (_occupation_beta pn)) = _num_spin_orbitals pn / 2;
  wf_rows : List.length ca = List.length cb;
  wf_cols_alpha :
    Forall (fun r => Z.of_nat (List.length r) = _num_spin_orbitals pn / 2) ca;
  wf_cols_beta :
    Forall (fun r => Z.of_nat (List.length r) = _num_spin_orbitals pn / 2) cb;
  wf_atomic_orbitals : ca <> []
}.

End ActiveSpaceTransformer.

(** ** VibrationalDriverResult *)

Module VibrationalDriverResult.

Section Vibrational.

Variable VibrationalBasis : Type.
Variable VibrationalOp : Type.

(** Modelled from the spec: the classes VibrationalProperty,
    VibrationalEnergy and OccupiedModals are not among the sources.  A
    vibrational property has a name, an assignable [basis] and whatever
    data it stores. *)
Record VibrationalProperty : Type := mkVibrationalProperty {
  name : string;
  basis : option VibrationalBasis;
  data : Z
}.

(** [prop.basis = basis]. *)
Definition with_basis (basis : VibrationalBasis) (prop : VibrationalProperty)
  : VibrationalProperty :=
  mkVibrationalProperty (name prop) (Some basis) (data prop).

(** [prop.second_q_ops()] belongs to the property classes. *)
Variable property_second_q_ops :
  VibrationalProperty -> result (list VibrationalOp).

(** Modelled from the spec: the base class DriverResult is not among the
    sources.  A driver result is a composite of its properties: it has the
    [_properties] dictionary, [add_property] and [get_property] of
    [CompositeProperty]. *)
Record VibrationalDriverResult : Type := mkVibrationalDriverResult {
  composite : CompositeProperty.CompositeProperty VibrationalProperty;
  _num_modes : option Z
}.

Definition init : VibrationalDriverResult :=
  mkVibrationalDriverResult
    (CompositeProperty.init VibrationalProperty "VibrationalDriverResult") None.

Definition num_modes (self : VibrationalDriverResult) : option Z :=
  _num_modes self.

Definition set_num_modes (self : VibrationalDriverResult) (n : Z)
  : VibrationalDriverResult :=
  mkVibrationalDriverResult (composite self) (Some n).

Definition add_property (self : VibrationalDriverResult)
    (prop : VibrationalProperty) : VibrationalDriverResult :=
  mkVibrationalDriverResult
    (CompositeProperty.add_property VibrationalProperty name (composite self) prop)
    (_num_modes self).

Definition get_property (self : VibrationalDriverResult)
    (prop : CompositeProperty.prop_key) : option VibrationalProperty :=
  CompositeProperty.get_property VibrationalProperty (composite self) prop.

(** [set_basis]: the loop assigns [basis] to every stored property. *)
Definition set_basis (self : VibrationalDriverResult)
    (basis : VibrationalBasis) : VibrationalDriverResult :=
  mkVibrationalDriverResult
    (CompositeProperty.mkComposite
       (CompositeProperty.composite_name (composite self))
       (List.map (fun kv => (fst kv, with_basis basis (snd kv)))
                 (CompositeProperty._properties (composite self))))
    (_num_modes self).

(** [self.get_property(cls).second_q_ops()]: a missing property is
    [None], which has no such method. *)
Definition ops_of (self : VibrationalDriverResult) (class_name : string)
  : result (list VibrationalOp) :=
  match get_property self (CompositeProperty.ByType class_name) with
  | Some prop => property_second_q_ops prop
  | None => Raise (AttributeError "second_q_ops")
  end.

Definition second_q_ops (self : VibrationalDriverResult)
  : result (list VibrationalOp) :=
  let ops : list VibrationalOp := [] in
  l <- ops_of self "VibrationalEnergy" ;;
  let ops := ops ++ l in
  l <- ops_of self "OccupiedModals" ;;
  let ops := ops ++ l in
  Ok ops.

(** [from_legacy_driver_result]: the type check of the base class, the
    Watson Hamiltonian's [num_modes] and the two property constructors
    are parameters. *)
Definition from_legacy_driver_result {LegacyDriverResult : Type}
    (_validate_input_type : LegacyDriverResult -> result unit)
    (watson_num_modes : LegacyDriverResult -> Z)
    (energy_from_legacy modals_from_legacy :
       LegacyDriverResult -> result VibrationalProperty)
    (legacy : LegacyDriverResult) : result VibrationalDriverResult :=
  _validate_input_type legacy ;;;
  let ret := init in
  let ret := set_num_modes ret (watson_num_modes legacy) in
  energy <- energy_from_legacy legacy ;;
  let ret := add_property ret energy in
  modals <- modals_from_legacy legacy ;;
  let ret := add_property ret modals in
  Ok ret.

End Vibrational.

End VibrationalDriverResult.

(** ** Concrete systems used in the examples *)

Module Examples.

Import ElectronicDriverResult ActiveSpaceTransformer.

(** A property that is its own name and a number. *)
Definition named : Type := string * Z.
Definition named_name (p : named) : string := fst p.

(** Operators that are plain numbers: addition, and nothing to reduce. *)
#[export] Instance Z_OperatorAlgebra : OperatorAlgebra Z := {
  op_add := Z.add;
  op_radd_int := fun n a => n + a;
  op_reduce := fun a => a
}.

Definition identity (n : nat) : Np.matrix :=
  map (fun i => map (fun j => if Nat.eqb i j then 1%Q else 0%Q) (seq 0 n))
      (seq 0 n).

(** The column-swapped identity on two orbitals. *)
Definition swap2 : Np.matrix := [[0%Q; 1%Q]; [1%Q; 0%Q]].

(** A [reduce_system_size] that keeps the densities it is handed: the
    particle number does not reduce itself, any other property returns
    the alpha density followed by the beta density when there is one. *)
Definition record_density (prop : SecondQuantizedProperty)
    (density : Np.matrix * option Np.matrix)
    (transform : ElectronicBasisTransform) : result SecondQuantizedProperty :=
  match prop with
  | ParticleNumberProperty _ => Raise NotImplementedError
  | OtherProperty nm _ =>
      Ok (OtherProperty nm
            (fst density :: match snd density with
                            | Some b => [b]
                            | None => []
                            end))
  end.

Definition molecule (pn : ParticleNumber) (ca cb : Np.matrix)
  : ElectronicDriverResult :=
  mkElectronicDriverResult
    [("ElectronicEnergy", OtherProperty "ElectronicEnergy" []);
     ("ParticleNumber", ParticleNumberProperty pn)]
    (Some (mkElectronicBasisTransform AO MO ca (Some cb))).

(** Two orbitals, one of them doubly occupied. *)
Definition pn_h2 : ParticleNumber :=
  mkParticleNumber 4 1 1 [1%Q; 0%Q] [1%Q; 0%Q].
Definition h2 : ElectronicDriverResult :=
  molecule pn_h2 (identity 2) (identity 2).

(** Two orbitals, both doubly occupied; spin-restricted and
    spin-unrestricted coefficients. *)
Definition pn_full : ParticleNumber :=
  mkParticleNumber 4 2 2 [1%Q; 1%Q] [1%Q; 1%Q].
Definition restricted : ElectronicDriverResult :=
  molecule pn_full (identity 2) (identity 2).
Definition unrestricted : ElectronicDriverResult :=
  molecule pn_full (identity 2) swap2.

(** Three orbitals of a high-spin system: three alpha electrons and one
    beta electron. *)
Definition pn_open_shell : ParticleNumber :=
  mkParticleNumber 6 3 1 [1%Q; 1%Q; 1%Q] [1%Q; 0%Q; 0%Q].
Definition open_shell : ElectronicDriverResult :=
  molecule pn_open_shell (identity 3) (identity 3).

(** Six orbitals holding ten electrons. *)
Definition pn_ten : ParticleNumber :=
  mkParticleNumber 12 5 5
    [1%Q; 1%Q; 1%Q; 1%Q; 1%Q; 0%Q] [1%Q; 1%Q; 1%Q; 1%Q; 1%Q; 0%Q].
Definition ten_electrons : ElectronicDriverResult :=
  molecule pn_ten (identity 6) (identity 6).

(** A [reduce_system_size] that fails on the property named "Bad". *)
Definition failing_reduce (prop : SecondQuantizedProperty)
    (density : Np.matrix * option Np.matrix)
    (transform : ElectronicBasisTransform) : result SecondQuantizedProperty :=
  match prop with
  | ParticleNumberProperty _ => Raise NotImplementedError
  | OtherProperty nm data =>
      if String.eqb nm "Bad" then Raise (RuntimeError "not reducible")
      else Ok (OtherProperty nm data)
  end.

(** The two-orbital system reduced to two electrons in two orbitals. *)
Definition h2_configuration : ActiveSpaceTransformer :=
  ActiveSpaceTransformer.init (Some (SingleCount 2)) (Some 2) None.
Definition h2_reduced : ElectronicDriverResult :=
  Eval vm_compute in
    match snd (transform record_density h2_configuration h2) with
    | Ok out => out
    | Raise _ => ElectronicDriverResult.init
    end.

(** The inactive density of orbital 0 of the fully occupied system. *)
Definition density_of_first_orbital : Np.matrix :=
  Eval vm_compute in
    match density_inactive [1%Q; 1%Q] (identity 2) [0] with
    | Ok d => d
    | Raise _ => []
    end.

(** Vibrational properties with numbers as basis and operators: the
    operators of a property are its data and, once set, its basis. *)
Definition vibrational_ops
    (prop : VibrationalDriverResult.VibrationalProperty Z)
  : result (list Z) :=
  Ok (VibrationalDriverResult.data Z prop
      :: match VibrationalDriverResult.basis Z prop with
         | Some b => [b]
         | None => []
         end).

End Examples.

(** * Properties *)

Import Examples.

(** ** Lists, ranges and dictionaries *)

Lemma range_length (n : Z) : List.length (Py.range n) = Z.to_nat n.
Proof.
  unfold Py.range, Py.range2. rewrite length_map, length_seq.
  f_equal. lia.
Qed.

Lemma range2_nth (a b : Z) (k : nat) :
  (k < Z.to_nat (b - a))%nat ->
  nth_error (Py.range2 a b) k = Some (a + Z.of_nat k).
Proof.
  intros Hk. unfold Py.range2.
  rewrite nth_error_map, nth_error_seq.
  destruct (Nat.ltb_spec k (Z.to_nat (b - a))); [reflexivity | lia].
Qed.

Lemma range2_In (a b o : Z) : In o (Py.range2 a b) <-> a <= o < b.
Proof.
  unfold Py.range2. rewrite in_map_iff. split.
  - intros (k & <- & Hk). apply in_seq in Hk. lia.
  - intros H. exists (Z.to_nat (o - a)). split; [lia|].
    apply in_seq. lia.
Qed.

Lemma range_In (n o : Z) : In o (Py.range n) <-> 0 <= o < n.
Proof. apply range2_In. Qed.

Lemma replicate_length {A} (v : A) (k : Z) :
  List.length (Py.replicate v k) = Z.to_nat k.
Proof. apply repeat_length. Qed.

Lemma replicate_nth {A} (v : A) (k : Z) (i : nat) :
  (i < Z.to_nat k)%nat -> nth_error (Py.replicate v k) i = Some v.
Proof.
  intros H. unfold Py.replicate.
  apply nth_error_repeat. exact H.
Qed.

(** ** DirectMapper *)

Section DirectMapperFacts.

Import DirectMapper.

Lemma row_length (b : bool) (i n : Z) :
  0 <= i < n -> List.length (row b i n) = Z.to_nat n.
Proof.
  intros H. unfold row.
  rewrite !length_app, !replicate_length. simpl. lia.
Qed.

Lemma row_nth_self (b : bool) (i n : Z) :
  0 <= i < n -> nth_error (row b i n) (Z.to_nat i) = Some b.
Proof.
  intros H. unfold row.
  rewrite nth_error_app2; rewrite replicate_length; [|lia].
  now rewrite Nat.sub_diag.
Qed.

Lemma row_nth_other (b : bool) (i n : Z) (k : nat) :
  0 <= i < n -> (k < Z.to_nat n)%nat -> k <> Z.to_nat i ->
  nth_error (row b i n) k = Some false.
Proof.
  intros H Hk Hne. unfold row.
  destruct (Nat.ltb_spec k (Z.to_nat i)) as [Hlt|Hge].
  - rewrite nth_error_app1 by (rewrite replicate_length; lia).
    apply replicate_nth. exact Hlt.
  - rewrite nth_error_app2 by (rewrite replicate_length; lia).
    rewrite replicate_length.
    destruct (k - Z.to_nat i)%nat as [|j] eqn:E; [lia|].
    simpl. apply replicate_nth. lia.
Qed.

Lemma pauli_table_nth (n i : Z) :
  0 <= i < n ->
  nth_error (pauli_table n) (Z.to_nat i) =
    Some (mkPauli (row false i n) (row true i n),
          mkPauli (row true i n) (row true i n)).
Proof.
  intros H. unfold pauli_table, Py.range.
  rewrite nth_error_map, range2_nth by lia.
  simpl. now rewrite Z2Nat.id by lia.
Qed.

(** C2, as amended: the table of an [n]-mode operator has [n] entries, and
    for every mode [i] both templates are [n] qubits wide and the identity
    away from qubit [i]; on qubit [i] the first template is X and the
    second is Y. *)
Theorem pauli_table_direct (n : Z) :
  List.length (pauli_table n) = Z.to_nat n /\
  forall i, 0 <= i < n ->
    exists a b,
      nth_error (pauli_table n) (Z.to_nat i) = Some (a, b) /\
      List.length (pauli_z a) = Z.to_nat n /\
      List.length (pauli_x a) = Z.to_nat n /\
      List.length (pauli_z b) = Z.to_nat n /\
      List.length (pauli_x b) = Z.to_nat n /\
      letter_at a (Z.to_nat i) = Some PauliX /\
      letter_at b (Z.to_nat i) = Some PauliY /\
      forall k, (k < Z.to_nat n)%nat -> k <> Z.to_nat i ->
        letter_at a k = Some PauliI /\ letter_at b k = Some PauliI.
Proof.
  split.
  - unfold pauli_table. now rewrite length_map, range_length.
  - intros i H. eexists _, _. split; [apply pauli_table_nth; exact H|].
    cbn [pauli_z pauli_x]. rewrite !row_length by exact H.
    repeat split; try reflexivity.
    + unfold letter_at; cbn [pauli_z pauli_x]. now rewrite !row_nth_self.
    + unfold letter_at; cbn [pauli_z pauli_x]. now rewrite !row_nth_self.
    + unfold letter_at; cbn [pauli_z pauli_x].
      now rewrite !row_nth_other.
    + unfold letter_at; cbn [pauli_z pauli_x].
      now rewrite !row_nth_other.
Qed.

Lemma pauli_table_direct_witness :
  exists a b,
    nth_error (pauli_table 3) (Z.to_nat 1) = Some (a, b) /\
    List.length (pauli_z a) = Z.to_nat 3 /\
    List.length (pauli_x a) = Z.to_nat 3 /\
    List.length (pauli_z b) = Z.to_nat 3 /\
    List.length (pauli_x b) = Z.to_nat 3 /\
    letter_at a (Z.to_nat 1) = Some PauliX /\
    letter_at b (Z.to_nat 1) = Some PauliY /\
    forall k, (k < Z.to_nat 3)%nat -> k <> Z.to_nat 1 ->
      letter_at a k = Some PauliI /\ letter_at b k = Some PauliI.
Proof. apply (proj2 (pauli_table_direct 3) 1). lia. Defined.

(** C2, as stated, fails on the one-mode operator: the second template of
    mode 0 is Y, not X, and the two templates differ. *)
Lemma pauli_table_templates_differ :
  exists a b,
    nth_error (pauli_table 1) 0 = Some (a, b) /\
    letter_at a 0 = Some PauliX /\
    letter_at b 0 = Some PauliY /\
    letter_at b 0 <> Some PauliX /\
    a <> b.
Proof.
  eexists _, _. split; [reflexivity|].
  repeat split; try reflexivity; discriminate.
Qed.

End DirectMapperFacts.

(** ** Dictionaries *)

Lemma get_set_same {V} (d : Py.dict V) (k : string) (v : V) :
  Py.get (Py.set d k v) k = Some v.
Proof.
  induction d as [|[k' v'] r IH]; simpl.
  - now rewrite String.eqb_refl.
  - destruct (String.eqb k k') eqn:E; simpl; rewrite E; [reflexivity|exact IH].
Qed.

Lemma get_set_other {V} (d : Py.dict V) (k k0 : string) (v : V) :
  k0 <> k -> Py.get (Py.set d k v) k0 = Py.get d k0.
Proof.
  intros Hne. induction d as [|[k' v'] r IH]; simpl.
  - destruct (String.eqb_spec k0 k); [contradiction|reflexivity].
  - destruct (String.eqb_spec k k') as [->|Hk]; simpl.
    + destruct (String.eqb_spec k0 k'); [contradiction|reflexivity].
    + now rewrite IH.
Qed.

Lemma keys_set_present {V} (d : Py.dict V) (k : string) (v : V) :
  In k (Py.keys d) -> Py.keys (Py.set d k v) = Py.keys d.
Proof.
  induction d as [|[k' v'] r IH]; simpl; [tauto|].
  intros Hin. destruct (String.eqb_spec k k') as [->|Hk]; simpl.
  - reflexivity.
  - f_equal. apply IH. destruct Hin; [congruence|assumption].
Qed.

Lemma keys_set_absent {V} (d : Py.dict V) (k : string) (v : V) :
  ~ In k (Py.keys d) -> Py.keys (Py.set d k v) = Py.keys d ++ [k].
Proof.
  induction d as [|[k' v'] r IH]; simpl; [reflexivity|].
  intros Hin. destruct (String.eqb_spec k k') as [->|Hk]; simpl.
  - tauto.
  - f_equal. apply IH. tauto.
Qed.

(** ** CompositeProperty *)

Section CompositeFacts.

Import CompositeProperty.

Variable Property : Type.
Variable name : Property -> string.

Local Abbreviation send := (send Property name).
Local Abbreviation add_property := (add_property Property name).
Local Abbreviation get_property := (get_property Property).
Local Abbreviation yielded_key := (yielded_key Property).

(** C8, as amended: a replacement sent to the suspended generator is
    written into the composite under the replacement's own name before the
    generator produces anything further; when that name is the key of the
    element yielded last the keys of the composite do not change and the
    next element comes from the updated composite; when nothing is sent the
    composite is unchanged. *)
Theorem generator_send_writes_back
    (self : CompositeProperty Property) (di_used di_pos : nat) :
  (forall p,
     let r := send self (Suspended di_used di_pos) (Some p) in
     fst (fst r) = add_property self p /\
     get_property (fst (fst r)) (ByName (name p)) = Some p /\
     (yielded_key self (Suspended di_used di_pos) = Some (name p) ->
      Py.keys (_properties (fst (fst r))) = Py.keys (_properties self) /\
      (List.length (_properties self) = di_used ->
       snd r = match nth_error (Py.values (_properties (add_property self p)))
                               di_pos with
               | Some q => Yield q
               | None => StopIteration
               end))) /\
  (forall gen, fst (fst (send self gen None)) = self).
Proof.
  split.
  - intros p. cbn zeta. unfold send.
    destruct (next_value Property (add_property self p) di_used di_pos)
      as [g o] eqn:E.
    cbn [fst snd]. split; [reflexivity|]. split.
    + unfold get_property, add_property. cbn [_properties].
      apply get_set_same.
    + intros Hk.
      assert (Hin : In (name p) (Py.keys (_properties self))).
      { unfold yielded_key in Hk. destruct di_pos as [|k]; [discriminate|].
        eapply nth_error_In; exact Hk. }
      assert (Hkeys : Py.keys (_properties (add_property self p))
                      = Py.keys (_properties self)).
      { unfold add_property; cbn [_properties]. now apply keys_set_present. }
      split; [exact Hkeys|].
      intros Hlen. unfold next_value in E.
      assert (Hl : List.length (_properties (add_property self p)) = di_used).
      { rewrite <- Hlen.
        transitivity (List.length (Py.keys (_properties (add_property self p)))).
        - unfold Py.keys. now rewrite length_map.
        - rewrite Hkeys. unfold Py.keys. now rewrite length_map. }
      rewrite Hl, Nat.eqb_refl in E. cbn [negb] in E.
      destruct (nth_error _ di_pos); inversion E; reflexivity.
  - intros gen. unfold send. destruct gen as [|u q|]; cbn.
    + now destruct (next_value _ _ _ _).
    + now destruct (next_value _ _ _ _).
    + reflexivity.
Qed.

End CompositeFacts.

Lemma generator_send_writes_back_witness :
  let self := CompositeProperty.mkComposite "c" [("A", ("A", 1)); ("B", ("B", 2))] in
  let r := CompositeProperty.send Examples.named Examples.named_name self
             (CompositeProperty.Suspended 2 1) (Some ("A", 7)) in
  Py.keys (CompositeProperty._properties (fst (fst r))) = ["A"; "B"] /\
  snd r = CompositeProperty.Yield ("B", 2).
Proof.
  cbv zeta.
  destruct (generator_send_writes_back Examples.named Examples.named_name
              (CompositeProperty.mkComposite "c" [("A", ("A", 1)); ("B", ("B", 2))])
              2 1) as [H _].
  destruct (H ("A", 7)) as (_ & _ & H3).
  destruct (H3 eq_refl) as [Hk Hn].
  split; [exact Hk | exact (Hn eq_refl)].
Defined.

(** C8, as stated, fails when the replacement carries another name: the
    element under the yielded key stays, the replacement is stored under
    its own name, and the iteration stops with an error. *)
Lemma generator_send_other_name :
  let self0 := CompositeProperty.mkComposite "c" [("A", ("A", 1))] in
  let r1 := CompositeProperty.send Examples.named Examples.named_name self0
              CompositeProperty.Created None in
  let r2 := CompositeProperty.send Examples.named Examples.named_name
              (fst (fst r1)) (snd (fst r1)) (Some ("B", 2)) in
  snd r1 = CompositeProperty.Yield ("A", 1) /\
  CompositeProperty.yielded_key Examples.named (fst (fst r1)) (snd (fst r1))
    = Some "A" /\
  CompositeProperty.get_property Examples.named (fst (fst r2))
    (CompositeProperty.ByName "A") = Some ("A", 1) /\
  CompositeProperty.get_property Examples.named (fst (fst r2))
    (CompositeProperty.ByName "A") <> Some ("B", 2) /\
  CompositeProperty.get_property Examples.named (fst (fst r2))
    (CompositeProperty.ByName "B") = Some ("B", 2) /\
  snd r2 = CompositeProperty.Raised
             (RuntimeError "dictionary changed size during iteration").
Proof.
  cbv zeta. repeat split; try reflexivity. cbv. discriminate.
Qed.

(** ** IntegralProperty *)

Section IntegralFacts.

Import IntegralProperty.

Variable ElectronicIntegrals : Type.
Variable FermionicOp : Type.
Context `{OperatorAlgebra FermionicOp}.
Variable to_second_q_op : ElectronicIntegrals -> FermionicOp.

Local Abbreviation second_q_ops :=
  (second_q_ops ElectronicIntegrals FermionicOp to_second_q_op).
Local Abbreviation operator_sum :=
  (operator_sum ElectronicIntegrals FermionicOp to_second_q_op).
Local Abbreviation py_sum := (py_sum FermionicOp).
Local Abbreviation lookup := (lookup ElectronicIntegrals).

Lemma fold_accumulate (ops : list FermionicOp) (a : FermionicOp) :
  fold_left (accumulate FermionicOp) ops (AccOp FermionicOp a)
  = AccOp FermionicOp (fold_left op_add ops a).
Proof.
  revert a. induction ops as [|o r IH]; intros a; simpl; [reflexivity|].
  apply IH.
Qed.

Lemma py_sum_cons (o : FermionicOp) (r : list FermionicOp) :
  py_sum (o :: r) = AccOp FermionicOp (fold_left op_add r (op_radd_int 0 o)).
Proof. unfold IntegralProperty.py_sum. simpl. apply fold_accumulate. Qed.

(** Without integrals in either basis, or with an empty list of them,
    [second_q_ops] raises. *)
Lemma second_q_ops_without_integrals (self : IntegralProperty ElectronicIntegrals) :
  (lookup (_electronic_integrals _ self) SO = None ->
   lookup (_electronic_integrals _ self) MO = None ->
   second_q_ops self = Raise TypeError) /\
  (lookup (_electronic_integrals _ self) SO = Some [] ->
   second_q_ops self = Raise (AttributeError "reduce")).
Proof.
  split.
  - intros H1 H2. unfold IntegralProperty.second_q_ops. now rewrite H1, H2.
  - intros H1. unfold IntegralProperty.second_q_ops. now rewrite H1.
Qed.

(** C9: when the operator's reflected addition of the integer 0 returns
    the operator itself, [second_q_ops] takes the spin-orbital integrals
    when that basis is present and the molecular-orbital ones otherwise,
    and returns the one-element list holding the reduced sum of their
    operator contributions. *)
Theorem second_q_ops_reduced_sum
    (Hradd : forall op : FermionicOp, op_radd_int 0 op = op)
    (self : IntegralProperty ElectronicIntegrals)
    (first : ElectronicIntegrals) (rest : list ElectronicIntegrals) :
  (lookup (_electronic_integrals _ self) SO = Some (first :: rest) ->
   second_q_ops self = Ok [op_reduce (operator_sum first rest)]) /\
  (lookup (_electronic_integrals _ self) SO = None ->
   lookup (_electronic_integrals _ self) MO = Some (first :: rest) ->
   second_q_ops self = Ok [op_reduce (operator_sum first rest)]).
Proof.
  split.
  - intros H1. unfold IntegralProperty.second_q_ops. rewrite H1.
    cbn [List.map]. rewrite py_sum_cons, Hradd. reflexivity.
  - intros H1 H2. unfold IntegralProperty.second_q_ops. rewrite H1, H2.
    cbn [List.map]. rewrite py_sum_cons, Hradd. reflexivity.
Qed.

End IntegralFacts.

Lemma second_q_ops_reduced_sum_witness :
  IntegralProperty.second_q_ops Z Z (fun n => 2 * n)
    (IntegralProperty.mkIntegralProperty Z "ElectronicEnergy"
       [(AO, [1; 2]); (MO, [3; 4]); (SO, [5; 6; 7])] [])
  = Ok [36] /\
  IntegralProperty.second_q_ops Z Z (fun n => 2 * n)
    (IntegralProperty.mkIntegralProperty Z "ElectronicEnergy"
       [(AO, [1; 2]); (MO, [3; 4])] [])
  = Ok [14].
Proof.
  split.
  - apply (proj1 (@second_q_ops_reduced_sum Z Z Z_OperatorAlgebra (fun n => 2 * n)
                    (fun op : Z => eq_refl) _ 5 [6; 7])).
    reflexivity.
  - apply (proj2 (@second_q_ops_reduced_sum Z Z Z_OperatorAlgebra (fun n => 2 * n)
                    (fun op : Z => eq_refl) _ 3 [4])); reflexivity.
Defined.

(** ** ElectronicDriverResult *)

(** C10: on every instance [second_q_ops] raises an attribute error, at
    its first attribute; none of the five attributes it reads exists,
    whatever the properties dictionary holds. *)
Theorem second_q_ops_always_raises (FermionicOp : Type)
    (call : ElectronicDriverResult.attribute -> result (list FermionicOp))
    (self : ElectronicDriverResult.ElectronicDriverResult) :
  ElectronicDriverResult.second_q_ops call self
    = Raise (AttributeError "electronic_energy_mo") /\
  forall attr,
    In attr ["electronic_energy_mo"; "particle_number"; "angular_momentum";
             "magnetization"; "total_dipole_moment"] ->
    ElectronicDriverResult.getattr self attr = Raise (AttributeError attr).
Proof.
  split; [reflexivity|].
  intros attr Hin. simpl in Hin.
  repeat (destruct Hin as [<-|Hin]; [reflexivity|]).
  contradiction.
Qed.

Lemma second_q_ops_always_raises_witness :
  ElectronicDriverResult.getattr
    (ElectronicDriverResult.add_property ElectronicDriverResult.init
       (OtherProperty "electronic_energy_mo" []))
    "electronic_energy_mo"
  = Raise (AttributeError "electronic_energy_mo").
Proof.
  apply (proj2 (second_q_ops_always_raises Z (fun _ => Ok [])
                  (ElectronicDriverResult.add_property ElectronicDriverResult.init
                     (OtherProperty "electronic_energy_mo" [])))).
  simpl. auto.
Defined.

(** ** numpy indexing *)

Lemma index_in_bounds {A} (a : list A) (i : Z) :
  Np.in_bounds a i ->
  exists v, Np.index a i = Ok v /\ nth_error a (Z.to_nat i) = Some v.
Proof.
  intros [H0 H1]. unfold Np.index. cbv zeta.
  destruct (Z.ltb_spec i 0); [lia|].
  destruct (Z.ltb_spec i 0); [lia|].
  destruct (Z.leb_spec (Z.of_nat (List.length a)) i); [lia|].
  cbn [orb].
  destruct (nth_error a (Z.to_nat i)) as [v|] eqn:E.
  - now exists v.
  - apply nth_error_None in E. lia.
Qed.

Lemma index_nonneg_inv {A} (a : list A) (i : Z) (v : A) :
  0 <= i -> Np.index a i = Ok v ->
  Np.in_bounds a i /\ nth_error a (Z.to_nat i) = Some v.
Proof.
  intros H0. unfold Np.index. cbv zeta.
  destruct (Z.ltb_spec i 0); [lia|].
  destruct (Z.ltb_spec i 0); [lia|].
  destruct (Z.leb_spec (Z.of_nat (List.length a)) i); cbn [orb];
    [discriminate|].
  destruct (nth_error a (Z.to_nat i)) as [w|] eqn:E; [|discriminate].
  intros [= ->]. split; [split; lia | reflexivity].
Qed.

Lemma take_in_bounds {A} (a : list A) (idxs : list Z) :
  Forall (Np.in_bounds a) idxs ->
  exists l, Np.take a idxs = Ok l /\ List.length l = List.length idxs.
Proof.
  induction 1 as [|i r Hi _ IH]; simpl.
  - now exists [].
  - destruct (index_in_bounds a i Hi) as (v & -> & _).
    destruct IH as (l & -> & Hl). simpl.
    exists (v :: l). simpl. now rewrite Hl.
Qed.

Lemma take_rows_in_bounds (m : Np.matrix) (idxs : list Z) (n : Z) :
  Forall (fun r => Z.of_nat (List.length r) = n) m ->
  Forall (fun i => 0 <= i < n) idxs ->
  exists m', Np.take_rows m idxs = Ok m'.
Proof.
  intros Hm Hi. induction Hm as [|row rest Hrow _ IH]; simpl.
  - now exists [].
  - destruct (take_in_bounds row idxs) as (l & -> & _).
    { eapply Forall_impl; [|exact Hi]. unfold Np.in_bounds. intros; lia. }
    destruct IH as (m' & ->). simpl. now eexists.
Qed.

Lemma take_cols_in_bounds (m : Np.matrix) (idxs : list Z) (n : Z) :
  Forall (fun r => Z.of_nat (List.length r) = n) m ->
  (m = [] -> n <= 0) ->
  Forall (fun i => 0 <= i < n) idxs ->
  exists m', Np.take_cols m idxs = Ok m'.
Proof.
  intros Hm He Hi. unfold Np.take_cols.
  destruct m as [|row rest].
  - destruct idxs as [|i r]; [now exists []|].
    inversion Hi; subst. specialize (He eq_refl). lia.
  - destruct (take_rows_in_bounds (row :: rest) idxs n Hm Hi) as (m' & E).
    exists m'. destruct idxs; exact E.
Qed.

Lemma add_same_length (a b : Np.vector) :
  List.length a = List.length b ->
  exists t, Np.add a b = Ok t /\ List.length t = List.length a.
Proof.
  intros H. unfold Np.add, Np.bshape. rewrite H, Nat.eqb_refl.
  eexists. split; [reflexivity|].
  now rewrite length_map, length_seq.
Qed.

Lemma allclose_same_shape (a b : Np.matrix) :
  List.length a = List.length b -> Np.ncols a = Np.ncols b ->
  exists c, Np.allclose a b = Ok c.
Proof.
  intros H1 H2. unfold Np.allclose, Np.bshape.
  rewrite H1, H2, !Nat.eqb_refl. now eexists.
Qed.

Lemma fold_max_ge (l : list Z) (a n : Z) :
  n <= fold_left Z.max l a <-> n <= a \/ exists i, In i l /\ n <= i.
Proof.
  revert a. induction l as [|x r IH]; intros a; simpl.
  - split; [auto|]. intros [H|(i & [] & _)]. exact H.
  - rewrite IH. split.
    + intros [H|(i & Hi & Hn)].
      * destruct (Z.max_spec a x) as [[_ E]|[_ E]]; rewrite E in H.
        -- right. exists x. auto.
        -- now left.
      * right. exists i. auto.
    + intros [H|(i & [<-|Hi] & Hn)].
      * left. lia.
      * left. lia.
      * right. exists i. auto.
Qed.

Lemma mem_In (o : Z) (l : list Z) : Py.mem o l = true <-> In o l.
Proof.
  unfold Py.mem. rewrite existsb_exists. split.
  - intros (x & Hx & E). apply Z.eqb_eq in E. now subst.
  - intros H. exists o. split; [exact H|apply Z.eqb_refl].
Qed.

(** ** ActiveSpaceTransformer: the steps of [transform] *)

Section TransformSteps.

Import ElectronicDriverResult ActiveSpaceTransformer.

Lemma bind_ok_inv {A B} (c : result A) (k : A -> result B) (b : B) :
  Py.bind c k = Ok b -> exists a, c = Ok a /\ k a = Ok b.
Proof. destruct c as [a|e]; simpl; [eauto|discriminate]. Qed.

Lemma check_configuration_ok (self : ActiveSpaceTransformer) :
  _check_configuration self = Ok tt <->
  (match _num_electrons self with
   | Some (SingleCount n) => n mod 2 = 0 /\ 0 <= n
   | Some (SpinCounts a b) => 0 <= a /\ 0 <= b
   | None => False
   end /\
   match _num_molecular_orbitals self with
   | Some m => 0 <= m
   | None => False
   end).
Proof.
  unfold _check_configuration.
  destruct (_num_electrons self) as [[n|a b]|];
    destruct (_num_molecular_orbitals self) as [m|]; cbn [Py.bind].
  all: repeat match goal with
         | |- context [Z.eqb ?x ?y] => destruct (Z.eqb_spec x y)
         | |- context [Z.ltb ?x ?y] => destruct (Z.ltb_spec x y)
         | |- context [Z.geb ?x ?y] =>
             rewrite (Z.geb_leb x y); destruct (Z.leb_spec y x)
         end; cbn [negb andb Py.bind].
  all: split; [intros Hx; try discriminate Hx | intros [Hx1 Hx2]];
    try tauto; try lia; try (split; [split|]; lia); try (split; lia).
Qed.

(** [_check_configuration] raises nothing but [QiskitNatureError]. *)
Lemma check_configuration_raises (self : ActiveSpaceTransformer) (e : exn) :
  _check_configuration self = Raise e ->
  exists args, e = QiskitNatureError args None.
Proof.
  unfold _check_configuration.
  destruct (_num_electrons self) as [[n|a b]|];
    destruct (_num_molecular_orbitals self) as [m|]; cbn [Py.bind].
  all: repeat match goal with
         | |- context [if ?c then _ else _] => destruct c
         end; cbn [Py.bind]; intros [= <-]; eauto.
Qed.

Lemma particle_number_wf molecule_data pn ca cb attr :
  well_formed molecule_data pn ca cb ->
  particle_number molecule_data attr = Ok pn.
Proof.
  intros W. unfold particle_number, Py.getitem.
  now rewrite (wf_particle_number _ _ _ _ W).
Qed.

Lemma ncols_Forall (m : Np.matrix) (n : Z) :
  m <> [] -> Forall (fun r => Z.of_nat (List.length r) = n) m ->
  Z.of_nat (Np.ncols m) = n.
Proof.
  intros Hn Hm. destruct m as [|r rest]; [contradiction|].
  now inversion Hm.
Qed.

Lemma read_molecule_wf molecule_data pn ca cb :
  well_formed molecule_data pn ca cb ->
  exists beta_spin total,
    read_molecule molecule_data
    = Ok (ca, cb, beta_spin, (_occupation_alpha pn, _occupation_beta pn), total) /\
    Np.allclose ca cb = Ok beta_spin /\
    Np.add (_occupation_alpha pn) (_occupation_beta pn) = Ok total /\
    Z.of_nat (List.length total) = _num_spin_orbitals pn / 2.
Proof.
  intros W.
  destruct (wf_transform _ _ _ _ W) as (ib & fb & Et).
  assert (Hcb : cb <> []).
  { pose proof (wf_rows _ _ _ _ W) as Hr.
    pose proof (wf_atomic_orbitals _ _ _ _ W) as Hne.
    destruct ca; [contradiction|]. destruct cb; [discriminate|discriminate]. }
  destruct (allclose_same_shape ca cb) as (bs & Ebs).
  { exact (wf_rows _ _ _ _ W). }
  { apply Nat2Z.inj.
    rewrite (ncols_Forall ca _ (wf_atomic_orbitals _ _ _ _ W)
               (wf_cols_alpha _ _ _ _ W)).
    now rewrite (ncols_Forall cb _ Hcb (wf_cols_beta _ _ _ _ W)). }
  destruct (add_same_length (_occupation_alpha pn) (_occupation_beta pn))
    as (total & Et' & Hl).
  { apply Nat2Z.inj.
    now rewrite (wf_occupation_alpha _ _ _ _ W), (wf_occupation_beta _ _ _ _ W). }
  exists bs, total. repeat split; try assumption.
  - unfold read_molecule. rewrite Et. cbn [Py.bind not_none coeff_beta coeff_alpha].
    rewrite Ebs. cbn [Py.bind].
    rewrite (particle_number_wf _ _ _ _ _ W). cbn [Py.bind].
    now rewrite Et'.
  - rewrite Hl. exact (wf_occupation_alpha _ _ _ _ W).
Qed.

(** What a successful [read_molecule] has read. *)
Lemma read_molecule_inv molecule_data ca cb beta_spin occ total :
  read_molecule molecule_data = Ok (ca, cb, beta_spin, occ, total) ->
  exists pn,
    (forall attr, particle_number molecule_data attr = Ok pn) /\
    occ = (_occupation_alpha pn, _occupation_beta pn) /\
    Np.allclose ca cb = Ok beta_spin.
Proof.
  unfold read_molecule. intros H.
  apply bind_ok_inv in H as (ebt & He & H).
  apply bind_ok_inv in H as (cb' & Hcb & H).
  apply bind_ok_inv in H as (bs & Hbs & H).
  apply bind_ok_inv in H as (pn & Hpn & H).
  apply bind_ok_inv in H as (tot & Htot & H).
  injection H as <- <- <- <- <-.
  exists pn. repeat split; try assumption.
  intros attr. unfold particle_number in *.
  destruct (Py.getitem (properties molecule_data) "ParticleNumber") as [p|];
    [|discriminate].
  cbn [Py.bind] in *. destruct p; [exact Hpn|discriminate].
Qed.

End TransformSteps.

Section ActiveSpace.

Import ElectronicDriverResult ActiveSpaceTransformer.

Lemma validate_num_electrons_ok (n : Z) :
  _validate_num_electrons n = Ok tt <-> 0 <= n /\ n mod 2 = 0.
Proof.
  unfold _validate_num_electrons.
  destruct (Z.ltb_spec n 0); [split; [discriminate|lia]|].
  destruct (Z.eqb_spec (n mod 2) 0); cbn [negb];
    (split; [intros E; try discriminate E; lia|intros; try reflexivity; lia]).
Qed.

Lemma validate_num_electrons_raises (n : Z) :
  n < 0 \/ n mod 2 <> 0 ->
  exists msg,
    _validate_num_electrons n = Raise (QiskitNatureError [msg] None) /\
    (msg = "More electrons requested than available." \/
     msg = "The number of inactive electrons must be even.").
Proof.
  intros H. unfold _validate_num_electrons.
  destruct (Z.ltb_spec n 0); [eauto|].
  destruct (Z.eqb_spec (n mod 2) 0); cbn [negb]; [lia|eauto].
Qed.

(** The configuration survives [_determine_active_space]; only
    [_num_particles] is assigned. *)
Lemma determine_active_space_config self molecule_data :
  let self' := fst (_determine_active_space self molecule_data) in
  _num_electrons self' = _num_electrons self /\
  _num_molecular_orbitals self' = _num_molecular_orbitals self /\
  _active_orbitals self' = _active_orbitals self /\
  _mo_occ_total self' = _mo_occ_total self.
Proof.
  cbv zeta. unfold _determine_active_space.
  destruct (particle_number molecule_data "_num_alpha") as [pn|e]; [|tauto].
  destruct (requested_counts (_num_electrons self)) as [[na nb]|]; [|tauto].
  cbn. tauto.
Qed.

(** A successful [_determine_active_space], step by step. *)
Lemma determine_active_space_inv self molecule_data idxs :
  snd (_determine_active_space self molecule_data) = Ok idxs ->
  exists pn a b,
    particle_number molecule_data "_num_alpha" = Ok pn /\
    requested_counts (_num_electrons self) = Some (a, b) /\
    fst (_determine_active_space self molecule_data)
      = set_num_particles self (a, b) /\
    _validate_num_electrons (_num_alpha pn + _num_beta pn - a - b) = Ok tt /\
    _validate_num_orbitals (set_num_particles self (a, b))
      (_num_alpha pn + _num_beta pn - a - b) molecule_data = Ok tt /\
    match _active_orbitals self with
    | None =>
        exists m, _num_molecular_orbitals self = Some m /\
          idxs = (Py.range2 ((_num_alpha pn + _num_beta pn - a - b) / 2)
                            ((_num_alpha pn + _num_beta pn - a - b) / 2 + m),
                  Py.range ((_num_alpha pn + _num_beta pn - a - b) / 2))
    | Some active =>
        exists occ inactive,
          _mo_occ_total self = Some occ /\
          select_inactive active occ
            (Py.range ((_num_alpha pn + _num_beta pn) / 2)) = Ok inactive /\
          idxs = (active, inactive)
    end.
Proof.
  unfold _determine_active_space.
  destruct (particle_number molecule_data "_num_alpha") as [pn|];
    [|discriminate].
  destruct (requested_counts (_num_electrons self)) as [[a b]|];
    [|discriminate].
  cbn [fst snd]. intros H.
  apply bind_ok_inv in H as ([] & Hve & H).
  apply bind_ok_inv in H as ([] & Hvo & H).
  exists pn, a, b. repeat split; try assumption.
  cbn [set_num_particles _active_orbitals _num_molecular_orbitals
       _mo_occ_total] in H.
  destruct (_active_orbitals self) as [active|].
  - apply bind_ok_inv in H as (occ & Hocc & H).
    apply bind_ok_inv in H as (inactive & Hsel & H).
    injection H as <-.
    destruct (_mo_occ_total self) as [occ'|]; [|discriminate].
    injection Hocc as ->. eauto.
  - apply bind_ok_inv in H as (m & Hm & H).
    injection H as <-.
    destruct (_num_molecular_orbitals self) as [m'|]; [|discriminate].
    injection Hm as ->. eauto.
Qed.

(** The comprehension keeps exactly the candidates outside the active
    list whose occupation is positive, and evaluates on every candidate
    that is a valid index. *)
Lemma select_inactive_spec (active : list Z) (occ : Np.vector)
    (candidates : list Z) :
  Forall (Np.in_bounds occ) candidates ->
  exists inactive,
    select_inactive active occ candidates = Ok inactive /\
    forall o,
      In o inactive <->
      In o candidates /\ ~ In o active /\
      exists v, nth_error occ (Z.to_nat o) = Some v /\ (0 < v)%Q.
Proof.
  induction 1 as [|c r Hc _ IH]; cbn [select_inactive].
  - exists []. split; [reflexivity|]. intros o. simpl. tauto.
  - destruct IH as (tail & -> & IH).
    destruct (index_in_bounds occ c Hc) as (v & Ev & Hv).
    destruct (Py.mem c active) eqn:Em; cbn [negb Py.bind].
    + exists tail. split; [reflexivity|]. intros o. rewrite IH.
      apply mem_In in Em. simpl. split.
      * intros (H1 & H2 & H3). auto.
      * intros ([<-|H1] & H2 & H3); [contradiction|auto].
    + rewrite Ev. cbn [Py.bind].
      assert (Hna : ~ In c active).
      { intros Hin. apply mem_In in Hin. congruence. }
      unfold Qpositive.
      destruct (Qle_bool v 0) eqn:Eq; cbn [negb].
      * exists tail. split; [reflexivity|]. intros o. rewrite IH.
        apply Qle_bool_iff in Eq. simpl. split.
        -- intros (H1 & H2 & H3). auto.
        -- intros ([<-|H1] & H2 & (w & Hw & Hpos)); [|eauto].
           rewrite Hv in Hw. injection Hw as <-.
           exfalso. apply (Qlt_not_le _ _ Hpos Eq).
      * exists (c :: tail). split; [reflexivity|]. intros o. simpl.
        rewrite IH. split.
        -- intros [<-|(H1 & H2 & H3)]; [|auto].
           split; [auto|]. split; [exact Hna|].
           exists v. split; [exact Hv|].
           apply Qnot_le_lt. intros Hle.
           apply Qle_bool_iff in Hle. congruence.
        -- intros ([<-|H1] & H2 & H3); auto.
Qed.

End ActiveSpace.

Section TransformFacts.

Import ElectronicDriverResult ActiveSpaceTransformer.

Variable reduce_system_size :
  SecondQuantizedProperty -> Np.matrix * option Np.matrix ->
  ElectronicBasisTransform -> result SecondQuantizedProperty.

Local Abbreviation transform := (transform reduce_system_size).
Local Abbreviation reduce_molecule := (reduce_molecule reduce_system_size).
Local Abbreviation reduce_properties := (reduce_properties reduce_system_size).

(** [transform] after a configuration check and a read that succeed. *)
Lemma transform_eq self molecule_data ca cb beta_spin occ total :
  _check_configuration self = Ok tt ->
  read_molecule molecule_data = Ok (ca, cb, beta_spin, occ, total) ->
  snd (transform self molecule_data) =
    (p <- snd (_determine_active_space (set_mo_occ_total self total)
                                       molecule_data) ;;
     reduce_molecule
       (fst (_determine_active_space (set_mo_occ_total self total)
                                     molecule_data))
       molecule_data (ca, cb) beta_spin occ (fst p) (snd p)).
Proof.
  intros Hc Hr. unfold ActiveSpaceTransformer.transform.
  rewrite Hc, Hr.
  now destruct (_determine_active_space (set_mo_occ_total self total)
                                        molecule_data).
Qed.

(** A configuration error is raised before the molecule data is looked
    at, wrapped, and leaves the transformer as it was. *)
Lemma transform_configuration_error self molecule_data e :
  _check_configuration self = Raise e ->
  transform self molecule_data =
    (self, Raise (QiskitNatureError ["Incorrect Active-Space configuration."]
                                    (Some e))).
Proof.
  intros Hc. destruct (check_configuration_raises self e Hc) as (args & ->).
  unfold ActiveSpaceTransformer.transform. now rewrite Hc.
Qed.

(** The particle number of a reduced molecule is the one [transform]
    constructs, whatever the reduced properties are. *)
Lemma reduce_molecule_inv self molecule_data coeff beta_spin occ active inactive out :
  reduce_molecule self molecule_data coeff beta_spin occ active inactive = Ok out ->
  exists m num_particles occ_a occ_b,
    _num_molecular_orbitals self = Some m /\
    _num_particles self = Some num_particles /\
    Np.take (fst occ) active = Ok occ_a /\
    Np.take (snd occ) active = Ok occ_b /\
    Py.get (properties out) "ParticleNumber"
    = Some (ParticleNumberProperty
              (ParticleNumber_init (m / 2) num_particles occ_a occ_b)).
Proof.
  unfold ActiveSpaceTransformer.reduce_molecule. intros H.
  apply bind_ok_inv in H as (da & _ & H).
  apply bind_ok_inv in H as (db & _ & H).
  apply bind_ok_inv in H as (c_a & _ & H).
  apply bind_ok_inv in H as (c_b & _ & H).
  apply bind_ok_inv in H as (red & _ & H).
  apply bind_ok_inv in H as (m & Hm & H).
  apply bind_ok_inv in H as (np & Hnp & H).
  apply bind_ok_inv in H as (occ_a & Ha & H).
  apply bind_ok_inv in H as (occ_b & Hb & H).
  injection H as <-.
  exists m, np, occ_a, occ_b.
  destruct (_num_molecular_orbitals self); [|discriminate].
  destruct (_num_particles self); [|discriminate].
  injection Hm as ->. injection Hnp as ->.
  repeat split; try assumption.
  cbn [properties]. apply get_set_same.
Qed.

Hypothesis reduce_contract : reduces_or_unsupported reduce_system_size.

Lemma reduce_properties_total props density basis_transform acc :
  exists out, reduce_properties props density basis_transform acc = Ok out.
Proof.
  revert acc. induction props as [|p r IH]; intros acc; simpl.
  - now exists acc.
  - destruct (reduce_contract p density basis_transform) as [(q & ->)| ->].
    + apply IH.
    + apply IH.
Qed.

Lemma density_inactive_total (occ : Np.vector) (coeff : Np.matrix)
    (idxs : list Z) (n : Z) :
  Z.of_nat (List.length occ) = n ->
  Forall (fun r => Z.of_nat (List.length r) = n) coeff ->
  coeff <> [] ->
  Forall (fun i => 0 <= i < n) idxs ->
  exists d, density_inactive occ coeff idxs = Ok d.
Proof.
  intros Ho Hc Hne Hi. unfold density_inactive.
  destruct (take_in_bounds occ idxs) as (o & -> & _).
  { eapply Forall_impl; [|exact Hi]. unfold Np.in_bounds. intros; lia. }
  destruct (take_cols_in_bounds coeff idxs n Hc) as (c & ->); [tauto|exact Hi|].
  cbn [Py.bind]. now eexists.
Qed.

(** Index lists within the orbital range reduce a well-formed molecule. *)
Lemma reduce_molecule_total self molecule_data pn ca cb beta_spin
    active inactive m num_particles :
  well_formed molecule_data pn ca cb ->
  _num_molecular_orbitals self = Some m ->
  _num_particles self = Some num_particles ->
  Forall (fun i => 0 <= i < _num_spin_orbitals pn / 2) active ->
  Forall (fun i => 0 <= i < _num_spin_orbitals pn / 2) inactive ->
  exists out,
    reduce_molecule self molecule_data (ca, cb) beta_spin
      (_occupation_alpha pn, _occupation_beta pn) active inactive = Ok out.
Proof.
  intros W Hm Hnp Ha Hi.
  assert (Hcb : cb <> []).
  { pose proof (wf_rows _ _ _ _ W) as Hr.
    pose proof (wf_atomic_orbitals _ _ _ _ W) as Hne.
    destruct ca; [contradiction|]. destruct cb; discriminate. }
  unfold ActiveSpaceTransformer.reduce_molecule. cbn [fst snd].
  destruct (density_inactive_total (_occupation_alpha pn) ca inactive _
              (wf_occupation_alpha _ _ _ _ W) (wf_cols_alpha _ _ _ _ W)
              (wf_atomic_orbitals _ _ _ _ W) Hi) as (da & ->).
  destruct (density_inactive_total (_occupation_beta pn) cb inactive _
              (wf_occupation_beta _ _ _ _ W) (wf_cols_beta _ _ _ _ W)
              Hcb Hi) as (db & Edb).
  destruct (take_cols_in_bounds ca active _ (wf_cols_alpha _ _ _ _ W))
    as (c_a & Eca);
    [intros E; destruct (wf_atomic_orbitals _ _ _ _ W E) | exact Ha |].
  destruct (take_cols_in_bounds cb active _ (wf_cols_beta _ _ _ _ W))
    as (c_b & Ecb); [tauto | exact Ha |].
  destruct (take_in_bounds (_occupation_alpha pn) active) as (oa & Eoa & _).
  { eapply Forall_impl; [|exact Ha]. unfold Np.in_bounds.
    rewrite (wf_occupation_alpha _ _ _ _ W). auto. }
  destruct (take_in_bounds (_occupation_beta pn) active) as (ob & Eob & _).
  { eapply Forall_impl; [|exact Ha]. unfold Np.in_bounds.
    rewrite (wf_occupation_beta _ _ _ _ W). auto. }
  cbn [Py.bind].
  assert (Hstep : forall (db' : option Np.matrix) (cb' : option Np.matrix),
    exists out,
      (coeff_a <- Np.take_cols ca active ;;
       coeff_b <- Ok cb' ;;
       molecule_data_reduced <-
         reduce_properties (Py.values (properties molecule_data)) (da, db')
           (mkElectronicBasisTransform AO MO coeff_a coeff_b)
           ElectronicDriverResult.init ;;
       m0 <- not_none (_num_molecular_orbitals self) ;;
       np0 <- not_none (_num_particles self) ;;
       occ_a <- Np.take (_occupation_alpha pn) active ;;
       occ_b <- Np.take (_occupation_beta pn) active ;;
       Ok (mkElectronicDriverResult
             (Py.set (properties molecule_data_reduced) "ParticleNumber"
                (ParticleNumberProperty
                   (ParticleNumber_init (m0 / 2) np0 occ_a occ_b)))
             (electronic_basis_transform molecule_data_reduced))) = Ok out).
  { intros db' cb'. rewrite Eca. cbn [Py.bind].
    destruct (reduce_properties_total (Py.values (properties molecule_data))
                (da, db') (mkElectronicBasisTransform AO MO c_a cb')
                ElectronicDriverResult.init) as (red & ->).
    rewrite Hm, Hnp, Eoa, Eob. cbn [Py.bind not_none]. now eexists. }
  destruct beta_spin.
  - rewrite Edb. cbn [Py.bind]. rewrite Eca, Ecb. cbn [Py.bind].
    destruct (Hstep (Some db) (Some c_b)) as (out & E).
    rewrite Eca in E. cbn [Py.bind] in E. now exists out.
  - cbn [Py.bind]. destruct (Hstep None None) as (out & E).
    now exists out.
Qed.

End TransformFacts.

Section ExplicitOrbitals.

Import ElectronicDriverResult ActiveSpaceTransformer.

(** [_validate_num_orbitals] on an explicit, non-empty list of
    non-negative indices and a single-integer electron count: it raises
    exactly in the three cases it tests for. *)
Lemma validate_num_orbitals_explicit self nelec_inactive molecule_data
    pn active n m occ :
  _active_orbitals self = Some active ->
  _num_molecular_orbitals self = Some m ->
  _num_electrons self = Some (SingleCount n) ->
  _mo_occ_total self = Some occ ->
  (forall attr, particle_number molecule_data attr = Ok pn) ->
  active <> [] ->
  Forall (fun i => 0 <= i) active ->
  Z.of_nat (List.length occ) = _num_spin_orbitals pn / 2 ->
  let bad :=
    m <> Z.of_nat (List.length active) \/
    (exists i, In i active /\ _num_spin_orbitals pn / 2 <= i) \/
    (exists sel, Np.take occ active = Ok sel /\
                 ~ (Np.sum sel == inject_Z n)%Q) in
  (bad ->
   exists args,
     _validate_num_orbitals self nelec_inactive molecule_data
     = Raise (QiskitNatureError args None)) /\
  (~ bad ->
   _validate_num_orbitals self nelec_inactive molecule_data = Ok tt).
Proof.
  intros Ha Hm Hn Ho Hpn Hne Hpos Hlen bad.
  unfold _validate_num_orbitals. rewrite Ha, Hm, Hn, Ho, Hpn.
  destruct (Z.eqb_spec m (Z.of_nat (List.length active))) as [Em|Em];
    cbn [negb Py.bind].
  2:{ split; [eauto|]. intros Hb. exfalso. apply Hb. left. exact Em. }
  destruct active as [|a0 r]; [contradiction|].
  cbn [Py.max Py.bind not_none].
  rewrite Z.geb_leb.
  destruct (Z.leb_spec (_num_spin_orbitals pn / 2) (fold_left Z.max r a0))
    as [Hge|Hlt]; cbn [Py.bind].
  { split; [eauto|]. intros Hb. exfalso. apply Hb. right. left.
    apply fold_max_ge in Hge. destruct Hge as [H|(i & Hi & H)].
    - exists a0. simpl. auto.
    - exists i. simpl. auto. }
  assert (Hall : Forall (Np.in_bounds occ) (a0 :: r)).
  { apply Forall_forall. intros i Hi. unfold Np.in_bounds. rewrite Hlen.
    split; [exact (proj1 (Forall_forall _ _) Hpos i Hi)|].
    destruct (Z.lt_ge_cases i (_num_spin_orbitals pn / 2)) as [H|H];
      [exact H|].
    exfalso. apply (Z.lt_irrefl (fold_left Z.max r a0)).
    eapply Z.lt_le_trans; [exact Hlt|].
    apply fold_max_ge. destruct Hi as [<-|Hi]; [left; exact H|].
    right. exists i. auto. }
  destruct (take_in_bounds occ (a0 :: r) Hall) as (sel & Esel & _).
  rewrite Esel. cbn [Py.bind sum_differs].
  destruct (Qeq_bool (Np.sum sel) (inject_Z n)) eqn:Eq; cbn [negb Py.bind].
  - apply Qeq_bool_iff in Eq. split; [|reflexivity].
    intros [Hb|[(i & Hi & Hb)|(sel' & Es & Hb)]].
    + contradiction.
    + exfalso. apply (Z.lt_irrefl (fold_left Z.max r a0)).
      eapply Z.lt_le_trans; [exact Hlt|].
      apply fold_max_ge. destruct Hi as [<-|Hi]; [left; exact Hb|].
      right. exists i. auto.
    + rewrite Esel in Es. injection Es as <-. contradiction.
  - split; [eauto|]. intros Hb. exfalso. apply Hb. right. right.
    exists sel. split; [exact Esel|].
    intros Hq. apply Qeq_bool_iff in Hq. congruence.
Qed.

(** With an (alpha, beta) pair as electron count, the validation of
    explicit indices never passes: the occupation sum is compared with
    the pair itself. *)
Lemma validate_num_orbitals_pair_never_passes self nelec_inactive
    molecule_data a b active :
  _num_electrons self = Some (SpinCounts a b) ->
  _active_orbitals self = Some active ->
  _validate_num_orbitals self nelec_inactive molecule_data <> Ok tt.
Proof.
  intros Hn Ha. unfold _validate_num_orbitals. rewrite Ha, Hn.
  destruct (match _num_molecular_orbitals self with
            | Some m => negb (m =? Z.of_nat (List.length active))
            | None => true
            end); cbn [Py.bind]; [discriminate|].
  destruct (Py.max active) as [top|]; cbn [Py.bind]; [|discriminate].
  destruct (particle_number molecule_data "_num_spin_orbitals") as [pn|];
    cbn [Py.bind]; [|discriminate].
  destruct (top >=? _num_spin_orbitals pn / 2); cbn [Py.bind];
    [discriminate|].
  destruct (not_none (_mo_occ_total self)) as [occ|]; cbn [Py.bind];
    [|discriminate].
  destruct (Np.take occ active); cbn [Py.bind sum_differs]; discriminate.
Qed.

End ExplicitOrbitals.

(** ** ActiveSpaceTransformer: the claims *)

Section TransformClaims.

Import ElectronicDriverResult ActiveSpaceTransformer.

Variable reduce_system_size :
  SecondQuantizedProperty -> Np.matrix * option Np.matrix ->
  ElectronicBasisTransform -> result SecondQuantizedProperty.

Local Abbreviation transform := (transform reduce_system_size).

Lemma determine_active_space_electrons_raise self molecule_data pn a b e :
  particle_number molecule_data "_num_alpha" = Ok pn ->
  requested_counts (_num_electrons self) = Some (a, b) ->
  _validate_num_electrons (_num_alpha pn + _num_beta pn - a - b) = Raise e ->
  snd (_determine_active_space self molecule_data) = Raise e.
Proof.
  intros Hpn Hreq Hv. unfold _determine_active_space.
  rewrite Hpn, Hreq. cbn [snd]. now rewrite Hv.
Qed.

Lemma even_halves (n : Z) : n mod 2 = 0 -> n / 2 + n / 2 = n.
Proof. intros H. pose proof (Z.div_mod n 2). lia. Qed.

(** C6: a [transform] that succeeds has computed an inactive-electron
    count, total minus requested alpha minus requested beta, that is even
    and not negative, the requested counts adding up to the configured
    number; and whenever the total minus the requested number of active
    electrons is negative or odd, [transform] on readable molecule data
    raises a [QiskitNatureError]. *)
Theorem inactive_electrons_even_nonnegative self molecule_data :
  (forall out,
     snd (transform self molecule_data) = Ok out ->
     exists pn a b,
       (forall attr, particle_number molecule_data attr = Ok pn) /\
       requested_counts (_num_electrons self) = Some (a, b) /\
       requested_total (_num_electrons self) = Some (a + b) /\
       0 <= _num_alpha pn + _num_beta pn - a - b /\
       (_num_alpha pn + _num_beta pn - a - b) mod 2 = 0) /\
  (forall data pn requested,
     read_molecule molecule_data = Ok data ->
     particle_number molecule_data "_num_alpha" = Ok pn ->
     requested_total (_num_electrons self) = Some requested ->
     _num_alpha pn + _num_beta pn - requested < 0 \/
     (_num_alpha pn + _num_beta pn - requested) mod 2 <> 0 ->
     exists args cause,
       snd (transform self molecule_data)
       = Raise (QiskitNatureError args cause)).
Proof.
  split.
  - intros out Hout.
    destruct (_check_configuration self) as [[]|e] eqn:Hc.
    2:{ rewrite (transform_configuration_error _ _ _ _ Hc) in Hout.
        discriminate. }
    destruct (read_molecule molecule_data) as [[[[[ca cb] bs] occ] total]|e]
      eqn:Hr.
    2:{ unfold ActiveSpaceTransformer.transform in Hout.
        rewrite Hc, Hr in Hout. discriminate. }
    rewrite (transform_eq _ _ _ _ _ _ _ _ Hc Hr) in Hout.
    apply bind_ok_inv in Hout as (idxs & Hd & _).
    apply determine_active_space_inv in Hd
      as (pn & a & b & Hpn & Hreq & _ & Hve & _).
    destruct (read_molecule_inv _ _ _ _ _ _ Hr) as (pn' & Hpn' & _).
    rewrite Hpn' in Hpn. injection Hpn as ->.
    apply validate_num_electrons_ok in Hve as [H0 H2].
    cbn [set_mo_occ_total _num_electrons] in Hreq.
    exists pn, a, b. repeat split; try assumption.
    apply check_configuration_ok in Hc as [Hc _].
    destruct (_num_electrons self) as [[n|x y]|]; cbn in Hreq |- *.
    + injection Hreq as <- <-. f_equal. symmetry. now apply even_halves.
    + now injection Hreq as <- <-.
    + discriminate.
  - intros data pn requested Hr Hpn Hreq Hbad.
    destruct (_check_configuration self) as [[]|e] eqn:Hc.
    2:{ rewrite (transform_configuration_error _ _ _ _ Hc). cbn [snd]. eauto. }
    destruct data as [[[[ca cb] bs] occ] total].
    rewrite (transform_eq _ _ _ _ _ _ _ _ Hc Hr).
    apply check_configuration_ok in Hc as [Hc _].
    assert (Hcounts : exists a b,
               requested_counts (_num_electrons self) = Some (a, b) /\
               a + b = requested).
    { destruct (_num_electrons self) as [[n|x y]|]; cbn in Hreq |- *.
      - injection Hreq as <-. exists (n / 2), (n / 2). split; [reflexivity|].
        now apply even_halves.
      - injection Hreq as <-. eauto.
      - discriminate. }
    destruct Hcounts as (a & b & Hcounts & Hsum).
    destruct (validate_num_electrons_raises
                (_num_alpha pn + _num_beta pn - a - b)) as (msg & Hv & _).
    { replace (_num_alpha pn + _num_beta pn - a - b)
        with (_num_alpha pn + _num_beta pn - requested) by lia.
      exact Hbad. }
    rewrite (determine_active_space_electrons_raise
               (set_mo_occ_total self total) molecule_data pn a b _ Hpn
               Hcounts Hv).
    cbn [Py.bind]. eauto.
Qed.

(** C7, as amended: an error of [_check_configuration] is raised before
    the molecule data is read, wrapped into "Incorrect Active-Space
    configuration." with the original error as its cause; the check
    passes exactly on a single even non-negative electron count or a pair
    of non-negative counts, with a non-negative orbital count; an error
    of [_determine_active_space] reaches the caller as it was raised,
    before any density is built. *)
Theorem configuration_errors_wrapped self molecule_data :
  (forall e,
     _check_configuration self = Raise e ->
     transform self molecule_data =
       (self,
        Raise (QiskitNatureError ["Incorrect Active-Space configuration."]
                                 (Some e)))) /\
  (_check_configuration self = Ok tt <->
   match _num_electrons self with
   | Some (SingleCount n) => n mod 2 = 0 /\ 0 <= n
   | Some (SpinCounts a b) => 0 <= a /\ 0 <= b
   | None => False
   end /\
   match _num_molecular_orbitals self with
   | Some m => 0 <= m
   | None => False
   end) /\
  (forall ca cb beta_spin occ total e,
     _check_configuration self = Ok tt ->
     read_molecule molecule_data = Ok (ca, cb, beta_spin, occ, total) ->
     snd (_determine_active_space (set_mo_occ_total self total) molecule_data)
     = Raise e ->
     snd (transform self molecule_data) = Raise e).
Proof.
  split; [|split].
  - intros e Hc. now apply transform_configuration_error.
  - apply check_configuration_ok.
  - intros ca cb bs occ total e Hc Hr Hd.
    rewrite (transform_eq _ _ _ _ _ _ _ _ Hc Hr), Hd. reflexivity.
Qed.

End TransformClaims.

Lemma inactive_electrons_even_nonnegative_witness :
  (exists pn a b,
     (forall attr,
        ActiveSpaceTransformer.particle_number Examples.h2 attr = Ok pn) /\
     a + b = 2 /\
     0 <= _num_alpha pn + _num_beta pn - a - b /\
     (_num_alpha pn + _num_beta pn - a - b) mod 2 = 0) /\
  (exists args cause,
     snd (ActiveSpaceTransformer.transform Examples.record_density
            (ActiveSpaceTransformer.init
               (Some (ActiveSpaceTransformer.SpinCounts 2 1)) (Some 1) None)
            Examples.ten_electrons)
     = Raise (QiskitNatureError args cause)).
Proof.
  split.
  - destruct (proj1 (inactive_electrons_even_nonnegative
                       Examples.record_density
                       (ActiveSpaceTransformer.init
                          (Some (ActiveSpaceTransformer.SingleCount 2))
                          (Some 1) None)
                       Examples.h2) _ eq_refl)
      as (pn & a & b & H1 & _ & H3 & H4 & H5).
    exists pn, a, b. repeat split; try assumption.
    now injection H3.
  - eapply (proj2 (inactive_electrons_even_nonnegative
                     Examples.record_density _ Examples.ten_electrons)
              _ Examples.pn_ten 3).
    + vm_compute. reflexivity.
    + reflexivity.
    + reflexivity.
    + right. vm_compute. discriminate.
Defined.

Lemma configuration_errors_wrapped_witness :
  ActiveSpaceTransformer.transform Examples.record_density
    (ActiveSpaceTransformer.init
       (Some (ActiveSpaceTransformer.SingleCount 3)) (Some 1) None)
    Examples.ten_electrons
  = (ActiveSpaceTransformer.init
       (Some (ActiveSpaceTransformer.SingleCount 3)) (Some 1) None,
     Raise (QiskitNatureError ["Incorrect Active-Space configuration."]
              (Some (QiskitNatureError
                       ["The number of active electrons must be even! Otherwise you must specify them as a tuple, not as:";
                        "3"] None)))) /\
  snd (ActiveSpaceTransformer.transform Examples.record_density
         (ActiveSpaceTransformer.init
            (Some (ActiveSpaceTransformer.SpinCounts 2 1)) (Some 1) None)
         Examples.ten_electrons)
  = Raise (QiskitNatureError
             ["The number of inactive electrons must be even."] None).
Proof.
  split.
  - apply (proj1 (configuration_errors_wrapped Examples.record_density
                    _ Examples.ten_electrons)).
    reflexivity.
  - eapply (proj2 (proj2 (configuration_errors_wrapped
                            Examples.record_density _ Examples.ten_electrons))).
    + reflexivity.
    + vm_compute. reflexivity.
    + vm_compute. reflexivity.
Defined.

(** C7, as stated, fails on a feasibility error: asking for four active
    electrons of a two-electron system raises the bare "More electrons
    requested than available.", not the wrapped configuration error. *)
Lemma infeasibility_error_not_wrapped :
  snd (ActiveSpaceTransformer.transform Examples.record_density
         (ActiveSpaceTransformer.init
            (Some (ActiveSpaceTransformer.SingleCount 4)) (Some 1) None)
         Examples.h2)
  = Raise (QiskitNatureError ["More electrons requested than available."] None)
  /\
  forall cause,
    snd (ActiveSpaceTransformer.transform Examples.record_density
           (ActiveSpaceTransformer.init
              (Some (ActiveSpaceTransformer.SingleCount 4)) (Some 1) None)
           Examples.h2)
    <> Raise (QiskitNatureError ["Incorrect Active-Space configuration."] cause).
Proof.
  split; [vm_compute; reflexivity|].
  intros cause. vm_compute. discriminate.
Qed.

Section InactiveIndices.

Import ElectronicDriverResult ActiveSpaceTransformer.

(** What a comprehension that evaluated has kept. *)
Lemma select_inactive_inv (active : list Z) (occ : Np.vector)
    (candidates inactive : list Z) :
  Forall (fun o => 0 <= o) candidates ->
  select_inactive active occ candidates = Ok inactive ->
  forall o,
    In o inactive <->
    In o candidates /\ ~ In o active /\
    exists v, nth_error occ (Z.to_nat o) = Some v /\ (0 < v)%Q.
Proof.
  intros Hpos. revert inactive.
  induction Hpos as [|c r Hc _ IH]; intros inactive; cbn [select_inactive].
  - intros [= <-] o. simpl. tauto.
  - intros H. apply bind_ok_inv in H as (keep & Hk & H).
    apply bind_ok_inv in H as (tail & Ht & H). injection H as <-.
    specialize (IH tail Ht).
    destruct (Py.mem c active) eqn:Em; cbn [negb] in Hk.
    + injection Hk as <-. intros o. rewrite IH.
      apply mem_In in Em. simpl. split.
      * intros (H1 & H2 & H3). auto.
      * intros ([<-|H1] & H2 & H3); [contradiction|auto].
    + apply bind_ok_inv in Hk as (v & Ev & Hk). injection Hk as <-.
      apply (index_nonneg_inv occ c v Hc) in Ev as [_ Hv].
      assert (Hna : ~ In c active).
      { intros Hin. apply mem_In in Hin. congruence. }
      unfold Qpositive.
      destruct (Qle_bool v 0) eqn:Eq; cbn [negb].
      * intros o. rewrite IH.
        apply Qle_bool_iff in Eq. simpl. split.
        -- intros (H1 & H2 & H3). auto.
        -- intros ([<-|H1] & H2 & (w & Hw & Hw0)); [|eauto].
           rewrite Hv in Hw. injection Hw as <-.
           exfalso. apply (Qlt_not_le _ _ Hw0 Eq).
      * intros o. simpl. rewrite IH. split.
        -- intros [<-|(H1 & H2 & H3)]; [|auto].
           split; [auto|]. split; [exact Hna|].
           exists v. split; [exact Hv|].
           apply Qnot_le_lt. intros Hle.
           apply Qle_bool_iff in Hle. congruence.
        -- intros ([<-|H1] & H2 & H3); auto.
Qed.

Lemma range_nonneg (n : Z) : Forall (fun o => 0 <= o) (Py.range n).
Proof. apply Forall_forall. intros o Ho. apply range_In in Ho. lia. Qed.

(** C4, as amended: with explicit active indices, a determined active
    space has the supplied list as its active indices, and its inactive
    indices are exactly the orbitals below half the total electron count
    that are not active and have a positive total occupation; the
    selection itself evaluates whenever that bound does not exceed the
    length of the occupation vector. *)
Theorem inactive_indices_explicit :
  (forall self molecule_data active idxs,
     _active_orbitals self = Some active ->
     snd (_determine_active_space self molecule_data) = Ok idxs ->
     exists pn occ,
       particle_number molecule_data "_num_alpha" = Ok pn /\
       _mo_occ_total self = Some occ /\
       fst idxs = active /\
       forall o,
         In o (snd idxs) <->
         0 <= o < (_num_alpha pn + _num_beta pn) / 2 /\
         ~ In o active /\
         exists v, nth_error occ (Z.to_nat o) = Some v /\ (0 < v)%Q) /\
  (forall active occ n,
     n <= Z.of_nat (List.length occ) ->
     exists inactive,
       select_inactive active occ (Py.range n) = Ok inactive).
Proof.
  split.
  - intros self molecule_data active idxs Ha Hd.
    apply determine_active_space_inv in Hd
      as (pn & a & b & Hpn & _ & _ & _ & _ & Hbranch).
    rewrite Ha in Hbranch.
    destruct Hbranch as (occ & inactive & Ho & Hsel & ->).
    exists pn, occ.
    split; [exact Hpn|]. split; [exact Ho|]. split; [reflexivity|].
    intros o. cbn [snd].
    rewrite (select_inactive_inv _ _ _ _ (range_nonneg _) Hsel o).
    rewrite range_In. tauto.
  - intros active occ n Hn.
    destruct (select_inactive_spec active occ (Py.range n)) as (i & Hi & _).
    + apply Forall_forall. intros o Ho. apply range_In in Ho.
      unfold Np.in_bounds. lia.
    + now exists i.
Qed.

End InactiveIndices.

Lemma inactive_indices_explicit_witness :
  exists pn occ,
    ActiveSpaceTransformer.particle_number Examples.open_shell "_num_alpha"
    = Ok pn /\
    ActiveSpaceTransformer._mo_occ_total
      (ActiveSpaceTransformer.set_mo_occ_total
         (ActiveSpaceTransformer.init
            (Some (ActiveSpaceTransformer.SingleCount 2)) (Some 1) (Some [0]))
         [2%Q; 1%Q; 1%Q]) = Some occ /\
    [0] = [0] /\
    forall o,
      In o [1] <->
      0 <= o < (_num_alpha pn + _num_beta pn) / 2 /\
      ~ In o [0] /\
      exists v, nth_error occ (Z.to_nat o) = Some v /\ (0 < v)%Q.
Proof.
  apply (proj1 inactive_indices_explicit
           (ActiveSpaceTransformer.set_mo_occ_total
              (ActiveSpaceTransformer.init
                 (Some (ActiveSpaceTransformer.SingleCount 2)) (Some 1)
                 (Some [0]))
              [2%Q; 1%Q; 1%Q])
           Examples.open_shell [0] ([0], [1])).
  - reflexivity.
  - vm_compute. reflexivity.
Defined.

(** C4, as stated, fails on a high-spin system of three orbitals with
    occupations (1,1,1) and (1,0,0): with orbital 0 active, orbital 2 is
    an orbital of the system, is not active and holds an electron, yet the
    inactive list is [1] alone. *)
Lemma inactive_misses_occupied_orbital :
  exists total,
    Np.add (_occupation_alpha Examples.pn_open_shell)
           (_occupation_beta Examples.pn_open_shell) = Ok total /\
    snd (ActiveSpaceTransformer._determine_active_space
           (ActiveSpaceTransformer.set_mo_occ_total
              (ActiveSpaceTransformer.init
                 (Some (ActiveSpaceTransformer.SingleCount 2)) (Some 1)
                 (Some [0]))
              total)
           Examples.open_shell) = Ok ([0], [1]) /\
    2 < _num_spin_orbitals Examples.pn_open_shell / 2 /\
    Np.index total 2 = Ok 1%Q /\ (0 < 1)%Q /\
    ~ In 2 [0] /\ ~ In 2 [1] /\
    Py.is_ok (snd (ActiveSpaceTransformer.transform Examples.record_density
                     (ActiveSpaceTransformer.init
                        (Some (ActiveSpaceTransformer.SingleCount 2)) (Some 1)
                        (Some [0]))
                     Examples.open_shell)) = true.
Proof.
  eexists. split; [vm_compute; reflexivity|].
  split; [vm_compute; reflexivity|].
  split; [vm_compute; reflexivity|].
  split; [vm_compute; reflexivity|].
  split; [reflexivity|].
  split; [simpl; intros [H|[]]; discriminate|].
  split; [simpl; intros [H|[]]; discriminate|].
  vm_compute. reflexivity.
Qed.

(** Arrays that agree entry by entry are indexed alike. *)
Lemma Forall2_swap {A B} (R : A -> B -> Prop) (a : list A) (b : list B) :
  Forall2 R a b -> Forall2 (fun y x => R x y) b a.
Proof. induction 1; constructor; assumption. Qed.

Lemma index_Forall2 {A B} (R : A -> B -> Prop) (a : list A) (b : list B)
    (i : Z) (v : A) :
  Forall2 R a b -> Np.index a i = Ok v ->
  exists w, Np.index b i = Ok w /\ R v w.
Proof.
  intros H. unfold Np.index. cbv zeta.
  rewrite <- (Forall2_length H).
  destruct (_ || _); [discriminate|].
  set (j := Z.to_nat _). clearbody j. revert j.
  induction H as [|x y a b Hxy _ IH]; intros [|j]; simpl; try discriminate.
  - intros [= <-]. eauto.
  - apply IH.
Qed.

Lemma take_Forall2 {A B} (R : A -> B -> Prop) (a : list A) (b : list B)
    (idxs : list Z) (sa : list A) :
  Forall2 R a b -> Np.take a idxs = Ok sa ->
  exists sb, Np.take b idxs = Ok sb /\ Forall2 R sa sb.
Proof.
  intros H. revert sa. induction idxs as [|i r IH]; intros sa; simpl.
  - intros [= <-]. exists []. split; [reflexivity|constructor].
  - intros Hs. apply bind_ok_inv in Hs as (v & Hv & Hs).
    apply bind_ok_inv in Hs as (vs & Hvs & Hs). injection Hs as <-.
    destruct (index_Forall2 R a b i v H Hv) as (w & -> & Hw).
    destruct (IH vs Hvs) as (ws & -> & Hws).
    exists (w :: ws). split; [reflexivity|now constructor].
Qed.

(** The sum of integer-valued entries is the sum of the integers. *)
Lemma sum_of_integers (sel : Np.vector) (zsel : list Z) :
  Forall2 (fun q z => q == inject_Z z)%Q sel zsel ->
  (Np.sum sel == inject_Z (fold_left Z.add zsel 0%Z))%Q.
Proof.
  unfold Np.sum.
  assert (G : forall (aq : Q) (az : Z),
            (aq == inject_Z az)%Q ->
            Forall2 (fun q z => q == inject_Z z)%Q sel zsel ->
            (fold_left Qplus sel aq == inject_Z (fold_left Z.add zsel az))%Q).
  { intros aq az Ha H. revert aq az Ha.
    induction H as [|q z sel zsel Hqz _ IH]; intros aq az Ha; simpl.
    - exact Ha.
    - apply IH. rewrite inject_Z_plus, Ha, Hqz. reflexivity. }
  intros H. apply G; [reflexivity|exact H].
Qed.

Section ExplicitOrbitalsTransform.

Import ElectronicDriverResult ActiveSpaceTransformer.

Variable reduce_system_size :
  SecondQuantizedProperty -> Np.matrix * option Np.matrix ->
  ElectronicBasisTransform -> result SecondQuantizedProperty.

Local Abbreviation transform := (transform reduce_system_size).

(** C5, as amended: for a single-integer electron count and a non-empty
    explicit list of fewer than 2^52 non-negative active indices, on
    well-formed molecule data with integer total occupation numbers 0, 1
    or 2 (where the float64 sum of the code is exact) whose
    inactive-electron count is feasible, [transform] raises a
    [QiskitNatureError] when the list length differs from the configured
    orbital count, or an index lies at or beyond the number of spatial
    orbitals, or the total occupation of the active indices differs from
    the configured electron count; in every other case it returns. *)
Theorem transform_explicit_orbitals_errors
    self molecule_data pn ca cb n m active total occupation :
  reduces_or_unsupported reduce_system_size ->
  well_formed molecule_data pn ca cb ->
  _num_electrons self = Some (SingleCount n) ->
  n mod 2 = 0 -> 0 <= n ->
  _num_molecular_orbitals self = Some m -> 0 <= m ->
  _active_orbitals self = Some active ->
  active <> [] ->
  Forall (fun i => 0 <= i) active ->
  Z.of_nat (List.length active) < 2 ^ 52 ->
  0 <= _num_alpha pn + _num_beta pn - n ->
  (_num_alpha pn + _num_beta pn - n) mod 2 = 0 ->
  (_num_alpha pn + _num_beta pn) / 2 <= _num_spin_orbitals pn / 2 ->
  Np.add (_occupation_alpha pn) (_occupation_beta pn) = Ok total ->
  Forall2 (fun q z => q == inject_Z z)%Q total occupation ->
  Forall (fun z => 0 <= z <= 2) occupation ->
  let bad :=
    m <> Z.of_nat (List.length active) \/
    (exists i, In i active /\ _num_spin_orbitals pn / 2 <= i) \/
    (exists sel, Np.take occupation active = Ok sel /\
                 fold_left Z.add sel 0 <> n) in
  (bad ->
   exists args,
     snd (transform self molecule_data) = Raise (QiskitNatureError args None)) /\
  (~ bad -> exists out, snd (transform self molecule_data) = Ok out).
Proof.
  intros Hred W Hn Heven Hn0 Hm Hm0 Ha Hne Hpos Hshort Hi0 Hi2 Hocc Htot
    Hint Hrange bad.
  assert (Hc : _check_configuration self = Ok tt).
  { apply check_configuration_ok. rewrite Hn, Hm. auto. }
  destruct (read_molecule_wf _ _ _ _ W) as (bs & total' & Hr & _ & Ht' & Hlen).
  rewrite Htot in Ht'. injection Ht' as <-.
  rewrite (transform_eq _ _ _ _ _ _ _ _ Hc Hr).
  pose proof (particle_number_wf _ _ _ _ "_num_alpha" W) as Hpn.
  unfold _determine_active_space. rewrite Hpn.
  cbn [set_mo_occ_total _num_electrons]. rewrite Hn.
  cbn [requested_counts fst snd].
  replace (_num_alpha pn + _num_beta pn - n / 2 - n / 2)
    with (_num_alpha pn + _num_beta pn - n)
    by (pose proof (even_halves n Heven); lia).
  rewrite (proj2 (validate_num_electrons_ok _) (conj Hi0 Hi2)).
  cbn [Py.bind].
  set (self2 := set_num_particles _ _).
  destruct (validate_num_orbitals_explicit self2
              (_num_alpha pn + _num_beta pn - n) molecule_data pn active n m
              total Ha Hm Hn eq_refl
              (fun attr => particle_number_wf _ _ _ _ attr W) Hne Hpos Hlen)
    as [Hbad Hgood].
  (* the sum of the selected rationals is the sum of the integers *)
  assert (Hsum : forall sel zsel,
            Np.take total active = Ok sel ->
            Np.take occupation active = Ok zsel ->
            (Np.sum sel == inject_Z n)%Q <-> fold_left Z.add zsel 0 = n).
  { intros sel zsel Hs Hz.
    destruct (take_Forall2 _ _ _ active sel Hint Hs) as (zsel' & Hz' & Hrel).
    rewrite Hz in Hz'. injection Hz' as <-.
    rewrite (sum_of_integers _ _ Hrel). apply inject_Z_injective. }
  split.
  - intros Hb.
    assert (Hq : m <> Z.of_nat (List.length active) \/
                 (exists i, In i active /\ _num_spin_orbitals pn / 2 <= i) \/
                 (exists sel, Np.take total active = Ok sel /\
                              ~ (Np.sum sel == inject_Z n)%Q)).
    { destruct Hb as [Hb|[Hb|(zsel & Hz & Hb)]]; [auto|auto|].
      right. right.
      destruct (take_Forall2 _ _ _ active zsel (Forall2_swap _ _ _ Hint) Hz)
        as (sel & Hs & _).
      exists sel. split; [exact Hs|].
      intros E. apply Hb. now apply (Hsum sel zsel Hs Hz). }
    destruct (Hbad Hq) as (args & ->). cbn [Py.bind]. eauto.
  - intros Hb.
    assert (Hq : ~ (m <> Z.of_nat (List.length active) \/
                    (exists i, In i active /\ _num_spin_orbitals pn / 2 <= i) \/
                    (exists sel, Np.take total active = Ok sel /\
                                 ~ (Np.sum sel == inject_Z n)%Q))).
    { intros [Hq|[Hq|(sel & Hs & Hq)]]; [apply Hb; left; exact Hq
                                         |apply Hb; right; left; exact Hq|].
      destruct (take_Forall2 _ _ _ active sel Hint Hs) as (zsel & Hz & _).
      apply Hb. right. right. exists zsel. split; [exact Hz|].
      intros E. apply Hq. now apply (Hsum sel zsel Hs Hz). }
    rewrite (Hgood Hq). cbn [Py.bind].
    subst self2.
    change (_active_orbitals
              (set_num_particles (set_mo_occ_total self total) (n / 2, n / 2)))
      with (_active_orbitals self).
    change (_mo_occ_total
              (set_num_particles (set_mo_occ_total self total) (n / 2, n / 2)))
      with (Some total).
    rewrite Ha. cbn [not_none Py.bind].
    destruct (select_inactive_spec active total
                (Py.range ((_num_alpha pn + _num_beta pn) / 2)))
      as (inactive & -> & Hin).
    { apply Forall_forall. intros o Ho. apply range_In in Ho.
      unfold Np.in_bounds. lia. }
    cbn [Py.bind fst snd].
    apply (reduce_molecule_total reduce_system_size Hred _ _ pn ca cb bs
             active inactive m (n / 2, n / 2) W).
    + exact Hm.
    + reflexivity.
    + apply Forall_forall. intros i Hi. split.
      * exact (proj1 (Forall_forall _ _) Hpos i Hi).
      * destruct (Z.lt_ge_cases i (_num_spin_orbitals pn / 2)) as [H|H];
          [exact H|].
        exfalso. apply Hb. right. left. exists i. auto.
    + apply Forall_forall. intros o Ho. apply Hin in Ho as (Ho & _).
      apply range_In in Ho. lia.
Qed.

End ExplicitOrbitalsTransform.

(** ** The example systems *)

Lemma record_density_contract :
  ActiveSpaceTransformer.reduces_or_unsupported Examples.record_density.
Proof.
  intros [pn|nm data] density basis_transform; simpl; eauto.
Qed.

Lemma h2_well_formed :
  ActiveSpaceTransformer.well_formed Examples.h2 Examples.pn_h2
    (Examples.identity 2) (Examples.identity 2).
Proof.
  constructor; try reflexivity.
  - now exists AO, MO.
  - repeat constructor.
  - repeat constructor.
  - discriminate.
Qed.

Lemma open_shell_well_formed :
  ActiveSpaceTransformer.well_formed Examples.open_shell
    Examples.pn_open_shell (Examples.identity 3) (Examples.identity 3).
Proof.
  constructor; try reflexivity.
  - now exists AO, MO.
  - repeat constructor.
  - repeat constructor.
  - discriminate.
Qed.

Lemma transform_explicit_orbitals_errors_witness :
  (exists args,
     snd (ActiveSpaceTransformer.transform Examples.record_density
            (ActiveSpaceTransformer.init
               (Some (ActiveSpaceTransformer.SingleCount 2)) (Some 1)
               (Some [0; 5]))
            Examples.open_shell)
     = Raise (QiskitNatureError args None)) /\
  (exists out,
     snd (ActiveSpaceTransformer.transform Examples.record_density
            (ActiveSpaceTransformer.init
               (Some (ActiveSpaceTransformer.SingleCount 2)) (Some 1)
               (Some [0]))
            Examples.open_shell)
     = Ok out).
Proof.
  split.
  - destruct (transform_explicit_orbitals_errors Examples.record_density
                (ActiveSpaceTransformer.init
                   (Some (ActiveSpaceTransformer.SingleCount 2)) (Some 1)
                   (Some [0; 5]))
                Examples.open_shell Examples.pn_open_shell
                (Examples.identity 3) (Examples.identity 3) 2 1 [0; 5]
                [2%Q; 1%Q; 1%Q] [2; 1; 1]) as [Hbad _];
      [ exact record_density_contract | exact open_shell_well_formed
      | reflexivity | reflexivity | lia | reflexivity | lia | reflexivity
      | discriminate | repeat constructor; lia | reflexivity
      | vm_compute; discriminate
      | reflexivity | vm_compute; discriminate | reflexivity
      | repeat constructor | repeat constructor; lia | ].
    apply Hbad. left. simpl. lia.
  - destruct (transform_explicit_orbitals_errors Examples.record_density
                (ActiveSpaceTransformer.init
                   (Some (ActiveSpaceTransformer.SingleCount 2)) (Some 1)
                   (Some [0]))
                Examples.open_shell Examples.pn_open_shell
                (Examples.identity 3) (Examples.identity 3) 2 1 [0]
                [2%Q; 1%Q; 1%Q] [2; 1; 1]) as [_ Hgood];
      [ exact record_density_contract | exact open_shell_well_formed
      | reflexivity | reflexivity | lia | reflexivity | lia | reflexivity
      | discriminate | repeat constructor; lia | reflexivity
      | vm_compute; discriminate
      | reflexivity | vm_compute; discriminate | reflexivity
      | repeat constructor | repeat constructor; lia | ].
    apply Hgood.
    intros [H|[(i & Hi & H)|(sel & Hs & H)]].
    + apply H. reflexivity.
    + destruct Hi as [<-|[]]. vm_compute in H. apply H. reflexivity.
    + injection Hs as <-. apply H. reflexivity.
Defined.

(** C5, as stated, fails on a list of the wrong length: both indices lie
    in the orbital range and the occupation they select equals the
    requested two electrons, yet [transform] raises. *)
Lemma transform_length_mismatch_raises :
  snd (ActiveSpaceTransformer.transform Examples.record_density
         (ActiveSpaceTransformer.init
            (Some (ActiveSpaceTransformer.SingleCount 2)) (Some 1)
            (Some [0; 1]))
         Examples.h2)
  = Raise (QiskitNatureError
             ["The number of selected active orbital indices does not match the specified number of active orbitals."]
             None) /\
  Forall (fun i => i < _num_spin_orbitals Examples.pn_h2 / 2) [0; 1] /\
  exists total sel,
    Np.add (_occupation_alpha Examples.pn_h2)
           (_occupation_beta Examples.pn_h2) = Ok total /\
    Np.take total [0; 1] = Ok sel /\
    (Np.sum sel == inject_Z 2)%Q.
Proof.
  split; [vm_compute; reflexivity|].
  split; [repeat constructor|].
  eexists _, _. split; [vm_compute; reflexivity|].
  split; [vm_compute; reflexivity|].
  vm_compute. reflexivity.
Qed.

(** C1 fails on its orbital count: reducing the two-orbital system to two
    electrons in two orbitals succeeds with the requested (1, 1) electrons
    and the occupations of the active orbitals, but the particle number
    of the result holds [2 // 2 = 1] spin orbitals, that is no spatial
    orbital at all, where two active orbitals need four. *)
Theorem transform_particle_number_spin_orbitals :
  exists out pn,
    snd (ActiveSpaceTransformer.transform Examples.record_density
           (ActiveSpaceTransformer.init
              (Some (ActiveSpaceTransformer.SingleCount 2)) (Some 2) None)
           Examples.h2) = Ok out /\
    Py.get (ElectronicDriverResult.properties out) "ParticleNumber"
    = Some (ParticleNumberProperty pn) /\
    _num_alpha pn = 1 /\ _num_beta pn = 1 /\
    _occupation_alpha pn = [1%Q; 0%Q] /\
    _occupation_beta pn = [1%Q; 0%Q] /\
    _num_spin_orbitals pn = 1 /\
    _num_spin_orbitals pn / 2 = 0 /\
    _num_spin_orbitals pn / 2 <> 2.
Proof.
  eexists _, _. split; [vm_compute; reflexivity|].
  split; [reflexivity|].
  repeat split; try reflexivity. discriminate.
Qed.

(** C3 fails in both directions: on equal coefficient matrices
    [transform] builds the beta density as well, and on coefficient
    matrices that differ it builds the alpha density only. *)
Theorem beta_density_built_when_coefficients_agree :
  (Np.allclose (Examples.identity 2) (Examples.identity 2) = Ok true /\
   exists out density_a density_b,
     snd (ActiveSpaceTransformer.transform Examples.record_density
            (ActiveSpaceTransformer.init
               (Some (ActiveSpaceTransformer.SingleCount 2)) (Some 1) None)
            Examples.restricted) = Ok out /\
     Py.get (ElectronicDriverResult.properties out) "ElectronicEnergy"
     = Some (OtherProperty "ElectronicEnergy" [density_a; density_b])) /\
  (Np.allclose (Examples.identity 2) Examples.swap2 = Ok false /\
   Examples.identity 2 <> Examples.swap2 /\
   exists out density_a,
     snd (ActiveSpaceTransformer.transform Examples.record_density
            (ActiveSpaceTransformer.init
               (Some (ActiveSpaceTransformer.SingleCount 2)) (Some 1) None)
            Examples.unrestricted) = Ok out /\
     Py.get (ElectronicDriverResult.properties out) "ElectronicEnergy"
     = Some (OtherProperty "ElectronicEnergy" [density_a])).
Proof.
  split.
  - split; [vm_compute; reflexivity|].
    eexists _, _, _. split; [vm_compute; reflexivity|]. reflexivity.
  - split; [vm_compute; reflexivity|].
    split; [discriminate|].
    eexists _, _. split; [vm_compute; reflexivity|]. reflexivity.
Qed.

Section FermiLevel.

Import ElectronicDriverResult ActiveSpaceTransformer.

Variable reduce_system_size :
  SecondQuantizedProperty -> Np.matrix * option Np.matrix ->
  ElectronicBasisTransform -> result SecondQuantizedProperty.

Local Abbreviation transform := (transform reduce_system_size).

(** A single even electron count [n] and an orbital count [m] that the
    molecule can accommodate: [transform] returns, and the particle number
    of the result is the freshly built one, with [n / 2] electrons per
    spin, the occupations of the active orbitals, and [m / 2] as its
    number of spin orbitals. *)
Lemma transform_fermi_level self molecule_data pn ca cb n m :
  reduces_or_unsupported reduce_system_size ->
  well_formed molecule_data pn ca cb ->
  _num_electrons self = Some (SingleCount n) ->
  n mod 2 = 0 -> 0 <= n ->
  _num_molecular_orbitals self = Some m -> 0 <= m ->
  _active_orbitals self = None ->
  0 <= _num_alpha pn + _num_beta pn - n ->
  (_num_alpha pn + _num_beta pn - n) mod 2 = 0 ->
  (_num_alpha pn + _num_beta pn - n) / 2 + m <= _num_spin_orbitals pn / 2 ->
  let first := (_num_alpha pn + _num_beta pn - n) / 2 in
  exists out occ_a occ_b,
    snd (transform self molecule_data) = Ok out /\
    Np.take (_occupation_alpha pn) (Py.range2 first (first + m)) = Ok occ_a /\
    Np.take (_occupation_beta pn) (Py.range2 first (first + m)) = Ok occ_b /\
    Py.get (properties out) "ParticleNumber"
    = Some (ParticleNumberProperty
              (mkParticleNumber (m / 2) (n / 2) (n / 2) occ_a occ_b)).
Proof.
  intros Hred W Hn Heven Hn0 Hm Hm0 Ha Hi0 Hi2 Hfit first.
  assert (Hc : _check_configuration self = Ok tt).
  { apply check_configuration_ok. rewrite Hn, Hm. auto. }
  destruct (read_molecule_wf _ _ _ _ W) as (bs & total & Hr & _ & _ & _).
  rewrite (transform_eq _ _ _ _ _ _ _ _ Hc Hr).
  pose proof (particle_number_wf _ _ _ _ "_num_alpha" W) as Hpn.
  unfold _determine_active_space. rewrite Hpn.
  change (_num_electrons (set_mo_occ_total self total))
    with (_num_electrons self).
  rewrite Hn. cbn [requested_counts fst snd].
  replace (_num_alpha pn + _num_beta pn - n / 2 - n / 2)
    with (_num_alpha pn + _num_beta pn - n)
    by (pose proof (even_halves n Heven); lia).
  rewrite (proj2 (validate_num_electrons_ok _) (conj Hi0 Hi2)).
  cbn [Py.bind]. unfold _validate_num_orbitals.
  change (_active_orbitals
            (set_num_particles (set_mo_occ_total self total) (n / 2, n / 2)))
    with (_active_orbitals self).
  change (_num_molecular_orbitals
            (set_num_particles (set_mo_occ_total self total) (n / 2, n / 2)))
    with (_num_molecular_orbitals self).
  rewrite Ha, Hm. cbn [not_none Py.bind].
  rewrite (particle_number_wf _ _ _ _ "_num_spin_orbitals" W).
  cbn [Py.bind]. rewrite Z.gtb_ltb.
  destruct (Z.ltb_spec (_num_spin_orbitals pn / 2)
              ((_num_alpha pn + _num_beta pn - n) / 2 + m)); [lia|].
  cbn [Py.bind fst snd]. fold first.
  assert (H0 : 0 <= first).
  { subst first. apply Z.div_pos; lia. }
  destruct (reduce_molecule_total reduce_system_size Hred
              (set_num_particles (set_mo_occ_total self total) (n / 2, n / 2))
              molecule_data pn ca cb bs (Py.range2 first (first + m))
              (Py.range first) m (n / 2, n / 2) W Hm eq_refl)
    as (out & Hout).
  { apply Forall_forall. intros i Hi. apply range2_In in Hi. lia. }
  { apply Forall_forall. intros i Hi. apply range_In in Hi. lia. }
  rewrite Hout.
  destruct (reduce_molecule_inv _ _ _ _ _ _ _ _ _ Hout)
    as (m' & np & oa & ob & Hm' & Hnp & Hoa & Hob & Hget).
  change (_num_molecular_orbitals
            (set_num_particles (set_mo_occ_total self total) (n / 2, n / 2)))
    with (_num_molecular_orbitals self) in Hm'.
  rewrite Hm in Hm'. injection Hm' as <-.
  injection Hnp as <-.
  exists out, oa, ob. repeat split; assumption.
Qed.

End FermiLevel.

(** ** The inactive density *)

Section Density.

Import ActiveSpaceTransformer.

Local Open Scope Q_scope.

Lemma qsum_ext (n : nat) (f g : nat -> Q) :
  (forall k, (k < n)%nat -> f k == g k) -> Np.qsum n f == Np.qsum n g.
Proof.
  revert f g. induction n as [|n IH]; intros f g H; simpl.
  - reflexivity.
  - rewrite (H O) by lia. rewrite (IH (fun k => f (S k)) (fun k => g (S k))).
    + reflexivity.
    + intros k Hk. apply H. lia.
Qed.

Lemma qsum_zero (n : nat) (f : nat -> Q) :
  (forall k, (k < n)%nat -> f k == 0) -> Np.qsum n f == 0.
Proof.
  revert f. induction n as [|n IH]; intros f H; simpl.
  - reflexivity.
  - rewrite (H O) by lia. rewrite IH; [ring|].
    intros k Hk. apply H. lia.
Qed.

(** Summing against a row of the diagonal matrix picks one term. *)
Lemma qsum_diag (n k : nat) (a x : Q) (s : nat -> Q) :
  (k < n)%nat ->
  Np.qsum n (fun l => a * (if Nat.eqb k l then x else 0) * s l)
  == a * x * s k.
Proof.
  revert k s. induction n as [|n IH]; intros k s Hk; [lia|].
  simpl. destruct k as [|k].
  - simpl. rewrite qsum_zero; [ring|].
    intros l _. ring.
  - simpl. rewrite (IH k (fun l => s (S l))) by lia. ring.
Qed.

(** The inner product of a scaled row with a row is the weighted sum of
    products of their entries. *)
Lemma vdot_mulv (r o s : Np.vector) :
  List.length r = List.length o -> List.length s = List.length o ->
  Np.vdot (Np.mulv r o) s
  == Np.qsum (List.length o)
       (fun k => nth k r 0 * nth k o 0 * nth k s 0).
Proof.
  revert r s. induction o as [|y o IH]; intros r s Hr Hs.
  - destruct r; [|discriminate]. reflexivity.
  - destruct r as [|x r]; [discriminate|].
    destruct s as [|z s]; [discriminate|].
    simpl. rewrite IH by (simpl in *; lia). reflexivity.
Qed.

Lemma take_length {A} (a : list A) (idxs : list Z) (l : list A) :
  Np.take a idxs = Ok l -> List.length l = List.length idxs.
Proof.
  revert l. induction idxs as [|i r IH]; intros l; simpl.
  - now intros [= <-].
  - intros H. apply bind_ok_inv in H as (v & _ & H).
    apply bind_ok_inv in H as (vs & Hvs & H). injection H as <-.
    simpl. now rewrite (IH vs Hvs).
Qed.

Lemma take_rows_length (m : Np.matrix) (idxs : list Z) (c : Np.matrix) :
  Np.take_rows m idxs = Ok c ->
  Forall (fun r => List.length r = List.length idxs) c.
Proof.
  revert c. induction m as [|row rest IH]; intros c; simpl.
  - intros [= <-]. constructor.
  - intros H. apply bind_ok_inv in H as (r & Hr & H).
    apply bind_ok_inv in H as (rs & Hrs & H). injection H as <-.
    constructor; [exact (take_length _ _ _ Hr)|exact (IH rs Hrs)].
Qed.

Lemma take_cols_length (m : Np.matrix) (idxs : list Z) (c : Np.matrix) :
  Np.take_cols m idxs = Ok c ->
  Forall (fun r => List.length r = List.length idxs) c.
Proof.
  unfold Np.take_cols. destruct m as [|row rest].
  - destruct idxs; [|discriminate]. intros [= <-]. constructor.
  - intros H. apply (take_rows_length (row :: rest)).
    destruct idxs; exact H.
Qed.

Lemma dot_transpose_entry (a b : Np.matrix) (i j : nat) :
  (i < List.length a)%nat -> (j < List.length b)%nat ->
  Np.entry (Np.dot_transpose a b) i j
  = Np.vdot (nth i a []) (nth j b []).
Proof.
  intros Hi Hj. unfold Np.entry, Np.dot_transpose.
  rewrite (nth_indep _ [] (List.map (fun rb => Np.vdot [] rb) b))
    by (now rewrite length_map).
  rewrite (map_nth (fun ra => List.map (fun rb => Np.vdot ra rb) b) a [] i).
  cbv beta.
  rewrite (nth_indep _ 0 (Np.vdot (nth i a []) []))
    by (now rewrite length_map).
  exact (map_nth (fun rb => Np.vdot (nth i a []) rb) b [] j).
Qed.

Lemma scale_cols_nth (c : Np.matrix) (o : Np.vector) (i : nat) :
  (i < List.length c)%nat ->
  nth i (Np.scale_cols c o) [] = Np.mulv (nth i c []) o.
Proof.
  intros Hi. unfold Np.scale_cols.
  rewrite (nth_indep _ [] (Np.mulv [] o)) by (now rewrite length_map).
  exact (map_nth (fun r => Np.mulv r o) c [] i).
Qed.

(** X14: the density [transform] builds from the inactive columns [c] of
    the coefficient matrix and the inactive occupations [o] is the square
    matrix [c . diag(o) . c^T], with as many rows and columns as the
    coefficient matrix has rows. *)
Lemma density_inactive_formula (mo_occ : Np.vector) (mo_coeff : Np.matrix)
    (idxs : list Z) (d : Np.matrix) :
  density_inactive mo_occ mo_coeff idxs = Ok d ->
  exists o c,
    Np.take mo_occ idxs = Ok o /\
    Np.take_cols mo_coeff idxs = Ok c /\
    List.length d = List.length c /\
    Forall (fun row => List.length row = List.length c) d /\
    forall i j,
      (i < List.length c)%nat -> (j < List.length c)%nat ->
      Np.entry d i j == Np.congruence_entry c o i j.
Proof.
  unfold density_inactive. intros H.
  apply bind_ok_inv in H as (o & Ho & H).
  apply bind_ok_inv in H as (c & Hc & H). injection H as <-.
  exists o, c. split; [exact Ho|]. split; [exact Hc|].
  pose proof (take_length _ _ _ Ho) as Hlo.
  pose proof (take_cols_length _ _ _ Hc) as Hlc.
  split; [|split].
  - unfold Np.dot_transpose, Np.scale_cols. now rewrite !length_map.
  - unfold Np.dot_transpose. apply Forall_forall. intros row Hrow.
    apply in_map_iff in Hrow as (ra & <- & _). now rewrite length_map.
  - intros i j Hi Hj.
    rewrite dot_transpose_entry
      by (unfold Np.scale_cols; rewrite ?length_map; assumption).
    rewrite scale_cols_nth by assumption.
    assert (Hrow : forall k, (k < List.length c)%nat ->
                     List.length (nth k c []) = List.length o).
    { intros k Hk. rewrite Hlo.
      exact (proj1 (Forall_forall _ _) Hlc _ (nth_In c [] Hk)). }
    rewrite vdot_mulv by (apply Hrow; assumption).
    unfold Np.congruence_entry. apply qsum_ext. intros k Hk.
    unfold Np.diag_entry, Np.entry.
    rewrite (qsum_diag (List.length o) k (nth k (nth i c []) 0)
               (nth k o 0) (fun l => nth l (nth j c []) 0) Hk).
    reflexivity.
Qed.

End Density.

(** * Further properties of the code *)

(** ** CompositeProperty: lookup, insertion and traversal *)

Section CompositeMore.

Import CompositeProperty.

Variable Property : Type.
Variable name : Property -> string.

Local Abbreviation add_property := (add_property Property name).
Local Abbreviation get_property := (get_property Property).
Local Abbreviation send := (send Property name).
Local Abbreviation well_keyed := (well_keyed Property name).

Lemma get_In_keys {V} (d : Py.dict V) (k : string) :
  In k (Py.keys d) <-> exists v, Py.get d k = Some v.
Proof.
  induction d as [|[k' v'] r IH]; simpl.
  - split; [tauto|]. intros (v & H). discriminate.
  - destruct (String.eqb_spec k k') as [->|Hne].
    + split; eauto.
    + rewrite <- IH. split; [intros [H|H]; [congruence|exact H]|auto].
Qed.

Lemma set_length {V} (d : Py.dict V) (k : string) (v : V) :
  List.length (Py.set d k v)
  = if in_dec string_dec k (Py.keys d) then List.length d
    else S (List.length d).
Proof.
  transitivity (List.length (Py.keys (Py.set d k v)));
    [unfold Py.keys; now rewrite length_map|].
  destruct (in_dec string_dec k (Py.keys d)) as [Hin|Hin].
  - rewrite keys_set_present by exact Hin. unfold Py.keys.
    now rewrite length_map.
  - rewrite keys_set_absent by exact Hin. unfold Py.keys.
    rewrite length_app, length_map. simpl. lia.
Qed.

Lemma set_keeps_names (d : Py.dict Property) (p : Property) :
  Forall (fun kv => fst kv = name (snd kv)) d ->
  Forall (fun kv => fst kv = name (snd kv)) (Py.set d (name p) p).
Proof.
  induction 1 as [|[k v] r Hkv Hr IH]; simpl.
  - repeat constructor.
  - destruct (String.eqb_spec (name p) k) as [E|E].
    + constructor; [simpl; now rewrite <- E|assumption].
    + constructor; assumption.
Qed.

Lemma set_keeps_NoDup {V} (d : Py.dict V) (k : string) (v : V) :
  NoDup (Py.keys d) -> NoDup (Py.keys (Py.set d k v)).
Proof.
  intros H. destruct (in_dec string_dec k (Py.keys d)) as [Hin|Hin].
  - now rewrite keys_set_present.
  - rewrite keys_set_absent by exact Hin.
    apply NoDup_app; [exact H|repeat constructor; simpl; tauto|].
    intros x Hx [<-|[]]. contradiction.
Qed.

(** X1: a property added to a composite is found again under its own
    name, whether it replaced another or not; every other name looks up
    what it did before; looking up by class is looking up the class
    name; the composite keeps its own name. *)
Theorem add_then_get_property (self : CompositeProperty Property)
    (p : Property) :
  get_property (add_property self p) (ByName (name p)) = Some p /\
  (forall k, k <> name p ->
     get_property (add_property self p) (ByName k)
     = get_property self (ByName k)) /\
  (forall c, get_property self (ByType c) = get_property self (ByName c)) /\
  composite_name (add_property self p) = composite_name self.
Proof.
  split; [|split; [|split]].
  - apply get_set_same.
  - intros k Hk. unfold CompositeProperty.get_property,
      CompositeProperty.add_property. cbn [_properties].
    now apply get_set_other.
  - reflexivity.
  - reflexivity.
Qed.

(** X2: the empty composite stores every property under its own name
    with no name twice, and [add_property] and every resumption of the
    generator keep it so; adding a name that is present replaces in place
    and leaves the number of properties, adding a new name appends one. *)
Theorem add_property_keeps_keys (self : CompositeProperty Property) :
  well_keyed (init Property (composite_name self)) /\
  (well_keyed self ->
   forall p,
     well_keyed (add_property self p) /\
     (In (name p) (Py.keys (_properties self)) ->
      Py.keys (_properties (add_property self p))
      = Py.keys (_properties self)) /\
     (~ In (name p) (Py.keys (_properties self)) ->
      _properties (add_property self p) = _properties self ++ [(name p, p)])) /\
  (well_keyed self ->
   forall gen sent, well_keyed (fst (fst (send self gen sent)))).
Proof.
  assert (Hadd : forall s p, well_keyed s -> well_keyed (add_property s p)).
  { intros s p [Hnd Hnm]. split; cbn [CompositeProperty.add_property _properties].
    - now apply set_keeps_NoDup.
    - now apply set_keeps_names. }
  split; [|split].
  - split; cbn; constructor.
  - intros W p. split; [now apply Hadd|]. split.
    + intros Hin. cbn [CompositeProperty.add_property _properties].
      now apply keys_set_present.
    + intros Hin. cbn [CompositeProperty.add_property _properties].
      clear W. induction (_properties self) as [|[k v] r IH]; simpl.
      * reflexivity.
      * simpl in Hin. destruct (String.eqb_spec (name p) k) as [E|E].
        -- exfalso. apply Hin. left. now symmetry.
        -- f_equal. apply IH. tauto.
  - intros W gen sent. unfold CompositeProperty.send.
    destruct gen as [|du pos|].
    + destruct sent; [exact W|].
      now destruct (next_value _ _ _ _).
    + destruct sent as [p|].
      * destruct (next_value Property (add_property self p) du pos).
        cbn [fst]. now apply Hadd.
      * now destruct (next_value _ _ _ _).
    + exact W.
Qed.

End CompositeMore.

Section CompositeTraversal.

Import CompositeProperty.

Variable Property : Type.
Variable name : Property -> string.

Local Abbreviation add_property := (add_property Property name).
Local Abbreviation get_property := (get_property Property).
Local Abbreviation send := (send Property name).
Local Abbreviation for_each := (for_each Property name).
Local Abbreviation to_list := (to_list Property name).

Lemma skipn_nth_error {A} (l : list A) (k : nat) (a : A) :
  nth_error l k = Some a -> skipn k l = a :: skipn (S k) l.
Proof.
  revert k. induction l as [|x r IH]; intros [|k]; simpl; try discriminate.
  - now intros [= ->].
  - intros H. now rewrite (IH k H).
Qed.

Lemma nth_error_lt {A} (l : list A) (k : nat) (a : A) :
  nth_error l k = Some a -> (k < List.length l)%nat.
Proof. intros H. apply nth_error_Some. congruence. Qed.

Lemma for_each_suspended (self : CompositeProperty Property)
    (fuel k : nat) :
  (List.length (_properties self) - k < fuel)%nat ->
  for_each fuel self (Suspended (List.length (_properties self)) k)
  = Some (self, Ok (skipn k (Py.values (_properties self)))).
Proof.
  revert k. induction fuel as [|fuel IH]; intros k Hk; [lia|].
  cbn [CompositeProperty.for_each CompositeProperty.send].
  unfold next_value. rewrite Nat.eqb_refl. cbn [negb].
  destruct (nth_error (Py.values (_properties self)) k) as [p|] eqn:E.
  - assert (k < List.length (_properties self))%nat.
    { apply nth_error_lt in E. unfold Py.values in E.
      now rewrite length_map in E. }
    rewrite IH by lia. now rewrite (skipn_nth_error _ _ _ E).
  - apply nth_error_None in E. now rewrite skipn_all2.
Qed.

(** X3: iterating over a composite without sending anything yields all
    its properties, each once, in insertion order, and leaves the
    composite as it was. *)
Theorem to_list_values (self : CompositeProperty Property) :
  to_list self = Some (self, Ok (Py.values (_properties self))).
Proof.
  unfold CompositeProperty.to_list.
  transitivity (for_each (S (List.length (_properties self))) self
                  (Suspended (List.length (_properties self)) 0)).
  - reflexivity.
  - exact (for_each_suspended self (S (List.length (_properties self))) 0
             ltac:(lia)).
Qed.

(** X4: a replacement whose name is not yet in the composite is added as
    a new last entry, and the resumed generator stops at once with
    [RuntimeError], the dictionary having changed size during the
    iteration: the remaining elements are not produced. *)
Theorem send_new_name_stops_iteration (self : CompositeProperty Property)
    (di_pos : nat) (p : Property) :
  ~ In (name p) (Py.keys (_properties self)) ->
  send self (Suspended (List.length (_properties self)) di_pos) (Some p)
  = (add_property self p, Finished,
     Raised (RuntimeError "dictionary changed size during iteration")) /\
  _properties (add_property self p) = _properties self ++ [(name p, p)].
Proof.
  intros Hin.
  assert (Happ : _properties (add_property self p)
                 = _properties self ++ [(name p, p)]).
  { cbn [CompositeProperty.add_property _properties].
    induction (_properties self) as [|[k v] r IH]; simpl; [reflexivity|].
    simpl in Hin. destruct (String.eqb_spec (name p) k) as [E|E].
    - exfalso. apply Hin. left. now symmetry.
    - f_equal. apply IH. tauto. }
  split; [|exact Happ].
  cbn [CompositeProperty.send]. unfold next_value.
  rewrite Happ, length_app. cbn [List.length].
  destruct (Nat.eqb_spec (List.length (_properties self) + 1)
              (List.length (_properties self))); [lia|].
  reflexivity.
Qed.

(** X5: a replacement sent for the last element is still written back:
    the generator stores it under its name, which is present, and only
    then ends with [StopIteration]. *)
Theorem send_after_last_element (self : CompositeProperty Property)
    (p : Property) :
  In (name p) (Py.keys (_properties self)) ->
  send self
    (Suspended (List.length (_properties self))
               (List.length (_properties self))) (Some p)
  = (add_property self p, Finished, StopIteration) /\
  get_property (add_property self p) (ByName (name p)) = Some p.
Proof.
  intros Hin. split; [|apply get_set_same].
  cbn [CompositeProperty.send]. unfold next_value.
  assert (Hl : List.length (_properties (add_property self p))
               = List.length (_properties self)).
  { cbn [CompositeProperty.add_property _properties].
    transitivity (List.length (Py.keys (Py.set (_properties self) (name p) p)));
      [unfold Py.keys; now rewrite length_map|].
    rewrite keys_set_present by exact Hin. unfold Py.keys.
    now rewrite length_map. }
  rewrite Hl, Nat.eqb_refl. cbn [negb].
  destruct (nth_error _ _) eqn:E; [|reflexivity].
  apply nth_error_lt in E. unfold Py.values in E.
  rewrite length_map, Hl in E. lia.
Qed.

End CompositeTraversal.

Lemma add_then_get_property_witness :
  CompositeProperty.get_property Examples.named
    (CompositeProperty.add_property Examples.named Examples.named_name
       (CompositeProperty.mkComposite "c" [("A", ("A", 1)); ("B", ("B", 2))])
       ("A", 7))
    (CompositeProperty.ByName "B")
  = Some ("B", 2).
Proof.
  apply (proj1 (proj2 (add_then_get_property Examples.named Examples.named_name
                         (CompositeProperty.mkComposite "c"
                            [("A", ("A", 1)); ("B", ("B", 2))])
                         ("A", 7))) "B").
  discriminate.
Defined.

Lemma add_property_keeps_keys_witness :
  CompositeProperty.well_keyed Examples.named Examples.named_name
    (CompositeProperty.add_property Examples.named Examples.named_name
       (CompositeProperty.mkComposite "c" [("A", ("A", 1))]) ("B", 2)) /\
  CompositeProperty._properties
    (CompositeProperty.add_property Examples.named Examples.named_name
       (CompositeProperty.mkComposite "c" [("A", ("A", 1))]) ("B", 2))
  = [("A", ("A", 1)); ("B", ("B", 2))].
Proof.
  assert (W : CompositeProperty.well_keyed Examples.named Examples.named_name
                (CompositeProperty.mkComposite "c" [("A", ("A", 1))])).
  { split; simpl; repeat constructor. simpl. tauto. }
  destruct (proj1 (proj2 (add_property_keeps_keys Examples.named
                            Examples.named_name
                            (CompositeProperty.mkComposite "c"
                               [("A", ("A", 1))]))) W ("B", 2))
    as (H1 & _ & H3).
  split; [exact H1|]. apply H3. simpl. intros [H|[]]. discriminate.
Defined.

Lemma send_new_name_stops_iteration_witness :
  CompositeProperty.send Examples.named Examples.named_name
    (CompositeProperty.mkComposite "c" [("A", ("A", 1)); ("B", ("B", 2))])
    (CompositeProperty.Suspended 2 1) (Some ("C", 3))
  = (CompositeProperty.mkComposite "c"
       [("A", ("A", 1)); ("B", ("B", 2)); ("C", ("C", 3))],
     CompositeProperty.Finished,
     CompositeProperty.Raised
       (RuntimeError "dictionary changed size during iteration")).
Proof.
  apply (proj1 (send_new_name_stops_iteration Examples.named
                  Examples.named_name
                  (CompositeProperty.mkComposite "c"
                     [("A", ("A", 1)); ("B", ("B", 2))])
                  1 ("C", 3)
                  ltac:(simpl; intros [H|[H|[]]]; discriminate))).
Defined.

Lemma send_after_last_element_witness :
  CompositeProperty.send Examples.named Examples.named_name
    (CompositeProperty.mkComposite "c" [("A", ("A", 1)); ("B", ("B", 2))])
    (CompositeProperty.Suspended 2 2) (Some ("B", 9))
  = (CompositeProperty.mkComposite "c" [("A", ("A", 1)); ("B", ("B", 9))],
     CompositeProperty.Finished, CompositeProperty.StopIteration).
Proof.
  apply (proj1 (send_after_last_element Examples.named Examples.named_name
                  (CompositeProperty.mkComposite "c"
                     [("A", ("A", 1)); ("B", ("B", 2))])
                  ("B", 9) ltac:(simpl; auto))).
Defined.

(** ** ActiveSpaceTransformer: outcomes of [transform] *)

Section FermiOutcome.

Import ElectronicDriverResult ActiveSpaceTransformer.

Variable reduce_system_size :
  SecondQuantizedProperty -> Np.matrix * option Np.matrix ->
  ElectronicBasisTransform -> result SecondQuantizedProperty.

Local Abbreviation transform := (transform reduce_system_size).

(** [_determine_active_space] without explicit indices, as a decision
    on the inactive-electron count. *)
Lemma determine_active_space_fermi self molecule_data pn a b m :
  (forall attr, particle_number molecule_data attr = Ok pn) ->
  requested_counts (_num_electrons self) = Some (a, b) ->
  _num_molecular_orbitals self = Some m ->
  _active_orbitals self = None ->
  let inactive := _num_alpha pn + _num_beta pn - a - b in
  _determine_active_space self molecule_data =
    (set_num_particles self (a, b),
     if inactive <? 0 then
       Raise (QiskitNatureError ["More electrons requested than available."]
                                None)
     else if negb (inactive mod 2 =? 0) then
       Raise (QiskitNatureError
                ["The number of inactive electrons must be even."] None)
     else if inactive / 2 + m >? _num_spin_orbitals pn / 2 then
       Raise (QiskitNatureError ["More orbitals requested than available."]
                                None)
     else Ok (Py.range2 (inactive / 2) (inactive / 2 + m),
              Py.range (inactive / 2))).
Proof.
  intros Hpn Hreq Hm Ha inactive.
  unfold _determine_active_space. rewrite Hpn, Hreq. fold inactive.
  f_equal. unfold _validate_num_electrons.
  destruct (inactive <? 0); [reflexivity|].
  destruct (negb (inactive mod 2 =? 0)); [reflexivity|].
  cbn [Py.bind]. unfold _validate_num_orbitals.
  change (_active_orbitals (set_num_particles self (a, b)))
    with (_active_orbitals self).
  change (_num_molecular_orbitals (set_num_particles self (a, b)))
    with (_num_molecular_orbitals self).
  rewrite Ha, Hm, Hpn. cbn [not_none Py.bind].
  destruct (inactive / 2 + m >? _num_spin_orbitals pn / 2); reflexivity.
Qed.

(** X6: the outcomes of [transform] without explicit indices, for a
    configuration that passes the check (a single even count or an
    (alpha, beta) pair) on well-formed molecule data.  With the inactive
    count [total - alpha - beta]: a negative count raises "More electrons
    requested than available.", an odd one "The number of inactive
    electrons must be even.", more than the available orbitals "More
    orbitals requested than available."; otherwise [transform] returns,
    and the particle number of the result has the requested (alpha,
    beta) electrons, the occupations of the orbitals right above the
    inactive ones, and [m // 2] spin orbitals. *)
Theorem transform_fermi_level_outcome self molecule_data pn ca cb a b m :
  reduces_or_unsupported reduce_system_size ->
  well_formed molecule_data pn ca cb ->
  _check_configuration self = Ok tt ->
  requested_counts (_num_electrons self) = Some (a, b) ->
  _num_molecular_orbitals self = Some m ->
  _active_orbitals self = None ->
  let inactive := _num_alpha pn + _num_beta pn - a - b in
  (inactive < 0 ->
   snd (transform self molecule_data)
   = Raise (QiskitNatureError ["More electrons requested than available."]
                              None)) /\
  (0 <= inactive -> inactive mod 2 <> 0 ->
   snd (transform self molecule_data)
   = Raise (QiskitNatureError
              ["The number of inactive electrons must be even."] None)) /\
  (0 <= inactive -> inactive mod 2 = 0 ->
   _num_spin_orbitals pn / 2 < inactive / 2 + m ->
   snd (transform self molecule_data)
   = Raise (QiskitNatureError ["More orbitals requested than available."]
                              None)) /\
  (0 <= inactive -> inactive mod 2 = 0 ->
   inactive / 2 + m <= _num_spin_orbitals pn / 2 ->
   exists out occ_a occ_b,
     snd (transform self molecule_data) = Ok out /\
     Np.take (_occupation_alpha pn)
             (Py.range2 (inactive / 2) (inactive / 2 + m)) = Ok occ_a /\
     Np.take (_occupation_beta pn)
             (Py.range2 (inactive / 2) (inactive / 2 + m)) = Ok occ_b /\
     Py.get (properties out) "ParticleNumber"
     = Some (ParticleNumberProperty
               (mkParticleNumber (m / 2) a b occ_a occ_b))).
Proof.
  intros Hred W Hc Hreq Hm Ha inactive.
  destruct (read_molecule_wf _ _ _ _ W) as (bs & total & Hr & _ & _ & _).
  pose proof (determine_active_space_fermi (set_mo_occ_total self total)
                molecule_data pn a b m
                (fun attr => particle_number_wf _ _ _ _ attr W)
                Hreq Hm Ha) as Hd.
  cbv zeta in Hd. fold inactive in Hd.
  rewrite (transform_eq _ _ _ _ _ _ _ _ Hc Hr), Hd. cbn [fst snd].
  assert (Hm0 : 0 <= m).
  { apply check_configuration_ok in Hc as [_ Hc]. now rewrite Hm in Hc. }
  split; [|split; [|split]].
  - intros H. destruct (Z.ltb_spec inactive 0); [reflexivity|lia].
  - intros H0 H2. destruct (Z.ltb_spec inactive 0); [lia|].
    destruct (Z.eqb_spec (inactive mod 2) 0); [contradiction|reflexivity].
  - intros H0 H2 Hn. destruct (Z.ltb_spec inactive 0); [lia|].
    destruct (Z.eqb_spec (inactive mod 2) 0); [|contradiction].
    cbn [negb]. rewrite Z.gtb_ltb.
    destruct (Z.ltb_spec (_num_spin_orbitals pn / 2) (inactive / 2 + m));
      [reflexivity|lia].
  - intros H0 H2 Hn. destruct (Z.ltb_spec inactive 0); [lia|].
    destruct (Z.eqb_spec (inactive mod 2) 0); [|contradiction].
    cbn [negb]. rewrite Z.gtb_ltb.
    destruct (Z.ltb_spec (_num_spin_orbitals pn / 2) (inactive / 2 + m));
      [lia|].
    cbn [Py.bind fst snd].
    assert (Hf : 0 <= inactive / 2) by (apply Z.div_pos; lia).
    destruct (reduce_molecule_total reduce_system_size Hred
                (set_num_particles (set_mo_occ_total self total) (a, b))
                molecule_data pn ca cb bs
                (Py.range2 (inactive / 2) (inactive / 2 + m))
                (Py.range (inactive / 2)) m (a, b) W Hm eq_refl)
      as (out & Hout).
    { apply Forall_forall. intros i Hi. apply range2_In in Hi. lia. }
    { apply Forall_forall. intros i Hi. apply range_In in Hi. lia. }
    rewrite Hout.
    destruct (reduce_molecule_inv _ _ _ _ _ _ _ _ _ Hout)
      as (m' & np & oa & ob & Hm' & Hnp & Hoa & Hob & Hget).
    change (_num_molecular_orbitals
              (set_num_particles (set_mo_occ_total self total) (a, b)))
      with (_num_molecular_orbitals self) in Hm'.
    rewrite Hm in Hm'. injection Hm' as <-. injection Hnp as <-.
    exists out, oa, ob. repeat split; assumption.
Qed.

End FermiOutcome.

Section TransformMore.

Import ElectronicDriverResult ActiveSpaceTransformer.

Variable reduce_system_size :
  SecondQuantizedProperty -> Np.matrix * option Np.matrix ->
  ElectronicBasisTransform -> result SecondQuantizedProperty.

Local Abbreviation transform := (transform reduce_system_size).
Local Abbreviation reduce_molecule := (reduce_molecule reduce_system_size).
Local Abbreviation reduce_properties := (reduce_properties reduce_system_size).

(** A [transform] that returned has passed every stage. *)
Lemma transform_ok_inv self molecule_data out :
  snd (transform self molecule_data) = Ok out ->
  exists ca cb beta_spin occ total idxs,
    _check_configuration self = Ok tt /\
    read_molecule molecule_data = Ok (ca, cb, beta_spin, occ, total) /\
    snd (_determine_active_space (set_mo_occ_total self total) molecule_data)
    = Ok idxs /\
    reduce_molecule
      (fst (_determine_active_space (set_mo_occ_total self total)
                                    molecule_data))
      molecule_data (ca, cb) beta_spin occ (fst idxs) (snd idxs) = Ok out.
Proof.
  intros Hout.
  destruct (_check_configuration self) as [[]|e] eqn:Hc.
  2:{ rewrite (transform_configuration_error _ _ _ _ Hc) in Hout.
      discriminate. }
  destruct (read_molecule molecule_data) as [[[[[ca cb] bs] occ] total]|e]
    eqn:Hr.
  2:{ unfold ActiveSpaceTransformer.transform in Hout.
      rewrite Hc, Hr in Hout. discriminate. }
  rewrite (transform_eq _ _ _ _ _ _ _ _ Hc Hr) in Hout.
  apply bind_ok_inv in Hout as (idxs & Hd & Hrm).
  exists ca, cb, bs, occ, total, idxs. auto.
Qed.

Lemma reduce_properties_basis_transform props density basis_transform acc out :
  reduce_properties props density basis_transform acc = Ok out ->
  electronic_basis_transform out = electronic_basis_transform acc.
Proof.
  revert acc. induction props as [|p r IH]; intros acc; simpl.
  - now intros [= <-].
  - destruct (reduce_system_size p density basis_transform) as [q|e].
    + intros H. now rewrite (IH _ H).
    + destruct e; try discriminate. apply IH.
Qed.

Lemma reduce_molecule_basis_transform self molecule_data coeff beta_spin occ
    active inactive out :
  reduce_molecule self molecule_data coeff beta_spin occ active inactive
  = Ok out ->
  electronic_basis_transform out = None.
Proof.
  unfold ActiveSpaceTransformer.reduce_molecule. intros H.
  apply bind_ok_inv in H as (da & _ & H).
  apply bind_ok_inv in H as (db & _ & H).
  apply bind_ok_inv in H as (c_a & _ & H).
  apply bind_ok_inv in H as (c_b & _ & H).
  apply bind_ok_inv in H as (red & Hred & H).
  apply bind_ok_inv in H as (m & _ & H).
  apply bind_ok_inv in H as (np & _ & H).
  apply bind_ok_inv in H as (occ_a & _ & H).
  apply bind_ok_inv in H as (occ_b & _ & H).
  injection H as <-. cbn [electronic_basis_transform].
  now rewrite (reduce_properties_basis_transform _ _ _ _ _ Hred).
Qed.

(** X7: the molecule data [transform] returns carries no basis
    transform, so it cannot be reduced again: whatever the
    configuration, a second [transform] on it does not return, and with a
    configuration that passes the check it raises the attribute error of
    reading [coeff_alpha] from [None]. *)
Theorem transform_output_not_reducible self molecule_data out :
  snd (transform self molecule_data) = Ok out ->
  electronic_basis_transform out = None /\
  forall again,
    (forall out', snd (transform again out) <> Ok out') /\
    (_check_configuration again = Ok tt ->
     transform again out = (again, Raise (AttributeError "coeff_alpha"))).
Proof.
  intros Hout.
  apply transform_ok_inv in Hout
    as (ca & cb & bs & occ & total & idxs & _ & _ & _ & Hrm).
  apply reduce_molecule_basis_transform in Hrm.
  split; [exact Hrm|].
  intros again.
  assert (Hread : read_molecule out = Raise (AttributeError "coeff_alpha")).
  { unfold read_molecule. now rewrite Hrm. }
  split.
  - intros out' H.
    apply transform_ok_inv in H as (? & ? & ? & ? & ? & ? & _ & Hr & _).
    rewrite Hread in Hr. discriminate.
  - intros Hc. unfold ActiveSpaceTransformer.transform.
    now rewrite Hc, Hread.
Qed.

(** A [transform] that returned has validated its orbitals. *)
Lemma transform_ok_validated self molecule_data out :
  snd (transform self molecule_data) = Ok out ->
  exists total pn a b,
    _validate_num_orbitals
      (set_num_particles (set_mo_occ_total self total) (a, b))
      (_num_alpha pn + _num_beta pn - a - b) molecule_data = Ok tt.
Proof.
  intros Hout.
  apply transform_ok_inv in Hout
    as (ca & cb & bs & occ & total & idxs & _ & _ & Hd & _).
  apply determine_active_space_inv in Hd
    as (pn & a & b & _ & _ & _ & _ & Hv & _).
  eauto.
Qed.

(** X8: with an (alpha, beta) pair as electron count and explicit
    active indices, [transform] never returns: the validation compares
    the occupation sum with the pair itself. *)
Theorem transform_pair_with_indices_never_returns self molecule_data
    a b active :
  _num_electrons self = Some (SpinCounts a b) ->
  _active_orbitals self = Some active ->
  forall out, snd (transform self molecule_data) <> Ok out.
Proof.
  intros Hn Ha out Hout.
  apply transform_ok_validated in Hout as (total & pn & x & y & Hv).
  revert Hv. now apply (validate_num_orbitals_pair_never_passes _ _ _ a b active).
Qed.

(** X9: with an empty list of explicit active indices [transform] never
    returns: when the list passes the length test, [max] of the empty
    list raises. *)
Theorem transform_empty_indices_never_returns self molecule_data :
  _active_orbitals self = Some [] ->
  forall out, snd (transform self molecule_data) <> Ok out.
Proof.
  intros Ha out Hout.
  apply transform_ok_validated in Hout as (total & pn & x & y & Hv).
  revert Hv. unfold _validate_num_orbitals.
  change (_active_orbitals (set_num_particles (set_mo_occ_total self total)
                                              (x, y)))
    with (_active_orbitals self).
  rewrite Ha.
  destruct (match _num_molecular_orbitals _ with
            | Some m => negb (m =? Z.of_nat (List.length (@nil Z)))
            | None => true
            end); cbn [Py.bind Py.max]; discriminate.
Qed.

End TransformMore.

Section TransformLoop.

Import ElectronicDriverResult ActiveSpaceTransformer.

Variable reduce_system_size :
  SecondQuantizedProperty -> Np.matrix * option Np.matrix ->
  ElectronicBasisTransform -> result SecondQuantizedProperty.

Local Abbreviation transform := (transform reduce_system_size).
Local Abbreviation reduce_molecule := (reduce_molecule reduce_system_size).
Local Abbreviation reduce_properties := (reduce_properties reduce_system_size).

Lemma reduce_properties_inv props density basis_transform acc out :
  reduce_properties props density basis_transform acc = Ok out ->
  forall k q,
    Py.get (properties out) k = Some q ->
    Py.get (properties acc) k = Some q \/
    exists p,
      In p props /\
      reduce_system_size p density basis_transform = Ok q /\
      property_name q = k.
Proof.
  revert acc. induction props as [|p r IH]; intros acc; simpl.
  - intros [= <-] k q H. now left.
  - destruct (reduce_system_size p density basis_transform) as [red|e] eqn:E.
    + intros H k q Hget.
      destruct (IH _ H k q Hget) as [Hacc|(p' & Hin & Hp' & Hk)].
      * cbn [ElectronicDriverResult.add_property properties] in Hacc.
        destruct (string_dec k (property_name red)) as [->|Hne].
        -- rewrite get_set_same in Hacc. injection Hacc as <-.
           right. exists p. auto.
        -- rewrite get_set_other in Hacc by exact Hne. now left.
      * right. exists p'. auto.
    + destruct e; try discriminate.
      intros H k q Hget.
      destruct (IH _ H k q Hget) as [Hacc|(p' & Hin & Hp' & Hk)].
      * now left.
      * right. exists p'. auto.
Qed.

Lemma reduce_properties_unsupported props density basis_transform acc :
  (forall p, In p props ->
     reduce_system_size p density basis_transform = Raise NotImplementedError) ->
  reduce_properties props density basis_transform acc = Ok acc.
Proof.
  induction props as [|p r IH]; intros H; simpl; [reflexivity|].
  rewrite (H p) by (now left). apply IH. intros q Hq. apply H. now right.
Qed.

(** X10: every property of the returned molecule data other than the
    particle number is what [reduce_system_size] returned for one of the
    source properties, stored under its own name; and when no source
    property supports the reduction, the result holds the particle number
    alone. *)
Theorem transform_output_properties self molecule_data out :
  snd (transform self molecule_data) = Ok out ->
  (forall k q,
     Py.get (properties out) k = Some q ->
     k <> "ParticleNumber" ->
     exists p density basis_transform,
       In p (Py.values (properties molecule_data)) /\
       reduce_system_size p density basis_transform = Ok q /\
       property_name q = k) /\
  ((forall p density basis_transform,
      In p (Py.values (properties molecule_data)) ->
      reduce_system_size p density basis_transform
      = Raise NotImplementedError) ->
   exists pn,
     properties out = [("ParticleNumber", ParticleNumberProperty pn)]).
Proof.
  intros Hout.
  apply transform_ok_inv in Hout
    as (ca & cb & bs & occ & total & idxs & _ & _ & _ & H).
  unfold ActiveSpaceTransformer.reduce_molecule in H.
  apply bind_ok_inv in H as (da & _ & H).
  apply bind_ok_inv in H as (db & _ & H).
  apply bind_ok_inv in H as (c_a & _ & H).
  apply bind_ok_inv in H as (c_b & _ & H).
  apply bind_ok_inv in H as (red & Hred & H).
  apply bind_ok_inv in H as (m & _ & H).
  apply bind_ok_inv in H as (np & _ & H).
  apply bind_ok_inv in H as (occ_a & _ & H).
  apply bind_ok_inv in H as (occ_b & _ & H).
  injection H as <-. cbn [properties]. split.
  - intros k q Hget Hk.
    rewrite get_set_other in Hget by exact Hk.
    destruct (reduce_properties_inv _ _ _ _ _ Hred k q Hget)
      as [Hinit|(p & Hin & Hp & Hn)].
    + discriminate.
    + exists p. eexists. eexists.
      split; [exact Hin|]. split; [exact Hp|exact Hn].
  - intros Hall.
    rewrite reduce_properties_unsupported in Hred by (intros; apply Hall; assumption).
    injection Hred as <-. cbn. eauto.
Qed.

(** X11: the loop over the properties swallows [NotImplementedError]
    only: the first property whose [reduce_system_size] raises anything
    else ends the loop with that exception. *)
Theorem reduce_properties_propagates pre p post density basis_transform
    acc e :
  Forall (fun x =>
            (exists q, reduce_system_size x density basis_transform = Ok q) \/
            reduce_system_size x density basis_transform
            = Raise NotImplementedError) pre ->
  reduce_system_size p density basis_transform = Raise e ->
  e <> NotImplementedError ->
  reduce_properties (pre ++ p :: post) density basis_transform acc = Raise e.
Proof.
  intros Hpre Hp He. revert acc.
  induction Hpre as [|x r Hx _ IH]; intros acc; simpl.
  - rewrite Hp. destruct e; try reflexivity. contradiction.
  - destruct Hx as [(q & ->)| ->]; apply IH.
Qed.

(** X12: [transform] leaves the configuration of the transformer as it
    was, whatever the outcome; after a [transform] that returned, the
    transformer holds the summed occupations and the requested (alpha,
    beta) counts of that call. *)
Theorem transform_keeps_configuration self molecule_data :
  let self' := fst (transform self molecule_data) in
  _num_electrons self' = _num_electrons self /\
  _num_molecular_orbitals self' = _num_molecular_orbitals self /\
  _active_orbitals self' = _active_orbitals self /\
  forall out,
    snd (transform self molecule_data) = Ok out ->
    exists pn total,
      particle_number molecule_data "_occupation_alpha" = Ok pn /\
      Np.add (_occupation_alpha pn) (_occupation_beta pn) = Ok total /\
      _mo_occ_total self' = Some total /\
      _num_particles self' = requested_counts (_num_electrons self).
Proof.
  cbv zeta.
  assert (Hcfg : _num_electrons (fst (transform self molecule_data))
                 = _num_electrons self /\
                 _num_molecular_orbitals (fst (transform self molecule_data))
                 = _num_molecular_orbitals self /\
                 _active_orbitals (fst (transform self molecule_data))
                 = _active_orbitals self).
  { unfold ActiveSpaceTransformer.transform.
    destruct (_check_configuration self) as [[]|e].
    2:{ destruct e; cbn; tauto. }
    destruct (read_molecule molecule_data)
      as [[[[[ca cb] bs] occ] total]|e]; [|cbn; tauto].
    pose proof (determine_active_space_config (set_mo_occ_total self total)
                  molecule_data) as Hd. cbv zeta in Hd.
    destruct (_determine_active_space (set_mo_occ_total self total)
                                      molecule_data) as [s r].
    cbn [fst] in *. tauto. }
  destruct Hcfg as (H1 & H2 & H3).
  split; [exact H1|]. split; [exact H2|]. split; [exact H3|].
  intros out Hout.
  apply transform_ok_inv in Hout
    as (ca & cb & bs & occ & total & idxs & Hc & Hr & Hd & _).
  pose proof Hr as Hr'. unfold read_molecule in Hr'.
  apply bind_ok_inv in Hr' as (ebt & _ & Hr').
  apply bind_ok_inv in Hr' as (cb' & _ & Hr').
  apply bind_ok_inv in Hr' as (bs' & _ & Hr').
  apply bind_ok_inv in Hr' as (pn & Hpn & Hr').
  apply bind_ok_inv in Hr' as (tot & Htot & Hr').
  injection Hr' as _ _ _ _ ->.
  exists pn, total. split; [exact Hpn|]. split; [exact Htot|].
  apply determine_active_space_inv in Hd
    as (pn' & a & b & _ & Hreq & Hfst & _).
  unfold ActiveSpaceTransformer.transform. rewrite Hc, Hr.
  destruct (_determine_active_space (set_mo_occ_total self total)
                                    molecule_data) as [s r].
  cbn [fst] in *. subst s. cbn. split; [reflexivity|].
  symmetry. exact Hreq.
Qed.

(** X13: the index lists [_determine_active_space] returns share no
    index; without explicit indices the inactive indices are the first
    orbitals and the active indices the ones that follow them. *)
Theorem active_inactive_disjoint self molecule_data active inactive :
  snd (_determine_active_space self molecule_data) = Ok (active, inactive) ->
  (forall o, In o active -> ~ In o inactive) /\
  (_active_orbitals self = None ->
   exists first m,
     0 <= first /\
     _num_molecular_orbitals self = Some m /\
     inactive = Py.range first /\
     active = Py.range2 first (first + m)).
Proof.
  intros Hd.
  apply determine_active_space_inv in Hd
    as (pn & a & b & _ & _ & _ & Hve & _ & Hbranch).
  apply validate_num_electrons_ok in Hve as [H0 _].
  destruct (_active_orbitals self) as [explicit|].
  - destruct Hbranch as (occ & inact & _ & Hsel & [= -> ->]).
    split; [|discriminate].
    intros o Ha Hi.
    apply (select_inactive_inv _ _ _ _ (range_nonneg _) Hsel) in Hi
      as (_ & Hn & _). contradiction.
  - destruct Hbranch as (m & Hm & [= -> ->]). split.
    + intros o Ha Hi. apply range2_In in Ha. apply range_In in Hi. lia.
    + intros _. eexists _, m. split; [|split; [exact Hm|split; reflexivity]].
      apply Z.div_pos; lia.
Qed.

End TransformLoop.

Lemma ten_electrons_well_formed :
  ActiveSpaceTransformer.well_formed Examples.ten_electrons Examples.pn_ten
    (Examples.identity 6) (Examples.identity 6).
Proof.
  constructor; try reflexivity.
  - now exists AO, MO.
  - repeat constructor.
  - repeat constructor.
  - discriminate.
Qed.

Lemma h2_transform_returns :
  snd (ActiveSpaceTransformer.transform Examples.record_density
         Examples.h2_configuration Examples.h2)
  = Ok Examples.h2_reduced.
Proof. vm_compute. reflexivity. Qed.

Lemma transform_fermi_level_outcome_witness :
  exists out,
    snd (ActiveSpaceTransformer.transform Examples.record_density
           (ActiveSpaceTransformer.init
              (Some (ActiveSpaceTransformer.SpinCounts 2 2)) (Some 2) None)
           Examples.ten_electrons) = Ok out /\
    Py.get (ElectronicDriverResult.properties out) "ParticleNumber"
    = Some (ParticleNumberProperty
              (mkParticleNumber 1 2 2 [1%Q; 1%Q] [1%Q; 1%Q])).
Proof.
  pose proof (transform_fermi_level_outcome Examples.record_density
                (ActiveSpaceTransformer.init
                   (Some (ActiveSpaceTransformer.SpinCounts 2 2)) (Some 2) None)
                Examples.ten_electrons Examples.pn_ten
                (Examples.identity 6) (Examples.identity 6) 2 2 2
                record_density_contract ten_electrons_well_formed
                eq_refl eq_refl eq_refl eq_refl) as H.
  cbv zeta in H. destruct H as (_ & _ & _ & H).
  destruct H as (out & oa & ob & Hout & Ha & Hb & Hget);
    [vm_compute; discriminate | reflexivity | vm_compute; discriminate |].
  vm_compute in Ha. vm_compute in Hb.
  injection Ha as <-. injection Hb as <-.
  exists out. split; [exact Hout|exact Hget].
Defined.

Lemma transform_output_not_reducible_witness :
  exists out,
    snd (ActiveSpaceTransformer.transform Examples.record_density
           Examples.h2_configuration Examples.h2) = Ok out /\
    ActiveSpaceTransformer.transform Examples.record_density
      Examples.h2_configuration out
    = (Examples.h2_configuration, Raise (AttributeError "coeff_alpha")).
Proof.
  exists Examples.h2_reduced. split; [exact h2_transform_returns|].
  apply (proj2 (proj2 (transform_output_not_reducible Examples.record_density
                         Examples.h2_configuration Examples.h2
                         Examples.h2_reduced h2_transform_returns)
                  Examples.h2_configuration)).
  reflexivity.
Defined.

Lemma transform_pair_with_indices_never_returns_witness :
  Py.is_ok
    (snd (ActiveSpaceTransformer.transform Examples.record_density
            (ActiveSpaceTransformer.init
               (Some (ActiveSpaceTransformer.SpinCounts 1 1)) (Some 2)
               (Some [0; 1]))
            Examples.h2)) = false.
Proof.
  destruct (snd (ActiveSpaceTransformer.transform Examples.record_density
                   (ActiveSpaceTransformer.init
                      (Some (ActiveSpaceTransformer.SpinCounts 1 1)) (Some 2)
                      (Some [0; 1]))
                   Examples.h2)) as [out|e] eqn:E; [|reflexivity].
  exfalso.
  exact (transform_pair_with_indices_never_returns Examples.record_density
           (ActiveSpaceTransformer.init
              (Some (ActiveSpaceTransformer.SpinCounts 1 1)) (Some 2)
              (Some [0; 1]))
           Examples.h2 1 1 [0; 1] eq_refl eq_refl out E).
Defined.

Lemma transform_empty_indices_never_returns_witness :
  Py.is_ok
    (snd (ActiveSpaceTransformer.transform Examples.record_density
            (ActiveSpaceTransformer.init
               (Some (ActiveSpaceTransformer.SingleCount 0)) (Some 0)
               (Some []))
            Examples.h2)) = false.
Proof.
  destruct (snd (ActiveSpaceTransformer.transform Examples.record_density
                   (ActiveSpaceTransformer.init
                      (Some (ActiveSpaceTransformer.SingleCount 0)) (Some 0)
                      (Some []))
                   Examples.h2)) as [out|e] eqn:E; [|reflexivity].
  exfalso.
  exact (transform_empty_indices_never_returns Examples.record_density
           (ActiveSpaceTransformer.init
              (Some (ActiveSpaceTransformer.SingleCount 0)) (Some 0)
              (Some []))
           Examples.h2 eq_refl out E).
Defined.

Lemma transform_output_properties_witness :
  exists q p density basis_transform,
    Py.get (ElectronicDriverResult.properties Examples.h2_reduced)
           "ElectronicEnergy" = Some q /\
    In p (Py.values (ElectronicDriverResult.properties Examples.h2)) /\
    Examples.record_density p density basis_transform = Ok q.
Proof.
  destruct (Py.get (ElectronicDriverResult.properties Examples.h2_reduced)
                   "ElectronicEnergy") as [q|] eqn:G;
    [|vm_compute in G; discriminate].
  destruct (proj1 (transform_output_properties Examples.record_density
                     Examples.h2_configuration Examples.h2
                     Examples.h2_reduced h2_transform_returns)
              "ElectronicEnergy" q G ltac:(discriminate))
    as (p & density & basis_transform & Hin & Hp & _).
  exists q, p, density, basis_transform. auto.
Defined.

Lemma reduce_properties_propagates_witness :
  ActiveSpaceTransformer.reduce_properties Examples.failing_reduce
    [OtherProperty "A" []; OtherProperty "Bad" []; OtherProperty "C" []]
    ([], None) (mkElectronicBasisTransform AO MO [] None)
    ElectronicDriverResult.init
  = Raise (RuntimeError "not reducible").
Proof.
  apply (reduce_properties_propagates Examples.failing_reduce
           [OtherProperty "A" []] (OtherProperty "Bad" [])
           [OtherProperty "C" []]).
  - constructor; [left; eexists; reflexivity|constructor].
  - reflexivity.
  - discriminate.
Defined.

Lemma transform_keeps_configuration_witness :
  ActiveSpaceTransformer._num_particles
    (fst (ActiveSpaceTransformer.transform Examples.record_density
            Examples.h2_configuration Examples.h2))
  = Some (1, 1).
Proof.
  pose proof (transform_keeps_configuration Examples.record_density
                Examples.h2_configuration Examples.h2) as H.
  cbv zeta in H. destruct H as (_ & _ & _ & H).
  destruct (H Examples.h2_reduced h2_transform_returns)
    as (pn & total & _ & _ & _ & Hnp).
  exact Hnp.
Defined.

Lemma active_inactive_disjoint_witness :
  snd (ActiveSpaceTransformer._determine_active_space
         (ActiveSpaceTransformer.init
            (Some (ActiveSpaceTransformer.SingleCount 4)) (Some 2) None)
         Examples.ten_electrons) = Ok ([3; 4], [0; 1; 2]) /\
  exists first m,
    [0; 1; 2] = Py.range first /\ [3; 4] = Py.range2 first (first + m).
Proof.
  assert (E : snd (ActiveSpaceTransformer._determine_active_space
                     (ActiveSpaceTransformer.init
                        (Some (ActiveSpaceTransformer.SingleCount 4)) (Some 2)
                        None)
                     Examples.ten_electrons) = Ok ([3; 4], [0; 1; 2]))
    by (vm_compute; reflexivity).
  split; [exact E|].
  destruct (proj2 (active_inactive_disjoint _ _ _ _ E) eq_refl)
    as (first & m & _ & _ & Hi & Ha).
  exists first, m. split; assumption.
Defined.

Lemma density_inactive_formula_witness :
  exists o c,
    Np.take [1%Q; 1%Q] [0] = Ok o /\
    Np.take_cols (Examples.identity 2) [0] = Ok c /\
    List.length Examples.density_of_first_orbital = List.length c.
Proof.
  destruct (density_inactive_formula [1%Q; 1%Q] (Examples.identity 2) [0]
              Examples.density_of_first_orbital
              ltac:(vm_compute; reflexivity))
    as (o & c & Ho & Hc & Hl & _).
  exists o, c. auto.
Defined.

(** ** IntegralProperty: when [second_q_ops] returns *)

Section IntegralMore.

Import IntegralProperty.

Variable ElectronicIntegrals : Type.
Variable FermionicOp : Type.
Context `{OperatorAlgebra FermionicOp}.
Variable to_second_q_op : ElectronicIntegrals -> FermionicOp.

Local Abbreviation second_q_ops :=
  (second_q_ops ElectronicIntegrals FermionicOp to_second_q_op).
Local Abbreviation lookup := (lookup ElectronicIntegrals).

(** X15: [second_q_ops] returns exactly when the basis it selects, the
    spin-orbital one if present and the molecular-orbital one otherwise,
    holds at least one integral, and then returns one operator.  An empty
    spin-orbital entry makes it raise even when molecular-orbital
    integrals are there: [sum] of nothing is the integer 0, which has no
    [reduce]; with neither basis it iterates over [None]. *)
Theorem second_q_ops_returns_iff
    (self : IntegralProperty ElectronicIntegrals) :
  ((exists ops, second_q_ops self = Ok ops) <->
   (exists i r,
      lookup (_electronic_integrals _ self) SO = Some (i :: r) \/
      (lookup (_electronic_integrals _ self) SO = None /\
       lookup (_electronic_integrals _ self) MO = Some (i :: r)))) /\
  (forall ops, second_q_ops self = Ok ops -> List.length ops = 1%nat) /\
  (lookup (_electronic_integrals _ self) SO = Some [] ->
   second_q_ops self = Raise (AttributeError "reduce")) /\
  (lookup (_electronic_integrals _ self) SO = None ->
   lookup (_electronic_integrals _ self) MO = Some [] ->
   second_q_ops self = Raise (AttributeError "reduce")) /\
  (lookup (_electronic_integrals _ self) SO = None ->
   lookup (_electronic_integrals _ self) MO = None ->
   second_q_ops self = Raise TypeError).
Proof.
  unfold IntegralProperty.second_q_ops.
  destruct (lookup (_electronic_integrals _ self) SO) as [[|i r]|];
    [| |destruct (lookup (_electronic_integrals _ self) MO) as [[|i r]|]].
  all: cbn [List.map]; rewrite ?py_sum_cons; cbn [IntegralProperty.py_sum fold_left].
  all: split; [split; [intros (ops & Hops); try discriminate Hops
                      |intros (i' & r' & [Hx|[Hx Hy]]); try discriminate]|].
  all: try (exists i, r; auto; fail).
  all: try (eexists; reflexivity).
  all: split; [intros ops Hops; try discriminate Hops;
               injection Hops as <-; reflexivity|].
  all: split; [intros Hx; try discriminate Hx; reflexivity|].
  all: split; intros Hx Hy; try discriminate Hx; try discriminate Hy;
    reflexivity.
Qed.

End IntegralMore.

Lemma second_q_ops_returns_iff_witness :
  IntegralProperty.second_q_ops Z Z (fun i => i)
    (IntegralProperty.mkIntegralProperty Z "ElectronicEnergy"
       [(AO, [1]); (SO, []); (MO, [3])] [])
  = Raise (AttributeError "reduce").
Proof.
  apply (proj1 (proj2 (proj2 (@second_q_ops_returns_iff Z Z
                                Examples.Z_OperatorAlgebra (fun i => i)
                                (IntegralProperty.mkIntegralProperty Z
                                   "ElectronicEnergy"
                                   [(AO, [1]); (SO, []); (MO, [3])] []))))).
  reflexivity.
Defined.

(** ** DirectMapper: the templates are pairwise distinct *)

Section DirectMapperMore.

Import DirectMapper.

Lemma row_true_injective (i j n : Z) :
  0 <= i < n -> 0 <= j < n -> row true i n = row true j n -> i = j.
Proof.
  intros Hi Hj E. destruct (Z.eq_dec i j) as [|Hne]; [assumption|].
  exfalso. pose proof (row_nth_self true i n Hi) as H1. rewrite E in H1.
  rewrite (row_nth_other true j n (Z.to_nat i)) in H1 by lia.
  discriminate.
Qed.

Lemma row_false_not_true (i j n : Z) :
  0 <= i < n -> 0 <= j < n -> row false i n <> row true j n.
Proof.
  intros Hi Hj E. pose proof (row_nth_self true j n Hj) as H1.
  rewrite <- E in H1. destruct (Z.eq_dec i j) as [->|Hne].
  - rewrite row_nth_self in H1 by lia. discriminate.
  - rewrite row_nth_other in H1 by lia. discriminate.
Qed.

Lemma range_NoDup (n : Z) : NoDup (Py.range n).
Proof.
  unfold Py.range, Py.range2.
  generalize (seq_NoDup (Z.to_nat (n - 0)) 0).
  induction 1 as [|k l Hk _ IH]; simpl; constructor; [|exact IH].
  intros Hin. apply in_map_iff in Hin as (k' & E & Hk').
  assert (k' = k) by lia. subst k'. contradiction.
Qed.

Lemma map_NoDup_in {A B} (f : A -> B) (P : A -> Prop) (l : list A) :
  (forall x y, P x -> P y -> f x = f y -> x = y) ->
  Forall P l -> NoDup l -> NoDup (List.map f l).
Proof.
  intros Hinj HP Hnd. induction Hnd as [|x l Hx _ IH]; simpl; constructor.
  - intros Hin. apply in_map_iff in Hin as (y & E & Hy).
    inversion HP as [|? ? Px Pl]; subst.
    assert (y = x).
    { apply Hinj; [exact (proj1 (Forall_forall _ _) Pl y Hy)|exact Px|exact E]. }
    subst y. contradiction.
  - apply IH. now inversion HP.
Qed.

(** X16: the table [map] hands to [mode_based_mapping] has one entry for
    each modal of the operator, and all its templates are different: no
    two modes share a raising or a lowering template, and no raising
    template is the lowering template of any mode. *)
Theorem map_templates_distinct {PauliSumOp : Type}
    (mode_based_mapping : VibrationOp -> list (Pauli * Pauli) -> PauliSumOp)
    (second_q_op : VibrationOp) :
  exists table,
    map mode_based_mapping second_q_op
    = mode_based_mapping second_q_op table /\
    List.length table
    = Z.to_nat (fold_left Z.add (num_modals second_q_op) 0) /\
    NoDup (List.map fst table ++ List.map snd table).
Proof.
  unfold DirectMapper.map. cbv zeta.
  set (n := fold_left Z.add (num_modals second_q_op) 0).
  exists (pauli_table n). split; [reflexivity|]. split.
  - unfold pauli_table. now rewrite length_map, range_length.
  - assert (Hr : Forall (fun i => 0 <= i < n) (Py.range n)).
    { apply Forall_forall. intros i Hi. now apply range_In in Hi. }
    unfold pauli_table. rewrite !map_map. cbn [fst snd].
    apply NoDup_app.
    + apply (map_NoDup_in _ (fun i => 0 <= i < n)); [|exact Hr|apply range_NoDup].
      intros x y Hx Hy E. injection E as _ E.
      now apply (row_true_injective x y n).
    + apply (map_NoDup_in _ (fun i => 0 <= i < n)); [|exact Hr|apply range_NoDup].
      intros x y Hx Hy E. injection E as E _.
      now apply (row_true_injective x y n).
    + intros p Ha Hb.
      apply in_map_iff in Ha as (i & <- & Hi).
      apply in_map_iff in Hb as (j & E & Hj).
      apply range_In in Hi. apply range_In in Hj.
      injection E as E _. symmetry in E.
      now apply (row_false_not_true i j n) in E.
Qed.

End DirectMapperMore.

(** ** ElectronicDriverResult.add_property and what [transform] reads *)

Section TransformInput.

Import ElectronicDriverResult ActiveSpaceTransformer.

Variable reduce_system_size :
  SecondQuantizedProperty -> Np.matrix * option Np.matrix ->
  ElectronicBasisTransform -> result SecondQuantizedProperty.

Local Abbreviation transform := (transform reduce_system_size).

Lemma add_properties_basis_transform props molecule_data :
  electronic_basis_transform (fold_left add_property props molecule_data)
  = electronic_basis_transform molecule_data.
Proof.
  revert molecule_data. induction props as [|p r IH]; intros md; simpl;
    [reflexivity|]. now rewrite IH.
Qed.

Lemma add_properties_other_names props molecule_data k :
  Forall (fun p => property_name p <> k) props ->
  Py.get (properties (fold_left add_property props molecule_data)) k
  = Py.get (properties molecule_data) k.
Proof.
  intros H. revert molecule_data.
  induction H as [|p r Hp _ IH]; intros md; simpl; [reflexivity|].
  rewrite IH. cbn [ElectronicDriverResult.add_property properties].
  apply get_set_other. congruence.
Qed.

(** X17: [add_property] never sets the basis transform, so [transform]
    on a driver result built from [ElectronicDriverResult()] by adding
    properties stops at reading [coeff_alpha]; and on molecule data with
    comparable coefficients but no property named "ParticleNumber",
    [transform] raises [KeyError], however many properties of other names
    are added.  In both cases the transformer is left as it was. *)
Theorem transform_needs_particle_number self props :
  _check_configuration self = Ok tt ->
  transform self (fold_left add_property props ElectronicDriverResult.init)
  = (self, Raise (AttributeError "coeff_alpha")) /\
  forall molecule_data t cb beta_spin,
    electronic_basis_transform molecule_data = Some t ->
    coeff_beta t = Some cb ->
    Np.allclose (coeff_alpha t) cb = Ok beta_spin ->
    Py.get (properties molecule_data) "ParticleNumber" = None ->
    Forall (fun p => property_name p <> "ParticleNumber") props ->
    transform self (fold_left add_property props molecule_data)
    = (self, Raise (KeyError "ParticleNumber")).
Proof.
  intros Hc. split.
  - unfold ActiveSpaceTransformer.transform, read_molecule.
    now rewrite Hc, add_properties_basis_transform.
  - intros molecule_data t cb bs Ht Hcb Hclose Hget Hprops.
    unfold ActiveSpaceTransformer.transform, read_molecule, particle_number,
      Py.getitem.
    rewrite Hc, add_properties_basis_transform, Ht. cbn [Py.bind].
    rewrite Hcb. cbn [not_none Py.bind]. rewrite Hclose. cbn [Py.bind].
    rewrite (add_properties_other_names _ _ _ Hprops), Hget. reflexivity.
Qed.

End TransformInput.

Lemma transform_needs_particle_number_witness :
  ActiveSpaceTransformer.transform Examples.record_density
    Examples.h2_configuration
    (fold_left ElectronicDriverResult.add_property
       [OtherProperty "Magnetization" []]
       (ElectronicDriverResult.mkElectronicDriverResult
          [("ElectronicEnergy", OtherProperty "ElectronicEnergy" [])]
          (Some (mkElectronicBasisTransform AO MO (Examples.identity 2)
                   (Some (Examples.identity 2))))))
  = (Examples.h2_configuration, Raise (KeyError "ParticleNumber")).
Proof.
  apply (proj2 (transform_needs_particle_number Examples.record_density
                  Examples.h2_configuration
                  [OtherProperty "Magnetization" []] eq_refl)
           (ElectronicDriverResult.mkElectronicDriverResult
              [("ElectronicEnergy", OtherProperty "ElectronicEnergy" [])]
              (Some (mkElectronicBasisTransform AO MO (Examples.identity 2)
                       (Some (Examples.identity 2)))))
           (mkElectronicBasisTransform AO MO (Examples.identity 2)
              (Some (Examples.identity 2)))
           (Examples.identity 2) true).
  - reflexivity.
  - reflexivity.
  - vm_compute. reflexivity.
  - reflexivity.
  - repeat constructor. discriminate.
Defined.

(** ** VibrationalDriverResult *)

Section VibrationalFacts.

Import CompositeProperty VibrationalDriverResult.

Variable VibrationalBasis : Type.
Variable VibrationalOp : Type.
Variable property_second_q_ops :
  VibrationalProperty VibrationalBasis -> result (list VibrationalOp).

Local Abbreviation name := (VibrationalDriverResult.name VibrationalBasis).
Local Abbreviation init := (VibrationalDriverResult.init VibrationalBasis).
Local Abbreviation add_property :=
  (VibrationalDriverResult.add_property VibrationalBasis).
Local Abbreviation get_property :=
  (VibrationalDriverResult.get_property VibrationalBasis).
Local Abbreviation set_basis :=
  (VibrationalDriverResult.set_basis VibrationalBasis).
Local Abbreviation with_basis :=
  (VibrationalDriverResult.with_basis VibrationalBasis).
Local Abbreviation num_modes :=
  (VibrationalDriverResult.num_modes VibrationalBasis).
Local Abbreviation composite :=
  (VibrationalDriverResult.composite VibrationalBasis).
Local Abbreviation second_q_ops :=
  (VibrationalDriverResult.second_q_ops VibrationalBasis VibrationalOp
     property_second_q_ops).
Local Abbreviation from_legacy_driver_result :=
  (VibrationalDriverResult.from_legacy_driver_result VibrationalBasis).

(** X18: [second_q_ops] of a vibrational driver result returns exactly
    when it holds a property under each of the names "VibrationalEnergy"
    and "OccupiedModals" and the [second_q_ops] of both return; the
    result is the energy operators followed by the modal operators.  A
    missing property makes it raise [AttributeError], as on a fresh
    instance; an exception of the energy property is raised before the
    modals are looked up. *)
Theorem vibrational_second_q_ops_outcome
    (self : VibrationalDriverResult VibrationalBasis) :
  (forall ops,
     second_q_ops self = Ok ops <->
     exists energy modals le lm,
       get_property self (ByType "VibrationalEnergy") = Some energy /\
       get_property self (ByType "OccupiedModals") = Some modals /\
       property_second_q_ops energy = Ok le /\
       property_second_q_ops modals = Ok lm /\
       ops = le ++ lm) /\
  (get_property self (ByType "VibrationalEnergy") = None ->
   second_q_ops self = Raise (AttributeError "second_q_ops")) /\
  (forall energy e,
     get_property self (ByType "VibrationalEnergy") = Some energy ->
     property_second_q_ops energy = Raise e ->
     second_q_ops self = Raise e) /\
  (forall energy le,
     get_property self (ByType "VibrationalEnergy") = Some energy ->
     property_second_q_ops energy = Ok le ->
     get_property self (ByType "OccupiedModals") = None ->
     second_q_ops self = Raise (AttributeError "second_q_ops")) /\
  second_q_ops init = Raise (AttributeError "second_q_ops").
Proof.
  unfold VibrationalDriverResult.second_q_ops, ops_of. cbv zeta.
  split; [|split; [|split; [|split]]].
  - intros ops. split.
    + intros Hops. apply bind_ok_inv in Hops as (le & Hle & Hops).
      apply bind_ok_inv in Hops as (lm & Hlm & Hops).
      injection Hops as <-.
      destruct (get_property self (ByType "VibrationalEnergy"))
        as [energy|]; [|discriminate].
      destruct (get_property self (ByType "OccupiedModals"))
        as [modals|]; [|discriminate].
      exists energy, modals, le, lm. auto.
    + intros (energy & modals & le & lm & -> & -> & Hle & Hlm & ->).
      rewrite Hle. cbn [Py.bind]. rewrite Hlm. reflexivity.
  - intros ->. reflexivity.
  - intros energy e -> ->. reflexivity.
  - intros energy le -> -> ->. reflexivity.
  - reflexivity.
Qed.

Lemma get_map_values {V} (f : V -> V) (d : Py.dict V) (k : string) :
  Py.get (List.map (fun kv => (fst kv, f (snd kv))) d) k
  = option_map f (Py.get d k).
Proof.
  induction d as [|[k' v] r IH]; simpl; [reflexivity|].
  destruct (String.eqb k k'); [reflexivity|exact IH].
Qed.

(** X19: [set_basis] assigns the basis to every stored property and to
    nothing else: names, order and [num_modes] stay, a lookup afterwards
    gives the property with the basis set, and a later [set_basis]
    overrides an earlier one.  A property added after [set_basis] is
    stored as it is, without the basis; one added before receives it. *)
Theorem set_basis_reaches_stored_properties
    (self : VibrationalDriverResult VibrationalBasis)
    (basis : VibrationalBasis) :
  (forall k,
     get_property (set_basis self basis) k
     = option_map (with_basis basis) (get_property self k)) /\
  Py.keys (_properties (composite (set_basis self basis)))
  = Py.keys (_properties (composite self)) /\
  num_modes (set_basis self basis) = num_modes self /\
  (forall basis',
     set_basis (set_basis self basis) basis' = set_basis self basis') /\
  (forall p,
     get_property (add_property (set_basis self basis) p) (ByName (name p))
     = Some p) /\
  (forall p,
     get_property (set_basis (add_property self p) basis) (ByName (name p))
     = Some (with_basis basis p)).
Proof.
  split; [|split; [|split; [|split; [|split]]]].
  - intros k. unfold VibrationalDriverResult.get_property,
      CompositeProperty.get_property, VibrationalDriverResult.set_basis.
    cbn [VibrationalDriverResult.composite _properties].
    apply get_map_values.
  - unfold VibrationalDriverResult.set_basis, Py.keys.
    cbn [VibrationalDriverResult.composite _properties].
    rewrite map_map. reflexivity.
  - reflexivity.
  - intros basis'. unfold VibrationalDriverResult.set_basis.
    cbn [VibrationalDriverResult.composite _properties composite_name
         VibrationalDriverResult._num_modes].
    rewrite map_map. reflexivity.
  - intros p. unfold VibrationalDriverResult.get_property,
      VibrationalDriverResult.add_property, CompositeProperty.get_property,
      CompositeProperty.add_property.
    cbn [VibrationalDriverResult.composite _properties].
    apply get_set_same.
  - intros p. unfold VibrationalDriverResult.get_property,
      CompositeProperty.get_property, VibrationalDriverResult.set_basis,
      VibrationalDriverResult.add_property, CompositeProperty.add_property.
    cbn [VibrationalDriverResult.composite _properties].
    rewrite get_map_values, get_set_same. reflexivity.
Qed.

(** X20: [from_legacy_driver_result] raises what the type check raises;
    when the check passes and both properties are built, the result has
    the number of modes of the Watson Hamiltonian and holds the modals
    under their name and, when the two names differ, the energy before
    them and nothing else; with the names "VibrationalEnergy" and
    "OccupiedModals", its [second_q_ops] are the operators of the two
    properties. *)
Theorem from_legacy_driver_result_outcome {LegacyDriverResult : Type}
    (_validate_input_type : LegacyDriverResult -> result unit)
    (watson_num_modes : LegacyDriverResult -> Z)
    (energy_from_legacy modals_from_legacy :
       LegacyDriverResult -> result (VibrationalProperty VibrationalBasis))
    (legacy : LegacyDriverResult) :
  (forall e,
     _validate_input_type legacy = Raise e ->
     from_legacy_driver_result _validate_input_type watson_num_modes
       energy_from_legacy modals_from_legacy legacy = Raise e) /\
  (forall energy modals,
     _validate_input_type legacy = Ok tt ->
     energy_from_legacy legacy = Ok energy ->
     modals_from_legacy legacy = Ok modals ->
     exists ret,
       from_legacy_driver_result _validate_input_type watson_num_modes
         energy_from_legacy modals_from_legacy legacy = Ok ret /\
       num_modes ret = Some (watson_num_modes legacy) /\
       get_property ret (ByName (name modals)) = Some modals /\
       (name energy <> name modals ->
        _properties (composite ret)
        = [(name energy, energy); (name modals, modals)]) /\
       (name energy = "VibrationalEnergy" ->
        name modals = "OccupiedModals" ->
        second_q_ops ret
        = (le <- property_second_q_ops energy ;;
           lm <- property_second_q_ops modals ;;
           Ok (le ++ lm))%py)).
Proof.
  unfold VibrationalDriverResult.from_legacy_driver_result. split.
  - intros e ->. reflexivity.
  - intros energy modals -> -> ->. cbn [Py.bind]. eexists.
    split; [reflexivity|]. split; [reflexivity|]. split; [|split].
    + unfold VibrationalDriverResult.get_property,
        VibrationalDriverResult.add_property, CompositeProperty.get_property,
        CompositeProperty.add_property.
      cbn [VibrationalDriverResult.composite _properties].
      apply get_set_same.
    + intros Hne. cbn.
      destruct (String.eqb_spec (name modals) (name energy)) as [E|E];
        [congruence|reflexivity].
    + intros He Hm.
      unfold VibrationalDriverResult.second_q_ops, ops_of,
        VibrationalDriverResult.get_property,
        VibrationalDriverResult.add_property, CompositeProperty.get_property,
        CompositeProperty.add_property.
      cbn [VibrationalDriverResult.composite _properties
           VibrationalDriverResult.init CompositeProperty.init].
      cbn [Py.set]. rewrite He, Hm. cbn. reflexivity.
Qed.

End VibrationalFacts.

Lemma vibrational_second_q_ops_outcome_witness :
  VibrationalDriverResult.second_q_ops Z Z Examples.vibrational_ops
    (VibrationalDriverResult.add_property Z
       (VibrationalDriverResult.init Z)
       (VibrationalDriverResult.mkVibrationalProperty Z
          "VibrationalEnergy" None 5))
  = Raise (AttributeError "second_q_ops").
Proof.
  apply (proj1 (proj2 (proj2 (proj2
           (vibrational_second_q_ops_outcome Z Z Examples.vibrational_ops
              (VibrationalDriverResult.add_property Z
                 (VibrationalDriverResult.init Z)
                 (VibrationalDriverResult.mkVibrationalProperty Z
                    "VibrationalEnergy" None 5))))))
           (VibrationalDriverResult.mkVibrationalProperty Z
              "VibrationalEnergy" None 5) [5]).
  - reflexivity.
  - reflexivity.
  - reflexivity.
Defined.

Lemma set_basis_reaches_stored_properties_witness :
  VibrationalDriverResult.get_property Z
    (VibrationalDriverResult.set_basis Z
       (VibrationalDriverResult.add_property Z
          (VibrationalDriverResult.init Z)
          (VibrationalDriverResult.mkVibrationalProperty Z
             "OccupiedModals" None 2))
       7)
    (CompositeProperty.ByName "OccupiedModals")
  = Some (VibrationalDriverResult.mkVibrationalProperty Z
            "OccupiedModals" (Some 7) 2).
Proof.
  exact (proj2 (proj2 (proj2 (proj2 (proj2
           (set_basis_reaches_stored_properties Z
              (VibrationalDriverResult.init Z) 7)))))
           (VibrationalDriverResult.mkVibrationalProperty Z
              "OccupiedModals" None 2)).
Defined.

Lemma from_legacy_driver_result_outcome_witness :
  exists ret,
    VibrationalDriverResult.from_legacy_driver_result Z
      (fun _ : Z => Ok tt) (fun legacy => legacy)
      (fun legacy =>
         Ok (VibrationalDriverResult.mkVibrationalProperty Z
               "VibrationalEnergy" None legacy))
      (fun legacy =>
         Ok (VibrationalDriverResult.mkVibrationalProperty Z
               "OccupiedModals" None (legacy + 1)))
      3 = Ok ret /\
    VibrationalDriverResult.num_modes Z ret = Some 3 /\
    VibrationalDriverResult.second_q_ops Z Z Examples.vibrational_ops ret
    = Ok [3; 4].
Proof.
  destruct (proj2 (from_legacy_driver_result_outcome Z Z
                     Examples.vibrational_ops
                     (fun _ : Z => Ok tt) (fun legacy => legacy)
                     (fun legacy =>
                        Ok (VibrationalDriverResult.mkVibrationalProperty Z
                              "VibrationalEnergy" None legacy))
                     (fun legacy =>
                        Ok (VibrationalDriverResult.mkVibrationalProperty Z
                              "OccupiedModals" None (legacy + 1)))
                     3)
              (VibrationalDriverResult.mkVibrationalProperty Z
                 "VibrationalEnergy" None 3)
              (VibrationalDriverResult.mkVibrationalProperty Z
                 "OccupiedModals" None 4)
              eq_refl eq_refl eq_refl)
    as (ret & Hret & Hmodes & _ & _ & Hops).
  exists ret. split; [exact Hret|]. split; [exact Hmodes|].
  rewrite (Hops eq_refl eq_refl). reflexivity.
Defined.

(** ** ElectronicDriverResult.from_driver_result *)

Section FromDriverResult.

Import ElectronicDriverResult.

Variable LegacyDriverResult : Type.
Variable _validate_input_type : LegacyDriverResult -> result unit.
Variables energy_from_driver_result particle_number_from_driver_result
  angular_momentum_from_driver_result magnetization_from_driver_result
  dipole_moment_from_driver_result energy_ao dipole_moment_ao :
  LegacyDriverResult -> result SecondQuantizedProperty.
Variable basis_transform_ao_mo : LegacyDriverResult -> ElectronicBasisTransform.

Local Abbreviation from_driver_result :=
  (from_driver_result _validate_input_type
     energy_from_driver_result particle_number_from_driver_result
     angular_momentum_from_driver_result magnetization_from_driver_result
     dipole_moment_from_driver_result energy_ao dipole_moment_ao
     basis_transform_ao_mo).

(** X21: when every step of [from_driver_result] returns, the two
    properties built from the atomic-orbital integrals replace the
    electronic energy and the dipole moment read from the legacy result,
    whose names they share: the result holds five properties, in the
    order in which their names were first added, and the basis transform
    of the legacy result.  An exception of the type check is raised as it
    is. *)
Theorem from_driver_result_overwrites qmol :
  (forall e,
     _validate_input_type qmol = Raise e -> from_driver_result qmol = Raise e) /\
  (forall energy pn momentum magnetization dipole energy' dipole',
     _validate_input_type qmol = Ok tt ->
     energy_from_driver_result qmol = Ok energy ->
     particle_number_from_driver_result qmol = Ok pn ->
     angular_momentum_from_driver_result qmol = Ok momentum ->
     magnetization_from_driver_result qmol = Ok magnetization ->
     dipole_moment_from_driver_result qmol = Ok dipole ->
     energy_ao qmol = Ok energy' ->
     dipole_moment_ao qmol = Ok dipole' ->
     property_name energy' = property_name energy ->
     property_name dipole' = property_name dipole ->
     NoDup [property_name energy; property_name pn; property_name momentum;
            property_name magnetization; property_name dipole] ->
     from_driver_result qmol
     = Ok (mkElectronicDriverResult
             [(property_name energy, energy');
              (property_name pn, pn);
              (property_name momentum, momentum);
              (property_name magnetization, magnetization);
              (property_name dipole, dipole')]
             (Some (basis_transform_ao_mo qmol)))).
Proof.
  unfold ElectronicDriverResult.from_driver_result. split.
  - intros e ->. reflexivity.
  - intros energy pn momentum magnetization dipole energy' dipole'
      -> -> -> -> -> -> -> -> He Hd Hnd.
    cbn [Py.bind]. unfold ElectronicDriverResult.add_property.
    cbn [properties electronic_basis_transform ElectronicDriverResult.init].
    rewrite He, Hd.
    inversion Hnd as [|? ? N1 Hnd1]; subst.
    inversion Hnd1 as [|? ? N2 Hnd2]; subst.
    inversion Hnd2 as [|? ? N3 Hnd3]; subst.
    inversion Hnd3 as [|? ? N4 Hnd4]; subst.
    cbn [In] in N1, N2, N3, N4.
    cbn [Py.set].
    repeat match goal with
           | |- context [String.eqb ?a ?b] =>
               destruct (String.eqb_spec a b); cbn [Py.set]
           end;
      try reflexivity; exfalso; intuition congruence.
Qed.

End FromDriverResult.

Lemma from_driver_result_overwrites_witness :
  ElectronicDriverResult.from_driver_result
    (fun _ : unit => Ok tt)
    (fun _ => Ok (OtherProperty "ElectronicEnergy" [Examples.identity 2]))
    (fun _ => Ok (ParticleNumberProperty Examples.pn_h2))
    (fun _ => Ok (OtherProperty "AngularMomentum" []))
    (fun _ => Ok (OtherProperty "Magnetization" []))
    (fun _ => Ok (OtherProperty "TotalDipoleMoment" [Examples.identity 2]))
    (fun _ => Ok (OtherProperty "ElectronicEnergy" []))
    (fun _ => Ok (OtherProperty "TotalDipoleMoment" []))
    (fun _ => mkElectronicBasisTransform AO MO (Examples.identity 2) None)
    tt
  = Ok (ElectronicDriverResult.mkElectronicDriverResult
          [("ElectronicEnergy", OtherProperty "ElectronicEnergy" []);
           ("ParticleNumber", ParticleNumberProperty Examples.pn_h2);
           ("AngularMomentum", OtherProperty "AngularMomentum" []);
           ("Magnetization", OtherProperty "Magnetization" []);
           ("TotalDipoleMoment", OtherProperty "TotalDipoleMoment" [])]
          (Some (mkElectronicBasisTransform AO MO (Examples.identity 2) None))).
Proof.
  apply (proj2 (from_driver_result_overwrites unit
                  (fun _ : unit => Ok tt)
                  (fun _ => Ok (OtherProperty "ElectronicEnergy"
                                  [Examples.identity 2]))
                  (fun _ => Ok (ParticleNumberProperty Examples.pn_h2))
                  (fun _ => Ok (OtherProperty "AngularMomentum" []))
                  (fun _ => Ok (OtherProperty "Magnetization" []))
                  (fun _ => Ok (OtherProperty "TotalDipoleMoment"
                                  [Examples.identity 2]))
                  (fun _ => Ok (OtherProperty "ElectronicEnergy" []))
                  (fun _ => Ok (OtherProperty "TotalDipoleMoment" []))
                  (fun _ => mkElectronicBasisTransform AO MO
                              (Examples.identity 2) None)
                  tt)
           (OtherProperty "ElectronicEnergy" [Examples.identity 2])
           (ParticleNumberProperty Examples.pn_h2)
           (OtherProperty "AngularMomentum" [])
           (OtherProperty "Magnetization" [])
           (OtherProperty "TotalDipoleMoment" [Examples.identity 2])
           (OtherProperty "ElectronicEnergy" [])
           (OtherProperty "TotalDipoleMoment" []));
    try reflexivity.
  repeat constructor; simpl; intuition discriminate.
Defined.

(** ** ActiveSpaceTransformer: the exceptions of [transform] *)

Section TransformExceptions.

Import ElectronicDriverResult ActiveSpaceTransformer.

Variable reduce_system_size :
  SecondQuantizedProperty -> Np.matrix * option Np.matrix ->
  ElectronicBasisTransform -> result SecondQuantizedProperty.

Local Abbreviation transform := (transform reduce_system_size).
Local Abbreviation reduce_molecule := (reduce_molecule reduce_system_size).
Local Abbreviation reduce_properties := (reduce_properties reduce_system_size).

(** The exceptions the transformer and the array operations raise
    themselves. *)
Local Abbreviation own e :=
  (match e with
   | QiskitNatureError _ _ | AttributeError _ | KeyError _
   | IndexError | TypeError | ValueError => True
   | _ => False
   end).

Lemma bind_raise_inv {A B} (c : result A) (k : A -> result B) (e : exn) :
  Py.bind c k = Raise e ->
  c = Raise e \/ exists a, c = Ok a /\ k a = Raise e.
Proof. destruct c as [a|e']; simpl; [eauto|intros [= ->]; auto]. Qed.

Lemma index_raises {A} (a : list A) (i : Z) (e : exn) :
  Np.index a i = Raise e -> e = IndexError.
Proof.
  unfold Np.index. cbv zeta.
  destruct (_ || _); [now intros [= <-]|].
  destruct (nth_error _ _); [discriminate|now intros [= <-]].
Qed.

Lemma take_raises {A} (a : list A) (idxs : list Z) (e : exn) :
  Np.take a idxs = Raise e -> e = IndexError.
Proof.
  induction idxs as [|i r IH]; simpl; [discriminate|].
  intros H. apply bind_raise_inv in H as [H|(v & _ & H)];
    [exact (index_raises _ _ _ H)|].
  apply bind_raise_inv in H as [H|(vs & _ & H)]; [auto|discriminate].
Qed.

Lemma take_rows_raises (m : Np.matrix) (idxs : list Z) (e : exn) :
  Np.take_rows m idxs = Raise e -> e = IndexError.
Proof.
  induction m as [|row rest IH]; simpl; [discriminate|].
  intros H. apply bind_raise_inv in H as [H|(v & _ & H)];
    [exact (take_raises _ _ _ H)|].
  apply bind_raise_inv in H as [H|(vs & _ & H)]; [auto|discriminate].
Qed.

Lemma take_cols_raises (m : Np.matrix) (idxs : list Z) (e : exn) :
  Np.take_cols m idxs = Raise e -> e = IndexError.
Proof.
  unfold Np.take_cols. destruct m as [|row rest].
  - destruct idxs; [discriminate|now intros [= <-]].
  - apply take_rows_raises.
Qed.

Lemma density_inactive_raises mo_occ mo_coeff idxs (e : exn) :
  density_inactive mo_occ mo_coeff idxs = Raise e -> e = IndexError.
Proof.
  unfold density_inactive. intros H.
  apply bind_raise_inv in H as [H|(o & _ & H)];
    [exact (take_raises _ _ _ H)|].
  apply bind_raise_inv in H as [H|(c & _ & H)];
    [exact (take_cols_raises _ _ _ H)|discriminate].
Qed.

Lemma particle_number_raises molecule_data attr (e : exn) :
  particle_number molecule_data attr = Raise e ->
  e = KeyError "ParticleNumber" \/ e = AttributeError attr.
Proof.
  unfold particle_number, Py.getitem.
  destruct (Py.get _ _) as [[pn|nm data]|]; cbn [Py.bind];
    [discriminate| |]; intros [= <-]; auto.
Qed.

Lemma select_inactive_raises active occ candidates (e : exn) :
  select_inactive active occ candidates = Raise e -> e = IndexError.
Proof.
  induction candidates as [|o r IH]; cbn [select_inactive]; [discriminate|].
  intros H. apply bind_raise_inv in H as [H|(keep & _ & H)].
  - destruct (negb (Py.mem o active)); [|discriminate].
    apply bind_raise_inv in H as [H|(v & _ & H)];
      [exact (index_raises _ _ _ H)|discriminate].
  - apply bind_raise_inv in H as [H|(tail & _ & H)]; [auto|discriminate].
Qed.

Lemma validate_num_orbitals_raises self nelec_inactive molecule_data
    (e : exn) :
  _validate_num_orbitals self nelec_inactive molecule_data = Raise e -> own e.
Proof.
  unfold _validate_num_orbitals.
  destruct (_active_orbitals self) as [active|]; cbv zeta; intros H.
  - apply bind_raise_inv in H as [H|(u & _ & H)].
    { destruct (match _num_molecular_orbitals self with
                | Some m => negb (m =? Z.of_nat (List.length active))
                | None => true
                end); [|discriminate]. now injection H as <-. }
    apply bind_raise_inv in H as [H|(top & _ & H)].
    { destruct active; [|discriminate]. now injection H as <-. }
    apply bind_raise_inv in H as [H|(pn & _ & H)].
    { now apply particle_number_raises in H as [->| ->]. }
    apply bind_raise_inv in H as [H|(u' & _ & H)].
    { destruct (top >=? _); [|discriminate]. now injection H as <-. }
    apply bind_raise_inv in H as [H|(occ & _ & H)].
    { destruct (_mo_occ_total self); [discriminate|]. now injection H as <-. }
    apply bind_raise_inv in H as [H|(sel & _ & H)].
    { now rewrite (take_raises _ _ _ H). }
    apply bind_raise_inv in H as [H|(differs & _ & H)].
    { destruct (_num_electrons self) as [[n|a b]|]; try discriminate.
      now injection H as <-. }
    destruct differs; [|discriminate]. now injection H as <-.
  - apply bind_raise_inv in H as [H|(m & _ & H)].
    { destruct (_num_molecular_orbitals self); [discriminate|].
      now injection H as <-. }
    apply bind_raise_inv in H as [H|(pn & _ & H)].
    { now apply particle_number_raises in H as [->| ->]. }
    destruct (_ >? _); [|discriminate]. now injection H as <-.
Qed.

(** Once the requested counts are bound, [_determine_active_space]
    raises its own exceptions only. *)
Lemma determine_active_space_raises self molecule_data (e : exn) :
  requested_counts (_num_electrons self) <> None ->
  snd (_determine_active_space self molecule_data) = Raise e -> own e.
Proof.
  intros Hreq. unfold _determine_active_space.
  destruct (particle_number molecule_data "_num_alpha") as [pn|e'] eqn:Hpn.
  2:{ cbn [snd]. intros [= <-].
      now apply particle_number_raises in Hpn as [->| ->]. }
  destruct (requested_counts (_num_electrons self)) as [[a b]|];
    [|contradiction].
  cbn [snd]. intros H.
  apply bind_raise_inv in H as [H|(u & _ & H)].
  { unfold _validate_num_electrons in H.
    destruct (_ <? 0); [now injection H as <-|].
    destruct (negb _); [now injection H as <-|discriminate]. }
  apply bind_raise_inv in H as [H|(u' & _ & H)].
  { exact (validate_num_orbitals_raises _ _ _ _ H). }
  destruct (_active_orbitals (set_num_particles self (a, b))) as [active|].
  - apply bind_raise_inv in H as [H|(occ & _ & H)].
    { destruct (_mo_occ_total _); [discriminate|]. now injection H as <-. }
    apply bind_raise_inv in H as [H|(inactive & _ & H)]; [|discriminate].
    now rewrite (select_inactive_raises _ _ _ _ H).
  - apply bind_raise_inv in H as [H|(m & _ & H)]; [|discriminate].
    destruct (_num_molecular_orbitals _); [discriminate|].
    now injection H as <-.
Qed.

Lemma read_molecule_raises molecule_data (e : exn) :
  read_molecule molecule_data = Raise e -> own e.
Proof.
  unfold read_molecule. intros H.
  apply bind_raise_inv in H as [H|(ebt & _ & H)].
  { destruct (electronic_basis_transform molecule_data); [discriminate|].
    now injection H as <-. }
  apply bind_raise_inv in H as [H|(cb & _ & H)].
  { destruct (coeff_beta ebt); [discriminate|]. now injection H as <-. }
  apply bind_raise_inv in H as [H|(bs & _ & H)].
  { unfold Np.allclose in H.
    destruct (Np.bshape _ _); [destruct (Np.bshape _ _)|];
      try discriminate; now injection H as <-. }
  apply bind_raise_inv in H as [H|(pn & _ & H)].
  { now apply particle_number_raises in H as [->| ->]. }
  apply bind_raise_inv in H as [H|(total & _ & H)]; [|discriminate].
  unfold Np.add in H. destruct (Np.bshape _ _); [discriminate|].
  now injection H as <-.
Qed.

Lemma reduce_properties_raises props density basis_transform acc (e : exn) :
  reduce_properties props density basis_transform acc = Raise e ->
  exists p,
    In p props /\
    reduce_system_size p density basis_transform = Raise e /\
    e <> NotImplementedError.
Proof.
  revert acc. induction props as [|p r IH]; intros acc; simpl; [discriminate|].
  destruct (reduce_system_size p density basis_transform) as [q|e'] eqn:E.
  - intros H. destruct (IH _ H) as (p' & Hin & Hp' & Hne). eauto.
  - destruct e'; try (intros [= <-]; exists p;
                      split; [now left|split; [exact E|discriminate]]).
    intros H. destruct (IH _ H) as (p' & Hin & Hp' & Hne). eauto.
Qed.

Lemma reduce_molecule_raises self molecule_data coeff beta_spin occ
    active inactive (e : exn) :
  reduce_molecule self molecule_data coeff beta_spin occ active inactive
  = Raise e ->
  (exists p density basis_transform,
     In p (Py.values (properties molecule_data)) /\
     reduce_system_size p density basis_transform = Raise e /\
     e <> NotImplementedError) \/
  own e.
Proof.
  unfold ActiveSpaceTransformer.reduce_molecule. intros H.
  apply bind_raise_inv in H as [H|(da & _ & H)].
  { right. now rewrite (density_inactive_raises _ _ _ _ H). }
  apply bind_raise_inv in H as [H|(db & _ & H)].
  { right. destruct beta_spin; [|discriminate].
    apply bind_raise_inv in H as [H|(d & _ & H)]; [|discriminate].
    now rewrite (density_inactive_raises _ _ _ _ H). }
  apply bind_raise_inv in H as [H|(c_a & _ & H)].
  { right. now rewrite (take_cols_raises _ _ _ H). }
  apply bind_raise_inv in H as [H|(c_b & _ & H)].
  { right. destruct beta_spin; [|discriminate].
    apply bind_raise_inv in H as [H|(d & _ & H)]; [|discriminate].
    now rewrite (take_cols_raises _ _ _ H). }
  apply bind_raise_inv in H as [H|(red & _ & H)].
  { left. apply reduce_properties_raises in H as (p & Hin & Hp & Hne).
    exists p. eexists. eexists. eauto. }
  right.
  apply bind_raise_inv in H as [H|(m & _ & H)].
  { destruct (_num_molecular_orbitals self); [discriminate|].
    now injection H as <-. }
  apply bind_raise_inv in H as [H|(np & _ & H)].
  { destruct (_num_particles self); [discriminate|]. now injection H as <-. }
  apply bind_raise_inv in H as [H|(occ_a & _ & H)].
  { now rewrite (take_raises _ _ _ H). }
  apply bind_raise_inv in H as [H|(occ_b & _ & H)]; [|discriminate].
  now rewrite (take_raises _ _ _ H).
Qed.

(** X22: an exception of [transform] is either the exception, other than
    [NotImplementedError], that [reduce_system_size] raised on one of the
    properties of the molecule data, or one of [QiskitNatureError],
    [AttributeError], [KeyError], [IndexError], [TypeError] and
    [ValueError].  In particular the unbound [num_alpha] of
    [_determine_active_space] is never reached through [transform]: the
    configuration check refuses an electron count that is neither an
    integer nor a pair. *)
Theorem transform_exceptions self molecule_data (e : exn) :
  snd (transform self molecule_data) = Raise e ->
  (exists p density basis_transform,
     In p (Py.values (properties molecule_data)) /\
     reduce_system_size p density basis_transform = Raise e /\
     e <> NotImplementedError) \/
  match e with
  | QiskitNatureError _ _ | AttributeError _ | KeyError _
  | IndexError | TypeError | ValueError => True
  | _ => False
  end.
Proof.
  intros H.
  destruct (_check_configuration self) as [[]|e'] eqn:Hc.
  2:{ rewrite (transform_configuration_error _ _ _ _ Hc) in H.
      injection H as <-. now right. }
  destruct (read_molecule molecule_data)
    as [[[[[ca cb] bs] occ] total]|e'] eqn:Hr.
  2:{ unfold ActiveSpaceTransformer.transform in H. rewrite Hc, Hr in H.
      injection H as <-. right. exact (read_molecule_raises _ _ Hr). }
  rewrite (transform_eq _ _ _ _ _ _ _ _ Hc Hr) in H.
  apply bind_raise_inv in H as [H|(idxs & _ & H)].
  - right. revert H. apply determine_active_space_raises.
    apply check_configuration_ok in Hc as [Hn _].
    change (_num_electrons (set_mo_occ_total self total))
      with (_num_electrons self).
    destruct (_num_electrons self) as [[n|a b]|]; [discriminate..|contradiction].
  - exact (reduce_molecule_raises _ _ _ _ _ _ _ _ H).
Qed.

End TransformExceptions.

Lemma transform_exceptions_witness :
  exists p density basis_transform,
    In p [OtherProperty "Bad" []; ParticleNumberProperty Examples.pn_h2] /\
    Examples.failing_reduce p density basis_transform
    = Raise (RuntimeError "not reducible").
Proof.
  destruct (transform_exceptions Examples.failing_reduce
              Examples.h2_configuration
              (ElectronicDriverResult.mkElectronicDriverResult
                 [("Bad", OtherProperty "Bad" []);
                  ("ParticleNumber", ParticleNumberProperty Examples.pn_h2)]
                 (Some (mkElectronicBasisTransform AO MO (Examples.identity 2)
                          (Some (Examples.identity 2)))))
              (RuntimeError "not reducible")
              ltac:(vm_compute; reflexivity))
    as [(p & density & basis_transform & Hin & Hp & _)|[]].
  exists p, density, basis_transform. split; [exact Hin|exact Hp].
Defined.

(** ** ActiveSpaceTransformer: reusing a transformer *)

Section TransformReuse.

Import ElectronicDriverResult ActiveSpaceTransformer.

Variable reduce_system_size :
  SecondQuantizedProperty -> Np.matrix * option Np.matrix ->
  ElectronicBasisTransform -> result SecondQuantizedProperty.

Local Abbreviation transform := (transform reduce_system_size).

(** The outcome of [transform] depends on the configuration only, not on
    what [_mo_occ_total] and [_num_particles] hold when it is called. *)
Lemma transform_reads_configuration_only self1 self2 molecule_data :
  _num_electrons self1 = _num_electrons self2 ->
  _num_molecular_orbitals self1 = _num_molecular_orbitals self2 ->
  _active_orbitals self1 = _active_orbitals self2 ->
  snd (transform self1 molecule_data) = snd (transform self2 molecule_data).
Proof.
  destruct self1 as [ne1 nm1 ao1 occ1 np1], self2 as [ne2 nm2 ao2 occ2 np2].
  cbn [_num_electrons _num_molecular_orbitals _active_orbitals].
  intros -> -> ->.
  unfold ActiveSpaceTransformer.transform.
  change (_check_configuration (mkTransformer ne2 nm2 ao2 occ1 np1))
    with (_check_configuration (mkTransformer ne2 nm2 ao2 occ2 np2)).
  destruct (_check_configuration (mkTransformer ne2 nm2 ao2 occ2 np2))
    as [[]|e]; [|destruct e; reflexivity].
  destruct (read_molecule molecule_data)
    as [[[[[ca cb] bs] occ] total]|e]; [|reflexivity].
  unfold _determine_active_space, set_mo_occ_total, set_num_particles.
  cbn [_num_electrons _num_molecular_orbitals _active_orbitals
       _mo_occ_total _num_particles].
  destruct (particle_number molecule_data "_num_alpha") as [pn|e];
    [|reflexivity].
  destruct (requested_counts ne2) as [[a b]|]; reflexivity.
Qed.

Lemma transform_configuration_kept self molecule_data :
  _num_electrons (fst (transform self molecule_data)) = _num_electrons self /\
  _num_molecular_orbitals (fst (transform self molecule_data))
  = _num_molecular_orbitals self /\
  _active_orbitals (fst (transform self molecule_data))
  = _active_orbitals self.
Proof.
  unfold ActiveSpaceTransformer.transform.
  destruct (_check_configuration self) as [[]|e].
  2:{ destruct e; cbn; tauto. }
  destruct (read_molecule molecule_data)
    as [[[[[ca cb] bs] occ] total]|e]; [|cbn; tauto].
  pose proof (determine_active_space_config (set_mo_occ_total self total)
                molecule_data) as Hd. cbv zeta in Hd.
  destruct (_determine_active_space (set_mo_occ_total self total)
                                    molecule_data) as [s r].
  cbn [fst] in *. tauto.
Qed.

(** X23: a transformer can be reused: what an earlier [transform] left
    in [_mo_occ_total] and [_num_particles] has no influence on a later
    one, on the same or on other molecule data, whether the earlier call
    returned or raised. *)
Theorem transform_reusable self molecule_data molecule_data' :
  snd (transform (fst (transform self molecule_data)) molecule_data')
  = snd (transform self molecule_data').
Proof.
  destruct (transform_configuration_kept self molecule_data)
    as (H1 & H2 & H3).
  now apply transform_reads_configuration_only.
Qed.

End TransformReuse.
